(** * livepeer-swarm media server: stream routing and subscription lifecycle

    A shallow embedding of [mediaserver/mediaserver.go]: the stream-id parser,
    the HLS playback handler with its readiness polling, the idle-subscription
    worker, the RTMP publish and playback handlers and the [/createStream]
    endpoint.  Handlers are state-passing programs over a [World] that holds
    the streamer, the [hlsSubTimer] map, a clock and the log of every call
    made on a collaborator (streamer, forwarder, visualiser, buffer).  The
    playback requests and the unsubscribe worker, which run side by side,
    are also put together as a system of events.  From
    [livepeer/livepeer.go] comes the derivation of the HTTP port in
    [Swarm.Start]. *)

From Stdlib Require Import String Ascii ZArith Lia List Permutation.
From Stdlib Require Import Decimal DecimalString DecimalPos DecimalZ.
From stdpp Require Import base gmap strings list.
From Equations Require Import Equations.

Local Open Scope string_scope.
Local Open Scope Z_scope.

(** ** Go strings and the two library calls of [parseStreamID] *)

Module GoStrings.

(** [strip_prefix p s] is [Some r] when [s = p ++ r]. *)
Fixpoint strip_prefix (p s : string) : option string :=
  match p with
  | EmptyString => Some s
  | String a p' =>
      match s with
      | EmptyString => None
      | String b s' => if Ascii.eqb a b then strip_prefix p' s' else None
      end
  end.

(** The classes of the pattern: [[[:alpha:]]] is [A-Za-z] and [\d] is
    [0-9] in Go's RE2 syntax. *)
Definition is_alpha (c : ascii) : bool :=
  let n := nat_of_ascii c in
  ((65 <=? n)%nat && (n <=? 90)%nat) || ((97 <=? n)%nat && (n <=? 122)%nat).

Definition is_digit (c : ascii) : bool :=
  let n := nat_of_ascii c in (48 <=? n)%nat && (n <=? 57)%nat.

Definition is_alnum (c : ascii) : bool := is_alpha c || is_digit c.

(** The greedy star [([[:alpha:]]|\d)*]: the longest alphanumeric prefix. *)
Fixpoint span_alnum (s : string) : string :=
  match s with
  | EmptyString => EmptyString
  | String c s' => if is_alnum c then String c (span_alnum s') else EmptyString
  end.

Fixpoint all_alnum (s : string) : bool :=
  match s with
  | EmptyString => true
  | String c s' => is_alnum c && all_alnum s'
  end.

(** [regexp.Compile("\\/stream\\/([[:alpha:]]|\\d)*")] followed by
    [FindString]: the leftmost match, [""] when there is none. *)
Fixpoint FindString (s : string) : string :=
  match strip_prefix "/stream/" s with
  | Some rest => "/stream/" ++ span_alnum rest
  | None =>
      match s with
      | EmptyString => ""
      | String _ s' => FindString s'
      end
  end.

Definition inspect {A} (a : A) : {b | a = b} := exist _ a eq_refl.

(** [strings.Replace(s, old, new, -1)] for a non-empty [old]: every
    non-overlapping occurrence of [old], left to right, becomes [new].
    (With an empty [old] Go inserts [new] between the runes; the media
    server never does that and the model leaves [s] as it is.) *)
Equations? Replace (s old new : string) : string by wf (String.length s) lt :=
  Replace EmptyString old new := EmptyString;
  Replace (String c s') old new
    with inspect (strip_prefix old (String c s')) => {
    | exist _ (Some rest) Heq with old => {
        | EmptyString := String c s'
        | String _ _ := new ++ Replace rest old new };
    | exist _ None _ := String c (Replace s' old new) }.
Proof.
  assert (Hlen : forall p t r, strip_prefix p t = Some r ->
                 String.length t = (String.length p + String.length r)%nat).
  { clear. induction p as [|x p IH]; intros [|y t] r; simpl; try congruence.
    - intros [= <-]. reflexivity.
    - intros [= <-]. reflexivity.
    - destruct (Ascii.eqb x y); [|congruence].
      intros H. rewrite (IH _ _ H). reflexivity. }
  pose proof (Hlen (String a s) (String c s') rest Heq) as Hl.
  simpl in *. lia.
Qed.

(** [fmt.Sprintf("%x", h)] on a byte string: two lower-case hexadecimal
    digits per byte. *)
Definition hex_digit (n : nat) : ascii :=
  if (n <? 10)%nat then ascii_of_nat (48 + n) else ascii_of_nat (87 + n).

Fixpoint hex (s : string) : string :=
  match s with
  | EmptyString => EmptyString
  | String c s' =>
      let n := nat_of_ascii c in
      String (hex_digit (n / 16)) (String (hex_digit (n mod 16)) (hex s'))
  end.

End GoStrings.

Import GoStrings.

(** [parseStreamID] (mediaserver.go, lines 306-314). *)
Definition parseStreamID (reqPath : string) : string :=
  let match_ := FindString reqPath in
  if bool_decide (match_ <> "") then Replace match_ "/stream/" "" else "".

(** ** Data *)

(** [type StreamID string]. *)
Abbreviation StreamID := string (only parsing).

(** [lpmsStream.RTMP], [lpmsStream.HLS]. *)
Inductive VideoFormat := RTMP | HLS.

(** What the handlers read of an [lpmsStream.Stream] handle. *)
Record Stream := mkStream { GetStreamID : string; Format : VideoFormat }.

(** [lpmsStream.NewHLSBuffer(window, cap)]. *)
Record HLSBuffer := NewHLSBuffer { bufWindow : Z; bufCap : Z }.

(** [pubsub.NewQueue()]. *)
Inductive Queue := NewQueue.

(** The destination of an RTMP playback ([av.MuxCloser]), by name. *)
Definition MuxCloser := nat.

(** [common.Hash] values as the byte string [Str()] returns. *)
Definition Hash := string.
Definition Hash_Str (h : Hash) : string := h.

(** Go [error] values: the two package-level sentinels, a value made on the
    spot by [errors.New], and the errors that collaborators hand back. *)
Inductive error :=
| ErrNotFound
| ErrStreamPublish
| errors_New (msg : string)
| ErrCollaborator (code : nat).

(** [time.Duration] and clock readings, in nanoseconds. *)
Definition Second : Z := 1000000000.
Definition HLSWaitTime : Z := Second * 10.
Definition HLSBufferCap : Z := 43200.
Definition HLSBufferWindow : Z := 5.
Definition HLSUnsubscribeWaitLimit : Z := Second * 20.

(** [*url.URL]: the path and the query parameters. *)
Record URL := mkURL { Path : string; RawQuery : list (string * string) }.

(** [url.Query().Get(key)]: the first value of [key], [""] when absent. *)
Fixpoint Query_Get (q : list (string * string)) (key : string) : string :=
  match q with
  | [] => ""
  | (k, v) :: q' => if bool_decide (k = key) then v else Query_Get q' key
  end.

(** The body and headers an HTTP handler writes. *)
Record HTTPResponse := mkResponse {
  status : Z;
  contentType : string;
  body : gmap string string + string }.

(** Calls on collaborators, as logged in the [World]. The forwarder calls
    always pass [kademlia.Address(ethCommon.HexToHash(""))] as the peer. *)
Inductive Call :=
| GetNetworkStreamC (id : string)
| AddNewNetworkStreamC (id : string) (f : VideoFormat)
| DeleteNetworkStreamC (id : string)
| GetHLSMuxerC (strmID subID : string)
| SubscribeToHLSStreamC (strmID subID : string) (b : HLSBuffer)
| UnsubscribeToHLSStreamC (strmID subID : string)
| SubscribeToRTMPStreamC (strmID subID : string) (q : Queue)
| UnsubscribeToRTMPStreamC (strmID subID : string)
| UnsubscribeAllC (strmID : string)
| ForwarderStreamC (strmID : string) (f : VideoFormat)
| ForwarderStopStreamC (strmID : string) (f : VideoFormat)
| LatestPlaylistC (strmID : string) (b : HLSBuffer)
| CopyFileC (dst : MuxCloser) (strmID subID : string)
| LogBroadcastC (id : string)
| LogConsumeC (id : string).

#[global] Instance VideoFormat_eq_dec : EqDecision VideoFormat.
Proof. solve_decision. Defined.
#[global] Instance HLSBuffer_eq_dec : EqDecision HLSBuffer.
Proof. solve_decision. Defined.
#[global] Instance Queue_eq_dec : EqDecision Queue.
Proof. solve_decision. Defined.
#[global] Instance Stream_eq_dec : EqDecision Stream.
Proof. solve_decision. Defined.
#[global] Instance error_eq_dec : EqDecision error.
Proof. solve_decision. Defined.
#[global] Instance Call_eq_dec : EqDecision Call.
Proof. unfold MuxCloser. solve_decision. Defined.

(** ** Collaborators *)

(** [streaming.StreamID]'s methods and [streaming.MakeStreamID] are not in
    the sources at hand; the handlers are written over any implementation
    of them. [NodeID] is the type of [streamer.SelfAddress]. *)
Class StreamIDCodec (NodeID : Type) := {
  NodeID_eq_dec :: EqDecision NodeID;
  SplitComponents : StreamID -> NodeID * string;
  MakeStreamID : NodeID -> string -> StreamID }.

(** [*streaming.Streamer], through the methods the media server calls, with
    the argument and result types of the call sites. A method that returns
    [(x, err)] yields both; a [nil] pointer is [None]. The muxers it hands
    out are HLS buffers, as the handler's type assertion expects: with a
    muxer of another kind the assertion of lines 110 and 113 would panic,
    which no handler here does. *)
Class Streamer (NodeID St : Type) := {
  SelfAddress : NodeID;
  GetNetworkStream : St -> StreamID -> option Stream;
  AddNewNetworkStream :
    St -> StreamID -> VideoFormat -> St * (option Stream * option error);
  DeleteNetworkStream : St -> StreamID -> St;
  GetHLSMuxer : St -> string -> string -> option HLSBuffer;
  SubscribeToHLSStream : St -> string -> string -> HLSBuffer -> St * option error;
  UnsubscribeToHLSStream : St -> string -> string -> St;
  SubscribeToRTMPStream : St -> string -> string -> Queue -> St * option error;
  UnsubscribeToRTMPStream : St -> string -> string -> St;
  UnsubscribeAll : St -> string -> St }.

(** What the handlers cannot decide themselves: whether the buffer of a
    stream has a playlist at a given time, by how much a sleep and the work
    around it overrun the requested duration, the random hashes, and how a
    blocking copy ends ([None]: it never does; [Some e]: with error [e],
    [nil] included). *)
Class Environment := {
  LatestPlaylist_ok : string -> HLSBuffer -> Z -> bool;
  oversleep : Z -> N;
  random_hash : nat -> Hash;
  CopyFile_result : MuxCloser -> string -> string -> option (option error) }.

(** ** The world and the handler monad *)

(** How a handler ends: it returns, it panics (a nil dereference), or it
    blocks for ever. *)
Inductive outcome (R : Type) :=
| Returns (r : R)
| Panics
| Blocks.
Arguments Returns {R} r.
Arguments Panics {R}.
Arguments Blocks {R}.

(** One statement either falls through with a value or ends the handler. *)
Inductive flow (R A : Type) :=
| Next (a : A)
| Stop (o : outcome R).
Arguments Next {R A} a.
Arguments Stop {R A} o.

(** A playback request inside its readiness loop (lines 107-121): the
    stream, the buffer it polls and the time it entered the loop. *)
Record Waiting := mkWaiting { wStrmID : string; wBuffer : HLSBuffer; wStart : Z }.

(** What happens between two sleeps of the goroutines around the activity
    map: time passes; a playback request arrives and runs up to its
    readiness loop; the [i]-th request that is about to poll calls
    [LatestPlaylist]; the sleep of the [i]-th sleeping request is over and
    it checks its wait; the worker's sleep is over and its [range] loop
    begins, to produce the keys of [order]; the loop body runs for the next
    key, or the loop is through and the worker goes to sleep; a publish
    session ends and [finishStream] runs. *)
Inductive Event :=
| Tick (d : Z)
| Enter (reqPath : string)
| Poll (i : nat)
| Wake (i : nat)
| SweepStart (order : list string)
| SweepNext
| Finish (rtmpStrmID hlsStrmID : string).

Section MediaServer.

Context {NodeID St : Type}.
Context `{Codec : !StreamIDCodec NodeID, Strm : !Streamer NodeID St, Env : !Environment}.

(** [hlsSubTimer] is the [map[streaming.StreamID]time.Time] that [StartLPMS]
    shares with the unsubscribe worker; [nrand] counts the calls of
    [RandomStreamID] so far; [calls] is in the order the calls were made. *)
Record World := mkWorld {
  streamer : St;
  hlsSubTimer : gmap string Z;
  clock : Z;
  nrand : nat;
  calls : list Call }.

Definition M (R A : Type) : Type := World -> flow R A * World.

Definition ret {R A} (a : A) : M R A := fun w => (Next a, w).

Definition bind {R A B} (m : M R A) (k : A -> M R B) : M R B :=
  fun w =>
    match m w with
    | (Next a, w') => k a w'
    | (Stop o, w') => (Stop o, w')
    end.

(** [return r] in the middle of a handler. *)
Definition return_ {R A} (r : R) : M R A := fun w => (Stop (Returns r), w).

Definition panic {R A} : M R A := fun w => (Stop Panics, w).

(** Running a handler body whose last statement yields the result. *)
Definition run {R} (m : M R R) (w : World) : outcome R * World :=
  match m w with
  | (Next r, w') => (Returns r, w')
  | (Stop o, w') => (o, w')
  end.

Notation "x <- m ;; k" := (bind m (fun x => k))
  (at level 100, m at next level, right associativity).
Notation "m ;;; k" := (bind m (fun _ => k))
  (at level 100, right associativity).

(** World updates. *)
Definition logc (c : Call) (w : World) : World :=
  mkWorld (streamer w) (hlsSubTimer w) (clock w) (nrand w) (calls w ++ [c]).

Definition with_streamer (s : St) (w : World) : World :=
  mkWorld s (hlsSubTimer w) (clock w) (nrand w) (calls w).

Definition with_timer (m : gmap string Z) (w : World) : World :=
  mkWorld (streamer w) m (clock w) (nrand w) (calls w).

(** [time.Sleep(d)]: the clock moves on by [d] and by what the environment
    adds; all other statements take no time of their own. *)
Definition sleep (d : Z) (w : World) : World :=
  mkWorld (streamer w) (hlsSubTimer w)
          (clock w + d + Z.of_N (oversleep (clock w))) (nrand w) (calls w).

Definition time_Sleep {R} (d : Z) : M R unit := fun w => (Next tt, sleep d w).
Definition time_Now {R} : M R Z := fun w => (Next (clock w), w).
Definition time_Since {R} (t : Z) : M R Z := fun w => (Next (clock w - t), w).

(** [streaming.RandomStreamID()]. *)
Definition next_random (w : World) : World :=
  mkWorld (streamer w) (hlsSubTimer w) (clock w) (S (nrand w)) (calls w).

Definition RandomStreamID {R} : M R Hash :=
  fun w => (Next (random_hash (nrand w)), next_random w).

(** [p.Method()] on a pointer that may be nil. *)
Definition deref {R A} (p : option A) : M R A :=
  match p with
  | Some a => ret a
  | None => panic
  end.

(** The streamer's methods as statements: each is logged and applied to the
    streamer of the world. *)
Definition streamer_GetNetworkStream {R} (id : string) : M R (option Stream) :=
  fun w => (Next (GetNetworkStream (streamer w) id), logc (GetNetworkStreamC id) w).

Definition streamer_AddNewNetworkStream {R} (id : string) (f : VideoFormat)
  : M R (option Stream * option error) :=
  fun w => let '(s, r) := AddNewNetworkStream (streamer w) id f in
           (Next r, with_streamer s (logc (AddNewNetworkStreamC id f) w)).

Definition streamer_DeleteNetworkStream {R} (id : string) : M R unit :=
  fun w => (Next tt, with_streamer (DeleteNetworkStream (streamer w) id)
                                   (logc (DeleteNetworkStreamC id) w)).

Definition streamer_GetHLSMuxer {R} (strmID subID : string) : M R (option HLSBuffer) :=
  fun w => (Next (GetHLSMuxer (streamer w) strmID subID),
            logc (GetHLSMuxerC strmID subID) w).

Definition streamer_SubscribeToHLSStream {R} (strmID subID : string) (b : HLSBuffer)
  : M R (option error) :=
  fun w => let '(s, e) := SubscribeToHLSStream (streamer w) strmID subID b in
           (Next e, with_streamer s (logc (SubscribeToHLSStreamC strmID subID b) w)).

Definition streamer_UnsubscribeToHLSStream {R} (strmID subID : string) : M R unit :=
  fun w => (Next tt, with_streamer (UnsubscribeToHLSStream (streamer w) strmID subID)
                                   (logc (UnsubscribeToHLSStreamC strmID subID) w)).

Definition streamer_SubscribeToRTMPStream {R} (strmID subID : string) (q : Queue)
  : M R (option error) :=
  fun w => let '(s, e) := SubscribeToRTMPStream (streamer w) strmID subID q in
           (Next e, with_streamer s (logc (SubscribeToRTMPStreamC strmID subID q) w)).

Definition streamer_UnsubscribeToRTMPStream {R} (strmID subID : string) : M R unit :=
  fun w => (Next tt, with_streamer (UnsubscribeToRTMPStream (streamer w) strmID subID)
                                   (logc (UnsubscribeToRTMPStreamC strmID subID) w)).

Definition streamer_UnsubscribeAll {R} (strmID : string) : M R unit :=
  fun w => (Next tt, with_streamer (UnsubscribeAll (streamer w) strmID)
                                   (logc (UnsubscribeAllC strmID) w)).

(** [forwarder.Stream] and [forwarder.StopStream] ([storage.CloudStore]):
    the media server reads no result of either. *)
Definition forwarder_Stream {R} (strmID : string) (f : VideoFormat) : M R unit :=
  fun w => (Next tt, logc (ForwarderStreamC strmID f) w).

Definition forwarder_StopStream {R} (strmID : string) (f : VideoFormat) : M R unit :=
  fun w => (Next tt, logc (ForwarderStopStreamC strmID f) w).

(** [viz.LogBroadcast], [viz.LogConsume]. *)
Definition viz_LogBroadcast {R} (id : string) : M R unit :=
  fun w => (Next tt, logc (LogBroadcastC id) w).

Definition viz_LogConsume {R} (id : string) : M R unit :=
  fun w => (Next tt, logc (LogConsumeC id) w).

(** [avutil.CopyFile(dst, q.Oldest())], which the handler waits for. *)
Definition avutil_CopyFile {R} (dst : MuxCloser) (strmID subID : string)
  : M R (option error) :=
  fun w => match CopyFile_result dst strmID subID with
           | Some e => (Next e, logc (CopyFileC dst strmID subID) w)
           | None => (Stop Blocks, logc (CopyFileC dst strmID subID) w)
           end.

(** [hlsSubTimer[sid] = t] and [delete(hlsSubTimer, sid)]. *)
Definition timer_store {R} (sid : string) (t : Z) : M R unit :=
  fun w => (Next tt, with_timer (<[sid := t]> (hlsSubTimer w)) w).

Definition timer_delete {R} (sid : string) : M R unit :=
  fun w => (Next tt, with_timer (delete sid (hlsSubTimer w)) w).

(** ** The HLS playback handler (mediaserver.go, lines 60-122) *)

Definition HLSPlayResult : Type := option HLSBuffer * option error.

(** The world after a failed [LatestPlaylist] and the two-second sleep
    (lines 110 and 115-117). *)
Definition after_failed_poll (strmID : string) (b : HLSBuffer) (w : World) : World :=
  sleep (Second * 2) (logc (LatestPlaylistC strmID b) w).

(** Lines 108-121: the readiness loop. Every turn that does not return
    moves the clock on by two seconds or more, and turns are only taken
    while the wait is within [HLSWaitTime]: the whole seconds left of the
    wait decrease. *)
Equations? pollPlaylist (strmID : string) (b : HLSBuffer) (startTime : Z) (w : World)
  : flow HLSPlayResult HLSPlayResult * World
  by wf (Z.to_nat ((startTime + HLSWaitTime - clock w) / Second)) lt :=
  pollPlaylist strmID b startTime w with LatestPlaylist_ok strmID b (clock w) => {
    | true :=
        (timer_store strmID (clock w) ;;; ret (Some b, None))
          (logc (LatestPlaylistC strmID b) w);
    | false
        with inspect (clock (after_failed_poll strmID b w) - startTime >? HLSWaitTime) => {
        | exist _ true _ :=
            (Next (None, Some ErrNotFound), after_failed_poll strmID b w);
        | exist _ false Hle :=
            pollPlaylist strmID b startTime (after_failed_poll strmID b w) } }.
Proof.
  unfold after_failed_poll, sleep, logc, HLSWaitTime, Second in *; simpl in *.
  set (o := Z.of_N (oversleep (clock w))) in *.
  assert (Ho : 0 <= o) by (subst o; lia).
  rewrite Z.gtb_ltb in Hle. apply Z.ltb_ge in Hle.
  set (x := startTime + 1000000000 * 10 - clock w).
  replace (startTime + 1000000000 * 10 - (clock w + 1000000000 * 2 + o))
    with (x - o - 2 * 1000000000) by (subst x; lia).
  assert (Hx : 0 <= x - o - 2 * 1000000000) by (subst x; lia).
  clearbody x o.
  assert (Hd : (x - o - 2 * 1000000000) `div` 1000000000 + 2 <= x `div` 1000000000).
  { replace x with ((x - o - 2 * 1000000000) + 2 * 1000000000 + o) at 2 by lia.
    rewrite <- (Z.div_add _ 2 1000000000) by lia.
    apply Z.div_le_mono; lia. }
  assert (0 <= (x - o - 2 * 1000000000) `div` 1000000000) by (apply Z.div_pos; lia).
  lia.
Qed.

(** Lines 92-121: find or create the buffer of subscriber ["local"], then
    wait for its playlist. *)
Definition subscribeAndPoll (strmID : string) : M HLSPlayResult HLSPlayResult :=
  let subID := "local" in
  hlsBuffer <- streamer_GetHLSMuxer strmID subID ;;
  hlsBuffer <-
    match hlsBuffer with
    | None =>
        let b := NewHLSBuffer HLSBufferWindow HLSBufferCap in
        err <- streamer_SubscribeToHLSStream strmID subID b ;;
        match err with
        | Some e => return_ (None, Some e)
        | None => ret b
        end
    | Some b => ret b
    end ;;
  startTime <- time_Now ;;
  pollPlaylist strmID hlsBuffer startTime.

Definition HandleHLSPlay (reqPath : string) : M HLSPlayResult HLSPlayResult :=
  let strmID := parseStreamID reqPath in
  let '(nodeID, streamID) := SplitComponents strmID in
  if bool_decide (strmID = "") || bool_decide (streamID = "") then
    ret (None, Some (errors_New "Stream Not Found"))
  else
    strm <- streamer_GetNetworkStream strmID ;;
    match strm with
    | None =>
        if bool_decide (SelfAddress <> nodeID)
        then forwarder_Stream strmID HLS
        else return_ (None, Some ErrNotFound)
    | Some _ => ret tt
    end ;;;
    subscribeAndPoll strmID.

(** ** The unsubscribe worker (mediaserver.go, lines 39-50) *)

(** The body of the [range] loop for the entry reached at key [sid]; an
    entry that is no longer in the map is not produced. *)
Definition visit_entry (limit : Z) (sid : string) : M unit unit :=
  fun w =>
    match hlsSubTimer w !! sid with
    | None => (Next tt, w)
    | Some t =>
        (since <- time_Since t ;;
         if since >? limit then
           streamer_UnsubscribeToHLSStream sid "local" ;;;
           forwarder_StopStream sid HLS ;;;
           timer_delete sid
         else ret tt) w
    end.

(** [for sid, t := range hlsSubTimer { ... }]: Go fixes no order for the
    keys of a map; [order] is the order this sweep meets them in. *)
Fixpoint sweep (limit : Z) (order : list string) : M unit unit :=
  match order with
  | [] => ret tt
  | sid :: rest => visit_entry limit sid ;;; sweep limit rest
  end.

(** One turn of the worker's endless [for]. *)
Definition worker_round (limit : Z) (order : list string) : M unit unit :=
  time_Sleep (Second * 5) ;;; sweep limit order.

(** The first [length orders] turns of [startHlsUnsubscribeWorker]. *)
Fixpoint startHlsUnsubscribeWorker (limit : Z) (orders : list (list string))
  : M unit unit :=
  match orders with
  | [] => ret tt
  | order :: rest =>
      worker_round limit order ;;; startHlsUnsubscribeWorker limit rest
  end.

(** ** The RTMP publish handlers (mediaserver.go, lines 124-182) *)

Definition PublishResult : Type := option Stream * option Stream * option error.

(** [streaming.MakeStreamID(streamer.SelfAddress,
    fmt.Sprintf("%x", streaming.RandomStreamID()))]. *)
Definition mintStreamID {R} : M R string :=
  h <- RandomStreamID ;; ret (MakeStreamID SelfAddress (hex h)).

(** Lines 152-173: the packaged stream, once the raw stream is settled. *)
Definition publishPackaged (url : URL) (rtmpStream : option Stream)
  : M PublishResult PublishResult :=
  let hlsStrmID := Query_Get (RawQuery url) "hlsStrmID" in
  hlsStrmID <-
    (if bool_decide (hlsStrmID = "") then mintStreamID else ret hlsStrmID) ;;
  let nodeID := fst (SplitComponents hlsStrmID) in
  if bool_decide (nodeID <> SelfAddress) then
    ret (None, None, Some ErrStreamPublish)
  else
    r <- streamer_AddNewNetworkStream hlsStrmID HLS ;;
    let hlsStream := fst r in
    match snd r with
    | Some err => ret (None, None, Some ErrStreamPublish)
    | None =>
        rs <- deref rtmpStream ;;
        hs <- deref hlsStream ;;
        viz_LogBroadcast (GetStreamID rs) ;;;
        viz_LogBroadcast (GetStreamID hs) ;;;
        ret (rtmpStream, hlsStream, None)
    end.

Definition getStream (url : URL) : M PublishResult PublishResult :=
  let rtmpStrmID := parseStreamID (Path url) in
  rtmpStrmID <-
    (if bool_decide (rtmpStrmID = "") then mintStreamID else ret rtmpStrmID) ;;
  let nodeID := fst (SplitComponents rtmpStrmID) in
  if bool_decide (nodeID <> SelfAddress) then
    ret (None, None, Some ErrStreamPublish)
  else
    rtmpStream <- streamer_GetNetworkStream rtmpStrmID ;;
    rtmpStream <-
      match rtmpStream with
      | None =>
          r <- streamer_AddNewNetworkStream rtmpStrmID RTMP ;;
          match snd r with
          | Some rtmpErr => return_ (None, None, Some ErrStreamPublish)
          | None => ret (fst r)
          end
      | Some s => ret (Some s)
      end ;;
    publishPackaged url rtmpStream.

Definition finishStream (rtmpStrmID hlsStrmID : string) : M unit unit :=
  streamer_DeleteNetworkStream rtmpStrmID ;;;
  streamer_DeleteNetworkStream hlsStrmID ;;;
  streamer_UnsubscribeAll rtmpStrmID ;;;
  streamer_UnsubscribeAll hlsStrmID.

(** ** The RTMP playback handler (mediaserver.go, lines 184-228) *)

(** The context argument is never read. The goroutine that copies and the
    [select] with its single case amount to waiting for the copy. *)
Definition HandleRTMPPlay (reqPath : string) (dst : MuxCloser)
  : M (option error) (option error) :=
  let match_ := FindString reqPath in
  let strmID :=
    if bool_decide (match_ <> "") then Replace match_ "/stream/" "" else "" in
  if bool_decide (strmID = "") then
    ret (Some (errors_New "Stream Not Found"))
  else
    viz_LogConsume strmID ;;;
    strm <- streamer_GetNetworkStream strmID ;;
    match strm with
    | None => forwarder_Stream strmID RTMP
    | Some _ => ret tt
    end ;;;
    let q := NewQueue in
    h <- RandomStreamID ;;
    let subID := Hash_Str h in
    err <- streamer_SubscribeToRTMPStream strmID subID q ;;
    match err with
    | Some e => ret (Some e)
    | None =>
        err <- avutil_CopyFile dst strmID subID ;;
        streamer_UnsubscribeToRTMPStream strmID subID ;;;
        forwarder_StopStream strmID RTMP ;;;
        ret err
    end.

(** ** The [/createStream] endpoint (mediaserver.go, lines 230-244) *)

(** [json.Marshal] of a [map[string]string]: it cannot fail. The body keeps
    the map rather than its rendering. *)
Definition json_Marshal (res : gmap string string)
  : (gmap string string + string) * option error :=
  (inl res, None).

(** [http.Error(w, msg, code)]. *)
Definition http_Error (msg : string) (code : Z) : HTTPResponse :=
  mkResponse code "text/plain; charset=utf-8" (inr msg).

Definition error_Error (e : error) : string :=
  match e with
  | ErrNotFound => "NotFound"
  | ErrStreamPublish => "StreamPublishError"
  | errors_New msg => msg
  | ErrCollaborator _ => "collaborator"
  end.

Definition createStream : M HTTPResponse HTTPResponse :=
  strmID <- mintStreamID ;;
  r <- streamer_AddNewNetworkStream strmID RTMP ;;
  let newRTMPStream := fst r in
  s <- deref newRTMPStream ;;
  let res : gmap string string := {[ "streamID" := GetStreamID s ]} in
  match json_Marshal res with
  | (js, Some err) => ret (http_Error (error_Error err) 500)
  | (js, None) => ret (mkResponse 200 "application/json" js)
  end.

(** ** The activity map and the subscriptions *)

(** A local HLS buffer subscription is active for an address when the
    streamer has a muxer for it under the subscriber ["local"]. *)
Definition hls_active (s : St) (strmID : string) : Prop :=
  GetHLSMuxer s strmID "local" <> None.

Definition has_entry (w : World) (strmID : string) : Prop :=
  is_Some (hlsSubTimer w !! strmID).


(** An entry is stale when its age is beyond the limit; a sweep that
    meets the keys in [order] makes these calls. *)
Definition stale (limit : Z) (w : World) (sid : string) : bool :=
  match hlsSubTimer w !! sid with
  | Some t => clock w - t >? limit
  | None => false
  end.

Definition evictions (limit : Z) (w : World) (order : list string) : list Call :=
  flat_map (fun sid =>
              if stale limit w sid
              then [UnsubscribeToHLSStreamC sid "local"; ForwarderStopStreamC sid HLS]
              else []) order.

(** The world after [n] failed polls of the readiness loop. *)
Definition failed_polls (strmID : string) (b : HLSBuffer) (n : nat) (w : World) : World :=
  Nat.iter n (after_failed_poll strmID b) w.

(** The calls made between two worlds of one run. *)
Definition new_calls (w w' : World) : list Call :=
  drop (length (calls w)) (calls w').

(** The packaged-stream id a publish request asks for when [n] random
    hashes have been drawn before: the query parameter, or a minted id. *)
Definition packagedStreamID (url : URL) (n : nat) : string :=
  let q := Query_Get (RawQuery url) "hlsStrmID" in
  if bool_decide (q = "") then MakeStreamID SelfAddress (hex (random_hash n)) else q.

(** ** The requests and the worker side by side *)

(** [StartLPMS] starts the worker as a goroutine (line 56) and the server
    runs every request in a goroutine of its own: a request that sleeps in
    its readiness loop is overtaken by the worker and by other requests.
    The handler is cut where it sleeps. Lines 61-107: a request up to its
    readiness loop; it returns early, or enters the loop for a stream with
    a buffer at a start time. *)
Definition enterLoop (reqPath : string) : M HLSPlayResult Waiting :=
  let strmID := parseStreamID reqPath in
  let '(nodeID, streamID) := SplitComponents strmID in
  if bool_decide (strmID = "") || bool_decide (streamID = "") then
    return_ (None, Some (errors_New "Stream Not Found"))
  else
    strm <- streamer_GetNetworkStream strmID ;;
    match strm with
    | None =>
        if bool_decide (SelfAddress <> nodeID)
        then forwarder_Stream strmID HLS
        else return_ (None, Some ErrNotFound)
    | Some _ => ret tt
    end ;;;
    let subID := "local" in
    hlsBuffer <- streamer_GetHLSMuxer strmID subID ;;
    hlsBuffer <-
      match hlsBuffer with
      | None =>
          let b := NewHLSBuffer HLSBufferWindow HLSBufferCap in
          err <- streamer_SubscribeToHLSStream strmID subID b ;;
          match err with
          | Some e => return_ (None, Some e)
          | None => ret b
          end
      | Some b => ret b
      end ;;
    startTime <- time_Now ;;
    ret (mkWaiting strmID hlsBuffer startTime).

(** Lines 110-115: one [LatestPlaylist]; the request returns the buffer
    or goes to sleep. *)
Definition pollOnce (p : Waiting) : M HLSPlayResult unit :=
  fun w =>
    let w1 := logc (LatestPlaylistC (wStrmID p) (wBuffer p)) w in
    if LatestPlaylist_ok (wStrmID p) (wBuffer p) (clock w)
    then (timer_store (wStrmID p) (clock w) ;;;
          return_ (Some (wBuffer p), None)) w1
    else (Next tt, w1).

(** Lines 118-120: the check when the sleep is over. *)
Definition checkWait (p : Waiting) : M HLSPlayResult unit :=
  since <- time_Since (wStart p) ;;
  if since >? HLSWaitTime then return_ (None, Some ErrNotFound) else ret tt.

(** Time that passes while every goroutine sleeps or waits its turn. *)
Definition elapse (d : Z) (w : World) : World :=
  mkWorld (streamer w) (hlsSubTimer w) (clock w + d) (nrand w) (calls w).

(** The world, the requests that are about to poll, those that sleep
    (each with the time its two seconds are over), and the worker: asleep
    until [workerWake], or in its [range] loop with the keys it has yet to
    produce. *)
Record System := mkSystem {
  world : World;
  polling : list Waiting;
  sleeping : list (Waiting * Z);
  workerWake : Z;
  sweeping : option (list string) }.

(** [StartLPMS] at world [w]: no request yet, the worker in its first
    sleep. *)
Definition boot (w : World) : System :=
  mkSystem w [] [] (clock w + Second * 5) None.

(** [apply_event limit e sys] is the system after [e], or [None] when [e]
    cannot happen in [sys]: no such request, a sleep that is not over, a
    worker that is elsewhere. A sleep lasts as long as asked for or longer.
    The [range] loop may produce a key that came into the map after the
    loop began, or not (the Go specification leaves it open), so a sweep
    is not held to the keys of the map at its start; a key without entry is
    passed over. What a request returns goes to its caller and is not kept.
    The statements that a request runs between two sleeps, one loop body
    of the worker and one [finishStream] are each taken to run in one
    piece: the handlers share the map and the streamer without a lock of
    their own, and nothing can be said of statements that race. *)
Definition apply_event (limit : Z) (e : Event) (sys : System) : option System :=
  let w := world sys in
  match e with
  | Tick d =>
      if 0 <=? d
      then Some (mkSystem (elapse d w) (polling sys) (sleeping sys)
                          (workerWake sys) (sweeping sys))
      else None
  | Enter reqPath =>
      match enterLoop reqPath w with
      | (Next p, w') =>
          Some (mkSystem w' (polling sys ++ [p]) (sleeping sys)
                         (workerWake sys) (sweeping sys))
      | (Stop _, w') =>
          Some (mkSystem w' (polling sys) (sleeping sys)
                         (workerWake sys) (sweeping sys))
      end
  | Poll i =>
      match polling sys !! i with
      | None => None
      | Some p =>
          match pollOnce p w with
          | (Next _, w') =>
              Some (mkSystem w' (delete i (polling sys))
                             (sleeping sys ++ [(p, clock w' + Second * 2)])
                             (workerWake sys) (sweeping sys))
          | (Stop _, w') =>
              Some (mkSystem w' (delete i (polling sys)) (sleeping sys)
                             (workerWake sys) (sweeping sys))
          end
      end
  | Wake i =>
      match sleeping sys !! i with
      | None => None
      | Some (p, t) =>
          if t <=? clock w then
            match checkWait p w with
            | (Next _, w') =>
                Some (mkSystem w' (polling sys ++ [p]) (delete i (sleeping sys))
                               (workerWake sys) (sweeping sys))
            | (Stop _, w') =>
                Some (mkSystem w' (polling sys) (delete i (sleeping sys))
                               (workerWake sys) (sweeping sys))
            end
          else None
      end
  | SweepStart order =>
      match sweeping sys with
      | None =>
          if workerWake sys <=? clock w
          then Some (mkSystem w (polling sys) (sleeping sys)
                              (workerWake sys) (Some order))
          else None
      | Some _ => None
      end
  | SweepNext =>
      match sweeping sys with
      | Some (sid :: rest) =>
          Some (mkSystem (snd (visit_entry limit sid w)) (polling sys)
                         (sleeping sys) (workerWake sys) (Some rest))
      | Some [] =>
          Some (mkSystem w (polling sys) (sleeping sys)
                         (clock w + Second * 5) None)
      | None => None
      end
  | Finish rtmpStrmID hlsStrmID =>
      Some (mkSystem (snd (finishStream rtmpStrmID hlsStrmID w)) (polling sys)
                     (sleeping sys) (workerWake sys) (sweeping sys))
  end.

Fixpoint run_events (limit : Z) (es : list Event) (sys : System) : option System :=
  match es with
  | [] => Some sys
  | e :: es' =>
      match apply_event limit e sys with
      | Some sys' => run_events limit es' sys'
      | None => None
      end
  end.

(** A request for [sid] is inside its readiness loop. *)
Definition awaited (sys : System) (sid : string) : bool :=
  existsb (fun p => bool_decide (wStrmID p = sid))
          (polling sys ++ map fst (sleeping sys)).

(** An event disturbs the activity map's bookkeeping when it is the end
    of a publish session, whose [finishStream] unsubscribes every
    subscriber, or when the worker evicts an address that a request is
    waiting for in its readiness loop. *)
Definition undisturbed (limit : Z) (e : Event) (sys : System) : bool :=
  match e with
  | Finish _ _ => false
  | SweepNext =>
      match sweeping sys with
      | Some (sid :: _) => negb (stale limit (world sys) sid && awaited sys sid)
      | _ => true
      end
  | _ => true
  end.

Fixpoint undisturbed_run (limit : Z) (es : list Event) (sys : System) : bool :=
  match es with
  | [] => true
  | e :: es' =>
      undisturbed limit e sys
      && match apply_event limit e sys with
         | Some sys' => undisturbed_run limit es' sys'
         | None => true
         end
  end.

(** Every entry of the activity map, and every request inside its
    readiness loop, has its subscription. *)
Definition settled (sys : System) : Prop :=
  forall sid : string,
    has_entry (world sys) sid \/ awaited sys sid = true ->
    hls_active (streamer (world sys)) sid.

End MediaServer.

Arguments World : clear implicits.
Arguments M : clear implicits.
Arguments System : clear implicits.

(** Which calls go to the forwarder, and which concern a given stream. *)
Definition is_ForwarderStream (c : Call) : bool :=
  match c with
  | ForwarderStreamC _ _ => true
  | _ => false
  end.

Definition is_AddNewNetworkStream (c : Call) : bool :=
  match c with
  | AddNewNetworkStreamC _ _ => true
  | _ => false
  end.

Definition is_SubscribeToHLSStream (c : Call) : bool :=
  match c with
  | SubscribeToHLSStreamC _ _ _ => true
  | _ => false
  end.

Definition evicts (sid : string) (c : Call) : bool :=
  match c with
  | UnsubscribeToHLSStreamC strmID _ => bool_decide (strmID = sid)
  | ForwarderStopStreamC strmID _ => bool_decide (strmID = sid)
  | _ => false
  end.

(** ** The collaborators that are not in the sources *)

(** Modelled from the spec: the behaviour of [streaming.Streamer], which is
    not in the sources, as far as the proofs need it. Subscribing to an HLS
    stream makes its muxer available and withdraws no other; unsubscribing
    leaves the other subscriptions alone; a network stream that was added
    without error is found under its id, carries that id and format, and
    adding displaces no stream. *)
Class StreamerLaws (NodeID St : Type) `{!Streamer NodeID St} := {
  subscribe_hls_active s strmID subID b s' :
    SubscribeToHLSStream s strmID subID b = (s', None) ->
    GetHLSMuxer s' strmID subID <> None;
  subscribe_hls_keeps s strmID subID b strmID' subID' :
    GetHLSMuxer s strmID' subID' <> None ->
    GetHLSMuxer (fst (SubscribeToHLSStream s strmID subID b)) strmID' subID' <> None;
  unsubscribe_hls_other s strmID subID strmID' subID' :
    (strmID', subID') <> (strmID, subID) ->
    GetHLSMuxer (UnsubscribeToHLSStream s strmID subID) strmID' subID'
    = GetHLSMuxer s strmID' subID';
  add_stream_found s id f s' strm :
    AddNewNetworkStream s id f = (s', (Some strm, None)) ->
    GetNetworkStream s' id = Some strm /\ GetStreamID strm = id /\ Format strm = f;
  add_stream_keeps s id f id' :
    is_Some (GetNetworkStream s id') ->
    is_Some (GetNetworkStream (fst (AddNewNetworkStream s id f)) id') }.

(** Modelled from the spec: the streamer keeps its network streams in a
    table by address; adding a stream changes the table at the address of
    that stream and nowhere else. *)
Class StreamerTable (NodeID St : Type) `{!Streamer NodeID St} := {
  add_stream_other s id f id' :
    id' <> id ->
    GetNetworkStream (fst (AddNewNetworkStream s id f)) id'
    = GetNetworkStream s id' }.

Module SpecModel.

(** Modelled from the spec: [streaming.MakeStreamID] is not in the sources.
    The specification gives the string form of an address as the
    concatenation [ownerNodeID + separator + localStreamID]; it names no
    separator, [sep] stands for it. *)
Definition Make (sep : ascii) (ownerNodeID localStreamID : string) : string :=
  ownerNodeID ++ String sep localStreamID.

(** Modelled from the spec: [StreamID.String] is not in the sources; an
    address is its string form. *)
Definition StreamID_String (a : string) : string := a.

(** Modelled from the spec: the place of the first separator of an
    address, for [SplitComponents], which is not in the sources. *)
Fixpoint split_at (sep : ascii) (addr : string) : option (string * string) :=
  match addr with
  | EmptyString => None
  | String c rest =>
      if Ascii.eqb c sep then Some (EmptyString, rest)
      else match split_at sep rest with
           | Some (o, l) => Some (String c o, l)
           | None => None
           end
  end.

(** Modelled from the spec: [StreamID.SplitComponents] is not in the
    sources. The specification has it as the pure decomposition of an
    address into owner and local id, both non-empty for a valid address;
    an address without separator decomposes into two empty components. *)
Definition Split (sep : ascii) (addr : string) : string * string :=
  match split_at sep addr with
  | Some p => p
  | None => (EmptyString, EmptyString)
  end.

(** Whether the separator occurs in a component. *)
Fixpoint occurs (sep : ascii) (s : string) : bool :=
  match s with
  | EmptyString => false
  | String c rest => Ascii.eqb c sep || occurs sep rest
  end.

(** Modelled from the spec: the two address functions as the codec the
    handlers are written over, node ids being strings. *)
Definition codec (sep : ascii) : StreamIDCodec string :=
  {| SplitComponents := Split sep; MakeStreamID := Make sep |}.

(** Modelled from the spec: the state of [streaming.Streamer], which is not
    in the sources. The specification describes it as the registry of
    network streams (address, format) and of the subscriptions, one HLS
    buffer per address and subscriber. *)
Record Registry := mkRegistry {
  networkStreams : gmap string Stream;
  hlsSubscribers : gmap (string * string) HLSBuffer;
  rtmpSubscribers : gmap (string * string) Queue }.

Definition emptyRegistry : Registry := mkRegistry ∅ ∅ ∅.

(** Modelled from the spec: the methods of [streaming.Streamer]. A later
    subscribe call for an address and subscriber that have a buffer keeps
    that buffer. The specification does not say what adding a stream at an
    occupied address does; the model puts the new stream in its place. No
    call fails. *)
Definition registry (self : string) : Streamer string Registry :=
  {| SelfAddress := self;
     GetNetworkStream r id := networkStreams r !! id;
     AddNewNetworkStream r id f :=
       let strm := mkStream id f in
       (mkRegistry (<[id := strm]> (networkStreams r)) (hlsSubscribers r)
                   (rtmpSubscribers r),
        (Some strm, None));
     DeleteNetworkStream r id :=
       mkRegistry (delete id (networkStreams r)) (hlsSubscribers r)
                  (rtmpSubscribers r);
     GetHLSMuxer r strmID subID := hlsSubscribers r !! (strmID, subID);
     SubscribeToHLSStream r strmID subID b :=
       match hlsSubscribers r !! (strmID, subID) with
       | Some _ => (r, None)
       | None =>
           (mkRegistry (networkStreams r)
                       (<[(strmID, subID) := b]> (hlsSubscribers r))
                       (rtmpSubscribers r), None)
       end;
     UnsubscribeToHLSStream r strmID subID :=
       mkRegistry (networkStreams r) (delete (strmID, subID) (hlsSubscribers r))
                  (rtmpSubscribers r);
     SubscribeToRTMPStream r strmID subID q :=
       (mkRegistry (networkStreams r) (hlsSubscribers r)
                   (<[(strmID, subID) := q]> (rtmpSubscribers r)), None);
     UnsubscribeToRTMPStream r strmID subID :=
       mkRegistry (networkStreams r) (hlsSubscribers r)
                  (delete (strmID, subID) (rtmpSubscribers r));
     UnsubscribeAll r strmID :=
       mkRegistry (networkStreams r)
                  (filter (fun kv => fst (fst kv) <> strmID) (hlsSubscribers r))
                  (filter (fun kv => fst (fst kv) <> strmID) (rtmpSubscribers r)) |}.

(** Environments for the examples: the playlist is ready from time [ready]
    on, every sleep overruns by [lag], hashes are the text of their index,
    and a copy ends with [copy]. *)
Definition env (ready : option Z) (lag : N) (copy : option (option error))
  : Environment :=
  {| LatestPlaylist_ok _ _ t :=
       match ready with Some r => r <=? t | None => false end;
     oversleep _ := lag;
     random_hash n := String (ascii_of_nat (n + 1)) EmptyString;
     CopyFile_result _ _ _ := copy |}.

(** An environment in which the playlist is there, except from [gone]
    until [back]; sleeps are exact and no copy ends. *)
Definition env_gap (gone back : Z) : Environment :=
  {| LatestPlaylist_ok _ _ t := (t <? gone) || (back <=? t);
     oversleep _ := 0%N;
     random_hash n := String (ascii_of_nat (n + 1)) EmptyString;
     CopyFile_result _ _ _ := None |}.

Definition world0 (r : Registry) : World Registry := mkWorld r ∅ 0 0 [].

(** The node of the examples: its address is ["node"], the separator of
    its stream ids is the letter [x], which no hexadecimal token holds. *)
Definition codec_x : StreamIDCodec string := codec "x".
Definition node : Streamer string Registry := registry "node".

End SpecModel.

(** ** Further calls and handlers *)

(** The calls a publish request may make. *)
Definition is_publish_call (c : Call) : bool :=
  match c with
  | GetNetworkStreamC _ | AddNewNetworkStreamC _ _ | LogBroadcastC _ => true
  | _ => false
  end.

Definition is_LogBroadcast (c : Call) : bool :=
  match c with
  | LogBroadcastC _ => true
  | _ => false
  end.

(** The first character of what follows an id in a path ends the id. *)
Definition ends_id (rest : string) : bool :=
  match rest with
  | EmptyString => true
  | String c _ => negb (is_alnum c)
  end.

Section MediaServerMore.

Context {NodeID St : Type}.
Context `{Codec : !StreamIDCodec NodeID, Strm : !Streamer NodeID St, Env : !Environment}.

(** Each turn of the worker meets the keys that the map has when the turn
    sweeps. *)
Fixpoint orders_fit (limit : Z) (orders : list (list string)) (w : World St) : Prop :=
  match orders with
  | [] => True
  | order :: rest =>
      order ≡ₚ elements (dom (hlsSubTimer w))
      /\ orders_fit limit rest (snd (worker_round limit order w))
  end.

End MediaServerMore.

(** ** The ports of the media server ([Swarm.Start] in livepeer.go) *)

Module GoStrconv.

(** The two ways [strconv.Atoi] fails. *)
Inductive NumError := ErrSyntax | ErrRange.

(** [int] on a 64-bit platform. *)
Definition MaxInt : Z := 2 ^ 63 - 1.
Definition MinInt : Z := - 2 ^ 63.

(** [a + b] on [int]: it wraps around. *)
Definition int_add (a b : Z) : Z := (a + b - MinInt) mod 2 ^ 64 + MinInt.

(** The digits of a number: what follows its sign, if it has one. *)
Definition unsigned_part (s : string) : string :=
  match s with
  | EmptyString => EmptyString
  | String c rest => if Ascii.eqb c "-" || Ascii.eqb c "+" then rest else s
  end.

Definition negative (s : string) : bool :=
  match s with
  | EmptyString => false
  | String c _ => Ascii.eqb c "-"
  end.


(** [strconv.Atoi]: an optional sign, then decimal digits, one at least.
    A string of another form gives [0] and a syntax error; a number out of
    the range of [int] gives the nearest bound and a range error. *)
Definition Atoi (s : string) : Z * option NumError :=
  match NilZero.uint_of_string (unsigned_part s) with
  | None => (0, Some ErrSyntax)
  | Some d =>
      let v := if negative s then - Z.of_uint d else Z.of_uint d in
      if v <? MinInt then (MinInt, Some ErrRange)
      else if MaxInt <? v then (MaxInt, Some ErrRange)
      else (v, None)
  end.

(** [strconv.Itoa]. *)
Definition Itoa (n : Z) : string := NilZero.string_of_int (Z.to_int n).

End GoStrconv.

Import GoStrconv.

(** [rtmpPortNum, _ := strconv.Atoi(rtmpPort)] and
    [httpPort := strconv.Itoa(rtmpPortNum + 7000)] in [Swarm.Start]
    (lines 221 and 222). *)
Definition httpPort (rtmpPort : string) : string :=
  let (rtmpPortNum, _) := Atoi rtmpPort in
  Itoa (int_add rtmpPortNum 7000).


(** ** A streamer for the examples of error paths *)

Module TestDouble.

(** It knows no stream, holds no buffer and answers every call that can
    fail with an error. *)
Definition refusing : Streamer string unit :=
  {| SelfAddress := "node";
     GetNetworkStream _ _ := None;
     AddNewNetworkStream s _ _ := (s, (None, Some (ErrCollaborator 1)));
     DeleteNetworkStream s _ := s;
     GetHLSMuxer _ _ _ := None;
     SubscribeToHLSStream s _ _ _ := (s, Some (ErrCollaborator 2));
     UnsubscribeToHLSStream s _ _ := s;
     SubscribeToRTMPStream s _ _ _ := (s, Some (ErrCollaborator 3));
     UnsubscribeToRTMPStream s _ _ := s;
     UnsubscribeAll s _ := s |}.

End TestDouble.


(** * Properties *)

Local Open Scope list_scope.

(** ** The parser *)

Section Parser.

Lemma Replace_skip c s old new :
  strip_prefix old (String c s) = None ->
  Replace (String c s) old new = String c (Replace s old new).
Proof.
  intros H. funelim (Replace (String c s) old new); try congruence.
  discriminate H.
Qed.

Lemma Replace_hit c s a p new rest :
  strip_prefix (String a p) (String c s) = Some rest ->
  Replace (String c s) (String a p) new = (new ++ Replace rest (String a p) new)%string.
Proof.
  intros H. funelim (Replace (String c s) (String a p) new); try congruence.
Qed.

Lemma is_alnum_not_slash c : is_alnum c = true -> Ascii.eqb "/" c = false.
Proof.
  destruct (Ascii.eqb_spec "/"%char c) as [<- | ]; [discriminate | reflexivity].
Qed.

Lemma span_alnum_all s : all_alnum s = true -> span_alnum s = s.
Proof.
  induction s as [|c s IH]; simpl; [reflexivity |].
  intros [Hc Hs]%andb_prop. rewrite Hc, IH by assumption. reflexivity.
Qed.

Lemma Replace_alnum s : all_alnum s = true -> Replace s "/stream/" "" = s.
Proof.
  induction s as [|c s IH]; simpl; intros H.
  - simp Replace. reflexivity.
  - apply andb_prop in H as [Hc Hs].
    rewrite Replace_skip, IH; [reflexivity | assumption |].
    cbn [strip_prefix]. rewrite (is_alnum_not_slash c Hc). reflexivity.
Qed.

Lemma parseStreamID_stream_path s :
  all_alnum s = true -> parseStreamID ("/stream/" ++ s) = s.
Proof.
  intros H. unfold parseStreamID.
  change (FindString ("/stream/" ++ s)) with ("/stream/" ++ span_alnum s)%string.
  rewrite span_alnum_all by assumption.
  rewrite bool_decide_true by discriminate.
  change ("/stream/" ++ s)%string with (String "/" ("stream/" ++ s)).
  rewrite (Replace_hit _ _ _ _ _ s) by reflexivity.
  apply Replace_alnum; assumption.
Qed.

Example parseStreamID_playlist_path :
  parseStreamID "/stream/abc12/x.m3u8" = "abc12".
Proof. reflexivity. Qed.

Example parseStreamID_no_stream_prefix : parseStreamID "abc12" = "".
Proof. reflexivity. Qed.

Example parseStreamID_stops_at_punctuation :
  parseStreamID "/live/stream/Ab9_c" = "Ab9".
Proof. reflexivity. Qed.

End Parser.

(** ** Handlers over any streamer *)

Ltac m_unfold :=
  unfold run, bind, ret, return_, panic, deref,
    streamer_GetNetworkStream, streamer_AddNewNetworkStream,
    streamer_DeleteNetworkStream, streamer_GetHLSMuxer,
    streamer_SubscribeToHLSStream, streamer_UnsubscribeToHLSStream,
    streamer_SubscribeToRTMPStream, streamer_UnsubscribeToRTMPStream,
    streamer_UnsubscribeAll, forwarder_Stream, forwarder_StopStream,
    viz_LogBroadcast, viz_LogConsume, avutil_CopyFile, timer_store,
    timer_delete, time_Now, time_Since, time_Sleep, RandomStreamID,
    mintStreamID in *.

Section Handlers.

Context {NodeID St : Type}.
Context `{Codec : !StreamIDCodec NodeID, Strm : !Streamer NodeID St, Env : !Environment}.

Implicit Types w : World St.

(** C5, as the code has it: a playback request whose parsed address is
    empty, or whose local-stream component is empty, ends with the error
    [Stream Not Found] and leaves the world as it was: no stream lookup, no
    subscription, no forwarding. *)
Theorem HandleHLSPlay_invalid_address (reqPath : string) w :
  parseStreamID reqPath = "" \/
  snd (SplitComponents (parseStreamID reqPath)) = "" ->
  run (HandleHLSPlay reqPath) w
  = (Returns (None, Some (errors_New "Stream Not Found")), w).
Proof.
  intros H. unfold HandleHLSPlay.
  destruct (SplitComponents (parseStreamID reqPath)) as [nodeID streamID].
  simpl in H.
  assert (Hb : bool_decide (parseStreamID reqPath = "")
               || bool_decide (streamID = "") = true).
  { destruct H as [H | H]; rewrite (bool_decide_true _ H);
      [reflexivity | apply orb_true_r]. }
  rewrite Hb. reflexivity.
Qed.

(** C6: a publish request whose path gives a raw address owned by another
    node returns [ErrStreamPublish]; the world, the streamer in it
    included, is unchanged and no call was made. *)
Theorem getStream_foreign_raw_address (url : URL) w :
  parseStreamID (Path url) <> "" ->
  fst (SplitComponents (parseStreamID (Path url))) <> SelfAddress ->
  run (getStream url) w = (Returns (None, None, Some ErrStreamPublish), w).
Proof.
  intros Hne Hown. unfold getStream.
  rewrite (bool_decide_false _ Hne).
  m_unfold. rewrite (bool_decide_true _ Hown). reflexivity.
Qed.

(** C10: [/createStream] never looks at the error of
    [AddNewNetworkStream]: it answers with the id of the returned stream
    when there is one and panics on the nil dereference when there is
    none, whatever the error is. *)
Theorem createStream_outcome w :
  let strmID := MakeStreamID SelfAddress (hex (random_hash (nrand w))) in
  let r := AddNewNetworkStream (streamer w) strmID RTMP in
  fst (run createStream w)
  = match fst (snd r) with
    | Some s =>
        Returns (mkResponse 200 "application/json"
                            (inl {[ "streamID" := GetStreamID s ]}))
    | None => Panics
    end
  /\ calls (snd (run createStream w)) = calls w ++ [AddNewNetworkStreamC strmID RTMP]
  /\ streamer (snd (run createStream w)) = fst r.
Proof.
  intros strmID r. subst r strmID. unfold createStream. m_unfold. simpl.
  destruct (AddNewNetworkStream _ _ _) as [s' [[strm|] err]]; simpl; auto.
Qed.

(** C9: when the subscription of an RTMP playback request succeeds and the
    copy ends with [e], the handler unsubscribes the queue, tells the
    forwarder to stop the stream, whose answer it does not read, and
    returns [e]. *)
Theorem HandleRTMPPlay_teardown (reqPath : string) (dst : MuxCloser) w (e : option error) :
  let strmID := parseStreamID reqPath in
  let subID := Hash_Str (random_hash (nrand w)) in
  let sub := SubscribeToRTMPStream (streamer w) strmID subID NewQueue in
  strmID <> "" ->
  snd sub = None ->
  CopyFile_result dst strmID subID = Some e ->
  fst (run (HandleRTMPPlay reqPath dst) w) = Returns e
  /\ calls (snd (run (HandleRTMPPlay reqPath dst) w))
     = calls w
       ++ [LogConsumeC strmID; GetNetworkStreamC strmID]
       ++ match GetNetworkStream (streamer w) strmID with
          | Some _ => []
          | None => [ForwarderStreamC strmID RTMP]
          end
       ++ [SubscribeToRTMPStreamC strmID subID NewQueue;
           CopyFileC dst strmID subID;
           UnsubscribeToRTMPStreamC strmID subID;
           ForwarderStopStreamC strmID RTMP]
  /\ streamer (snd (run (HandleRTMPPlay reqPath dst) w))
     = UnsubscribeToRTMPStream (fst sub) strmID subID.
Proof.
  intros strmID subID sub Hne Hsub Hcopy. subst sub subID.
  unfold HandleRTMPPlay. fold (parseStreamID reqPath). fold strmID.
  rewrite (bool_decide_false _ Hne). m_unfold. simpl.
  destruct (GetNetworkStream (streamer w) strmID) as [strm|]; simpl;
    unfold Hash_Str in *;
    destruct (SubscribeToRTMPStream _ _ _ _) as [s' err]; simpl in *;
    subst err; simpl; rewrite Hcopy; simpl;
    repeat split; rewrite <- ?app_assoc; reflexivity.
Qed.

(** *** The sweep of the unsubscribe worker *)

Lemma new_calls_app w w' (l : list Call) :
  calls w' = calls w ++ l -> new_calls w w' = l.
Proof.
  intros H. unfold new_calls. rewrite H. apply drop_app_length.
Qed.

Lemma visit_entry_spec limit sid w :
  let w' := snd (visit_entry limit sid w) in
  fst (visit_entry limit sid w) = Next tt
  /\ calls w' = calls w ++ evictions limit w [sid]
  /\ clock w' = clock w
  /\ hlsSubTimer w'
     = (if stale limit w sid then delete sid (hlsSubTimer w) else hlsSubTimer w).
Proof.
  unfold visit_entry, evictions, stale. simpl.
  destruct (hlsSubTimer w !! sid) as [t|]; simpl.
  - m_unfold. simpl. destruct (clock w - t >? limit); simpl.
    + rewrite <- app_assoc. auto.
    + rewrite app_nil_r. auto.
  - rewrite app_nil_r. auto.
Qed.

Lemma stale_after_visit limit sid sid' w :
  sid <> sid' ->
  stale limit (snd (visit_entry limit sid w)) sid' = stale limit w sid'.
Proof.
  intros Hne. destruct (visit_entry_spec limit sid w) as (_ & _ & Hc & Ht).
  unfold stale at 1. rewrite Hc, Ht.
  destruct (stale limit w sid); [rewrite lookup_delete_ne by assumption |];
    reflexivity.
Qed.

Lemma evictions_after_visit limit sid order w :
  sid ∉ order ->
  evictions limit (snd (visit_entry limit sid w)) order = evictions limit w order.
Proof.
  induction order as [|sid' order IH]; intros Hnin; [reflexivity |].
  apply not_elem_of_cons in Hnin as [Hne Hnin].
  unfold evictions in *. simpl.
  rewrite stale_after_visit by assumption. rewrite IH by assumption.
  reflexivity.
Qed.

Lemma evictions_cons limit w sid order :
  evictions limit w (sid :: order)
  = evictions limit w [sid] ++ evictions limit w order.
Proof. unfold evictions. simpl. rewrite app_nil_r. reflexivity. Qed.

Lemma sweep_cons limit sid order w :
  sweep limit (sid :: order) w = sweep limit order (snd (visit_entry limit sid w)).
Proof.
  simpl. unfold bind.
  pose proof (visit_entry_spec limit sid w) as (Hf & _).
  destruct (visit_entry limit sid w) as [f w1]. simpl in *. subst f.
  reflexivity.
Qed.

Lemma sweep_spec limit order : forall w,
  NoDup order ->
  let w' := snd (sweep limit order w) in
  fst (sweep limit order w) = Next tt
  /\ calls w' = calls w ++ evictions limit w order
  /\ clock w' = clock w
  /\ forall sid,
       hlsSubTimer w' !! sid
       = (if bool_decide (sid ∈ order) && stale limit w sid
          then None else hlsSubTimer w !! sid).
Proof.
  induction order as [|sid order IH]; intros w Hnd.
  - simpl. rewrite app_nil_r. repeat split.
  - apply NoDup_cons in Hnd as [Hnin Hnd].
    rewrite sweep_cons.
    destruct (visit_entry_spec limit sid w) as (_ & Hcalls & Hclock & Htimer).
    pose proof (evictions_after_visit limit sid order w Hnin) as Hev.
    pose proof (fun x => stale_after_visit limit sid x w) as Hst.
    set (w1 := snd (visit_entry limit sid w)) in *.
    destruct (IH w1 Hnd) as (Hf' & Hcalls' & Hclock' & Htimer').
    cbv zeta. split; [assumption |]. split; [| split].
    + rewrite Hcalls', Hcalls, Hev, (evictions_cons limit w sid order), <- app_assoc. reflexivity.
    + congruence.
    + intros x. rewrite Htimer', Htimer.
      destruct (decide (x = sid)) as [-> | Hne].
      * rewrite (bool_decide_false _ Hnin). simpl.
        rewrite (bool_decide_true (sid ∈ sid :: order)) by (apply elem_of_cons; auto).
        simpl. destruct (stale limit w sid) eqn:Es.
        -- apply lookup_delete_eq.
        -- reflexivity.
      * rewrite Hst by congruence.
        assert (Hmem : bool_decide (x ∈ sid :: order) = bool_decide (x ∈ order)).
        { apply bool_decide_ext. rewrite elem_of_cons. tauto. }
        rewrite Hmem.
        destruct (bool_decide (x ∈ order) && stale limit w x); [reflexivity |].
        destruct (stale limit w sid); [apply lookup_delete_ne; congruence | reflexivity].
Qed.

Lemma filter_evictions limit w sid order :
  NoDup order ->
  List.filter (evicts sid) (evictions limit w order)
  = if bool_decide (sid ∈ order) && stale limit w sid
    then [UnsubscribeToHLSStreamC sid "local"; ForwarderStopStreamC sid HLS]
    else [].
Proof.
  induction order as [|x order IH]; intros Hnd; [reflexivity |].
  apply NoDup_cons in Hnd as [Hnin Hnd]. specialize (IH Hnd).
  unfold evictions in *. simpl. rewrite List.filter_app, IH.
  destruct (decide (x = sid)) as [-> | Hne].
  - rewrite (bool_decide_true (sid ∈ sid :: order)) by (apply elem_of_cons; auto).
    rewrite (bool_decide_false _ Hnin). simpl.
    destruct (stale limit w sid); simpl; [| reflexivity].
    rewrite !bool_decide_true by reflexivity. reflexivity.
  - assert (Hmem : bool_decide (sid ∈ x :: order) = bool_decide (sid ∈ order)).
    { apply bool_decide_ext. rewrite elem_of_cons. split; [intros [?|?] |]; auto; congruence. }
    rewrite Hmem.
    destruct (stale limit w x); simpl; [| reflexivity].
    rewrite !(bool_decide_false (x = sid)) by assumption. reflexivity.
Qed.

(** C2: in a sweep of the worker with the limit of [StartLPMS] (twenty
    seconds), every entry older than the limit is removed from the map with
    exactly one [UnsubscribeToHLSStream(sid, "local")] and one
    [forwarder.StopStream(sid, HLS)] and no other such call for it, and
    every entry within the limit stays with no such call at all. *)
Theorem sweep_evicts_stale_entries (order : list string) w :
  order ≡ₚ elements (dom (hlsSubTimer w)) ->
  let w' := snd (run (sweep HLSUnsubscribeWaitLimit order) w) in
  forall (sid : string) (t : Z),
    hlsSubTimer w !! sid = Some t ->
    (HLSUnsubscribeWaitLimit < clock w - t ->
     hlsSubTimer w' !! sid = None
     /\ List.filter (evicts sid) (new_calls w w')
        = [UnsubscribeToHLSStreamC sid "local"; ForwarderStopStreamC sid HLS])
    /\ (clock w - t <= HLSUnsubscribeWaitLimit ->
        hlsSubTimer w' !! sid = Some t
        /\ List.filter (evicts sid) (new_calls w w') = []).
Proof.
  intros Hperm w' sid t Hlook.
  assert (Hnd : NoDup order).
  { rewrite Hperm. apply NoDup_elements. }
  assert (Hin : sid ∈ order).
  { rewrite Hperm. apply elem_of_elements, elem_of_dom. eauto. }
  destruct (sweep_spec HLSUnsubscribeWaitLimit order w Hnd) as (Hf & Hcalls & _ & Htimer).
  assert (Hw' : w' = snd (sweep HLSUnsubscribeWaitLimit order w)).
  { subst w'. unfold run.
    destruct (sweep HLSUnsubscribeWaitLimit order w) as [f w1]. simpl in *.
    subst f. reflexivity. }
  rewrite Hw'. rewrite (new_calls_app _ _ _ Hcalls), Htimer.
  rewrite filter_evictions by assumption.
  rewrite (bool_decide_true _ Hin). simpl.
  unfold stale. rewrite Hlook.
  split; intros Hage.
  - assert (E : (clock w - t >? HLSUnsubscribeWaitLimit) = true) by lia.
    rewrite E. auto.
  - assert (E : (clock w - t >? HLSUnsubscribeWaitLimit) = false) by lia.
    rewrite E. auto.
Qed.

(** *** The readiness loop *)

Lemma pollPlaylist_ready strmID b startTime w :
  LatestPlaylist_ok strmID b (clock w) = true ->
  pollPlaylist strmID b startTime w
  = (Next (Some b, None),
     with_timer (<[strmID := clock w]> (hlsSubTimer w))
                (logc (LatestPlaylistC strmID b) w)).
Proof.
  intros H. funelim (pollPlaylist strmID b startTime w); try congruence.
  reflexivity.
Qed.

Lemma pollPlaylist_timeout strmID b startTime w :
  LatestPlaylist_ok strmID b (clock w) = false ->
  HLSWaitTime < clock (after_failed_poll strmID b w) - startTime ->
  pollPlaylist strmID b startTime w
  = (Next (None, Some ErrNotFound), after_failed_poll strmID b w).
Proof.
  intros H Ht. funelim (pollPlaylist strmID b startTime w); try congruence.
  all: first [reflexivity | lia].
Qed.

Lemma pollPlaylist_again strmID b startTime w :
  LatestPlaylist_ok strmID b (clock w) = false ->
  clock (after_failed_poll strmID b w) - startTime <= HLSWaitTime ->
  pollPlaylist strmID b startTime w
  = pollPlaylist strmID b startTime (after_failed_poll strmID b w).
Proof.
  intros H Ht. funelim (pollPlaylist strmID b startTime w); try congruence.
  all: first [reflexivity | lia].
Qed.

Lemma failed_polls_shift strmID b n w :
  failed_polls strmID b (S n) w
  = failed_polls strmID b n (after_failed_poll strmID b w).
Proof. unfold failed_polls. apply Nat.iter_succ_r. Qed.

Lemma failed_polls_frame strmID b n w :
  calls (failed_polls strmID b n w)
  = calls w ++ repeat (LatestPlaylistC strmID b) n
  /\ hlsSubTimer (failed_polls strmID b n w) = hlsSubTimer w
  /\ streamer (failed_polls strmID b n w) = streamer w
  /\ clock w + Second * 2 * Z.of_nat n <= clock (failed_polls strmID b n w).
Proof.
  induction n as [|n (Hc & Ht & Hs & Hk)]; simpl.
  - rewrite app_nil_r. repeat split; lia.
  - rewrite Hc, Ht, Hs, <- app_assoc.
    change ([LatestPlaylistC strmID b]) with (repeat (LatestPlaylistC strmID b) 1).
    rewrite <- repeat_app, Nat.add_1_r.
    repeat split. unfold Second in *. lia.
Qed.

Lemma pollPlaylist_turns strmID b startTime (m : nat) : forall w,
  clock w - startTime <= HLSWaitTime ->
  HLSWaitTime - (clock w - startTime) < Second * 2 * Z.of_nat m ->
  exists n : nat,
    (n < m)%nat
    /\ (forall j : nat, (j < n)%nat ->
          LatestPlaylist_ok strmID b (clock (failed_polls strmID b j w)) = false
          /\ clock (failed_polls strmID b (S j) w) - startTime <= HLSWaitTime)
    /\ let wn := failed_polls strmID b n w in
       if LatestPlaylist_ok strmID b (clock wn)
       then pollPlaylist strmID b startTime w
            = (Next (Some b, None),
               with_timer (<[strmID := clock wn]> (hlsSubTimer wn))
                          (logc (LatestPlaylistC strmID b) wn))
       else HLSWaitTime < clock (failed_polls strmID b (S n) w) - startTime
            /\ pollPlaylist strmID b startTime w
               = (Next (None, Some ErrNotFound), failed_polls strmID b (S n) w).
Proof.
  induction m as [|m IH]; intros w Hle Hm; [lia |].
  destruct (LatestPlaylist_ok strmID b (clock w)) eqn:Hok.
  - exists 0%nat. split; [lia |]. split; [intros j Hj; lia |].
    simpl. rewrite Hok. apply pollPlaylist_ready; assumption.
  - destruct (Z_lt_le_dec HLSWaitTime
                (clock (after_failed_poll strmID b w) - startTime)) as [Hout | Hin].
    + exists 0%nat. split; [lia |]. split; [intros j Hj; lia |].
      simpl. rewrite Hok. split; [assumption |].
      apply pollPlaylist_timeout; assumption.
    + destruct (IH (after_failed_poll strmID b w) Hin) as (n & Hn & Hturns & Hres).
      { unfold after_failed_poll, sleep in *. simpl in *.
        unfold Second in *. lia. }
      exists (S n). split; [lia |]. split.
      * intros [|j] Hj.
        -- simpl. auto.
        -- rewrite (failed_polls_shift _ _ j w), (failed_polls_shift _ _ (S j) w).
           apply Hturns. lia.
      * cbv zeta in *.
        rewrite (failed_polls_shift _ _ n w), (failed_polls_shift _ _ (S n) w).
        rewrite pollPlaylist_again by assumption. exact Hres.
Qed.

(** The loop only polls: it leaves the streamer alone and either leaves
    the activity map alone or stores a time under the stream id. *)
Lemma pollPlaylist_frame strmID b w :
  let r := pollPlaylist strmID b (clock w) w in
  (exists n : nat, calls (snd r) = calls w ++ repeat (LatestPlaylistC strmID b) (S n))
  /\ streamer (snd r) = streamer w
  /\ (hlsSubTimer (snd r) = hlsSubTimer w
      \/ exists t, hlsSubTimer (snd r) = <[strmID := t]> (hlsSubTimer w)).
Proof.
  intros r.
  destruct (pollPlaylist_turns strmID b (clock w) 6 w) as (n & _ & _ & Hres);
    [unfold HLSWaitTime, Second; lia .. |].
  cbv zeta in Hres.
  destruct (failed_polls_frame strmID b n w) as (Hc & Ht & Hs & _).
  destruct (failed_polls_frame strmID b (S n) w) as (Hc' & Ht' & Hs' & _).
  destruct (LatestPlaylist_ok strmID b (clock (failed_polls strmID b n w))).
  - subst r. rewrite Hres. simpl. rewrite Hc, Ht, Hs, <- app_assoc.
    change ([LatestPlaylistC strmID b]) with (repeat (LatestPlaylistC strmID b) 1).
    rewrite <- repeat_app, Nat.add_1_r.
    split; [exists n; reflexivity |]. split; [reflexivity | right; eauto].
  - destruct Hres as [_ Hres]. subst r. rewrite Hres. cbn [fst snd].
    split; [exists n; exact Hc' |]. split; [exact Hs' | left; exact Ht'].
Qed.

(** C4, as the code has it: the readiness loop entered at world [w] makes
    [n] failed polls that stay within the wait and then a last one, six
    polls at most. If the last poll succeeds, the loop stores the time of
    that poll in [hlsSubTimer] under the stream id and returns the buffer.
    If it fails, the wait measured after the sleep that follows exceeds
    [HLSWaitTime] and the loop returns [ErrNotFound], the map untouched.
    How many polls that makes depends on how long the sleeps really take. *)
Theorem pollPlaylist_outcome (strmID : string) (b : HLSBuffer) w :
  let r := pollPlaylist strmID b (clock w) w in
  exists n : nat,
    (n <= 5)%nat
    /\ (forall j : nat, (j < n)%nat ->
          LatestPlaylist_ok strmID b (clock (failed_polls strmID b j w)) = false
          /\ clock (failed_polls strmID b (S j) w) - clock w <= HLSWaitTime)
    /\ calls (snd r) = calls w ++ repeat (LatestPlaylistC strmID b) (S n)
    /\ streamer (snd r) = streamer w
    /\ let wn := failed_polls strmID b n w in
       if LatestPlaylist_ok strmID b (clock wn)
       then fst r = Next (Some b, None)
            /\ hlsSubTimer (snd r) = <[strmID := clock wn]> (hlsSubTimer w)
            /\ clock (snd r) = clock wn
       else fst r = Next (None, Some ErrNotFound)
            /\ hlsSubTimer (snd r) = hlsSubTimer w
            /\ clock (snd r) = clock (failed_polls strmID b (S n) w)
            /\ HLSWaitTime < clock (snd r) - clock w.
Proof.
  intros r.
  destruct (pollPlaylist_turns strmID b (clock w) 6 w) as (n & Hn & Hturns & Hres).
  { unfold HLSWaitTime, Second. lia. }
  { unfold HLSWaitTime, Second. lia. }
  exists n. split; [lia |]. split; [exact Hturns |].
  cbv zeta in Hres.
  destruct (failed_polls_frame strmID b n w) as (Hc & Ht & Hs & _).
  destruct (failed_polls_frame strmID b (S n) w) as (Hc' & Ht' & Hs' & _).
  destruct (LatestPlaylist_ok strmID b (clock (failed_polls strmID b n w))) eqn:Hok.
  - subst r. rewrite Hres. simpl. rewrite Hc, Ht, Hs, <- app_assoc.
    change ([LatestPlaylistC strmID b]) with (repeat (LatestPlaylistC strmID b) 1).
    rewrite <- repeat_app, Nat.add_1_r. rewrite Hok. auto.
  - destruct Hres as [Hout Hres]. subst r. rewrite Hres.
    cbn [fst snd]. rewrite Hok. repeat split; assumption.
Qed.

(** *** The HLS playback handler *)

Lemma filter_ForwarderStream_polls strmID b n :
  List.filter is_ForwarderStream (repeat (LatestPlaylistC strmID b) n) = [].
Proof. induction n; simpl; auto. Qed.

(** What lines 92-121 do to the world: calls that are none of the
    forwarder's, the streamer changed by the subscription at most, and the
    activity map either untouched or refreshed for this stream, the latter
    only with the buffer found or the subscription made without error. *)
Lemma subscribeAndPoll_spec strmID w :
  let r := subscribeAndPoll strmID w in
  let sub := SubscribeToHLSStream (streamer w) strmID "local"
               (NewHLSBuffer HLSBufferWindow HLSBufferCap) in
  (exists l, calls (snd r) = calls w ++ l /\ List.filter is_ForwarderStream l = [])
  /\ streamer (snd r)
     = match GetHLSMuxer (streamer w) strmID "local" with
       | Some _ => streamer w
       | None => fst sub
       end
  /\ (hlsSubTimer (snd r) = hlsSubTimer w
      \/ (exists t, hlsSubTimer (snd r) = <[strmID := t]> (hlsSubTimer w))
         /\ (GetHLSMuxer (streamer w) strmID "local" = None -> snd sub = None)).
Proof.
  intros r sub. subst r sub. unfold subscribeAndPoll. m_unfold. simpl.
  destruct (GetHLSMuxer (streamer w) strmID "local") as [b|] eqn:Hmux.
  - set (w1 := logc (GetHLSMuxerC strmID "local") w).
    change (clock w) with (clock w1).
    destruct (pollPlaylist_frame strmID b w1) as ((n & Hc) & Hs & Ht).
    cbv zeta in *.
    split; [| split].
    + eexists. rewrite Hc. simpl. rewrite <- app_assoc. split; [reflexivity |].
      simpl. apply filter_ForwarderStream_polls.
    + rewrite Hs. reflexivity.
    + destruct Ht as [Ht | Ht]; [left; exact Ht | right].
      split; [exact Ht | congruence].
  - destruct (SubscribeToHLSStream _ _ _ _) as [s' [e|]] eqn:Hsub; simpl.
    + split; [| split]; auto.
      eexists. rewrite <- app_assoc. split; reflexivity.
    + set (b := NewHLSBuffer HLSBufferWindow HLSBufferCap) in *.
      set (w1 := with_streamer s' (logc (SubscribeToHLSStreamC strmID "local" b)
                                        (logc (GetHLSMuxerC strmID "local") w))).
      change (clock w) with (clock w1).
      destruct (pollPlaylist_frame strmID b w1) as ((n & Hc) & Hs & Ht).
      cbv zeta in *.
      split; [| split].
      * eexists. rewrite Hc. simpl. rewrite <- !app_assoc. split; [reflexivity |].
        simpl. apply filter_ForwarderStream_polls.
      * rewrite Hs. reflexivity.
      * destruct Ht as [Ht | Ht]; [left; exact Ht | right].
        split; [exact Ht | reflexivity].
Qed.

(** C1, as the code has it: a playback request with a non-empty address
    whose local-stream component is non-empty too, for a stream the
    streamer does not know. When this node is not the owner the handler
    calls [forwarder.Stream(strmID, HLS)], once and only once, and goes on
    with the buffer lookup and the polling; when it is the owner the handler
    returns [ErrNotFound] after the lookup and nothing else. *)
Theorem HandleHLSPlay_absent_stream (reqPath : string) w :
  let strmID := parseStreamID reqPath in
  let nodeID := fst (SplitComponents strmID) in
  strmID <> "" ->
  snd (SplitComponents strmID) <> "" ->
  GetNetworkStream (streamer w) strmID = None ->
  (SelfAddress <> nodeID ->
   run (HandleHLSPlay reqPath) w
   = run (subscribeAndPoll strmID)
         (logc (ForwarderStreamC strmID HLS) (logc (GetNetworkStreamC strmID) w))
   /\ List.filter is_ForwarderStream
        (new_calls w (snd (run (HandleHLSPlay reqPath) w)))
      = [ForwarderStreamC strmID HLS])
  /\ (SelfAddress = nodeID ->
      run (HandleHLSPlay reqPath) w
      = (Returns (None, Some ErrNotFound), logc (GetNetworkStreamC strmID) w)).
Proof.
  intros strmID nodeID Hne Hloc Habs. subst nodeID.
  unfold HandleHLSPlay. fold strmID.
  destruct (SplitComponents strmID) as [nodeID streamID]. simpl in *.
  rewrite (bool_decide_false _ Hne), (bool_decide_false _ Hloc). simpl.
  split; intros Hown.
  - match goal with
    | |- ?lhs = ?rhs /\ _ => assert (Hsame : lhs = rhs)
    end.
    { unfold run, bind, streamer_GetNetworkStream at 1. simpl.
      rewrite Habs, (bool_decide_true _ Hown). reflexivity. }
    rewrite Hsame. split; [reflexivity |].
    set (w2 := logc (ForwarderStreamC strmID HLS) (logc (GetNetworkStreamC strmID) w)).
    destruct (subscribeAndPoll_spec strmID w2) as ((l & Hl & Hfl) & _).
    assert (Hsnd : snd (run (subscribeAndPoll strmID) w2)
                   = snd (subscribeAndPoll strmID w2)).
    { unfold run. destruct (subscribeAndPoll strmID w2) as [[?|?] ?]; reflexivity. }
    rewrite Hsnd.
    rewrite (new_calls_app w _ ([GetNetworkStreamC strmID; ForwarderStreamC strmID HLS] ++ l)).
    + rewrite List.filter_app, Hfl. reflexivity.
    + rewrite Hl. subst w2. simpl. rewrite <- !app_assoc. reflexivity.
  - unfold run, bind, streamer_GetNetworkStream at 1. simpl.
    rewrite Habs. rewrite bool_decide_false by (intros Hx; apply Hx; exact Hown).
    reflexivity.
Qed.

(** *** The activity map and the subscriptions *)

Context {Laws : StreamerLaws NodeID St}.

Lemma run_snd {R} (m : M St R R) w : snd (run m w) = snd (m w).
Proof. unfold run. destruct (m w) as [[?|?] ?]; reflexivity. Qed.

(** The pieces the handler is cut into are those of [HandleHLSPlay]. *)
Lemma pollPlaylist_pieces (p : Waiting) w :
  pollPlaylist (wStrmID p) (wBuffer p) (wStart p) w
  = match pollOnce p w with
    | (Next _, w1) =>
        match checkWait p (sleep (Second * 2) w1) with
        | (Next _, w2) => pollPlaylist (wStrmID p) (wBuffer p) (wStart p) w2
        | (Stop (Returns r), w2) => (Next r, w2)
        | (Stop o, w2) => (Stop o, w2)
        end
    | (Stop (Returns r), w1) => (Next r, w1)
    | (Stop o, w1) => (Stop o, w1)
    end.
Proof.
  unfold pollOnce, checkWait. m_unfold.
  destruct (LatestPlaylist_ok (wStrmID p) (wBuffer p) (clock w)) eqn:Hok.
  - rewrite pollPlaylist_ready by exact Hok. reflexivity.
  - fold (after_failed_poll (wStrmID p) (wBuffer p) w).
    destruct (clock (after_failed_poll (wStrmID p) (wBuffer p) w) - wStart p
              >? HLSWaitTime) eqn:Hout.
    + rewrite pollPlaylist_timeout; [reflexivity | exact Hok | lia].
    + rewrite pollPlaylist_again; [reflexivity | exact Hok | lia].
Qed.

Lemma HandleHLSPlay_pieces (reqPath : string) w :
  run (HandleHLSPlay reqPath) w
  = run (bind (enterLoop reqPath)
              (fun p => pollPlaylist (wStrmID p) (wBuffer p) (wStart p))) w.
Proof.
  unfold HandleHLSPlay, enterLoop, subscribeAndPoll.
  destruct (SplitComponents (parseStreamID reqPath)) as [nodeID streamID].
  destruct (bool_decide _ || bool_decide _); [reflexivity |].
  m_unfold. simpl.
  destruct (GetNetworkStream (streamer w) (parseStreamID reqPath)); simpl.
  - destruct (GetHLSMuxer _ _ _); simpl; [reflexivity |].
    destruct (SubscribeToHLSStream _ _ _ _) as [s' [e|]]; reflexivity.
  - destruct (bool_decide (SelfAddress <> nodeID)); simpl; [| reflexivity].
    destruct (GetHLSMuxer _ _ _); simpl; [reflexivity |].
    destruct (SubscribeToHLSStream _ _ _ _) as [s' [e|]]; reflexivity.
Qed.

(** What lines 61-107 do: the activity map and the clock stay; every
    subscription stays; a request that enters the loop has its
    subscription; and a request for an address that has its subscription
    already leaves the streamer alone and polls the buffer it found. *)
Lemma enterLoop_spec (reqPath : string) w :
  let r := enterLoop reqPath w in
  let strmID := parseStreamID reqPath in
  hlsSubTimer (snd r) = hlsSubTimer w
  /\ clock (snd r) = clock w
  /\ (forall sid, hls_active (streamer w) sid -> hls_active (streamer (snd r)) sid)
  /\ (forall p, fst r = Next p ->
        wStrmID p = strmID /\ hls_active (streamer (snd r)) strmID)
  /\ (hls_active (streamer w) strmID ->
      streamer (snd r) = streamer w
      /\ List.filter is_SubscribeToHLSStream (new_calls w (snd r)) = []
      /\ forall p, fst r = Next p ->
           GetHLSMuxer (streamer w) strmID "local" = Some (wBuffer p)).
Proof.
  intros r strmID. subst r. unfold enterLoop. fold strmID.
  destruct (SplitComponents strmID) as [nodeID streamID].
  assert (Hcalls : forall w' l, calls w' = calls w ++ l ->
            List.filter is_SubscribeToHLSStream l = [] ->
            List.filter is_SubscribeToHLSStream (new_calls w w') = []).
  { intros w' l Hl Hfl. rewrite (new_calls_app w w' l Hl). exact Hfl. }
  pose proof (subscribe_hls_keeps (streamer w) strmID "local"
                (NewHLSBuffer HLSBufferWindow HLSBufferCap)) as Hkeep.
  pose proof (subscribe_hls_active (streamer w) strmID "local"
                (NewHLSBuffer HLSBufferWindow HLSBufferCap)) as Hnew.
  destruct (bool_decide _ || bool_decide _);
    [| m_unfold; simpl;
       destruct (GetNetworkStream (streamer w) strmID) as [strm|]; simpl;
       [| destruct (bool_decide (SelfAddress <> nodeID)); simpl];
       [destruct (GetHLSMuxer (streamer w) strmID "local") as [b|] eqn:Hmux; simpl;
        [| destruct (SubscribeToHLSStream (streamer w) strmID "local" _)
             as [s' [e|]]; simpl in *] ..
       |]].
  all: split; [reflexivity |].
  all: split; [reflexivity |].
  all: split; [first [intros sid Hsid; exact Hsid
                     | intros sid Hsid; apply Hkeep; exact Hsid] |].
  all: split;
    [intros p Hp;
     first [discriminate Hp
           | injection Hp as <-; split; [reflexivity |];
             first [unfold hls_active; rewrite Hmux; discriminate
                   | eapply Hnew; reflexivity]] |].
  all: intros Hact;
    try (exfalso; apply Hact; exact Hmux).
  all: split; [reflexivity |].
  all: split;
    [first [apply (Hcalls _ []); [rewrite app_nil_r |]; reflexivity
           | eapply Hcalls; [simpl; rewrite <- ?app_assoc; reflexivity | reflexivity]] |].
  all: intros p Hp; first [discriminate Hp | injection Hp as <-; reflexivity].
Qed.

Lemma pollOnce_spec (p : Waiting) w :
  let r := pollOnce p w in
  streamer (snd r) = streamer w
  /\ clock (snd r) = clock w
  /\ ((exists u, fst r = Next u) /\ hlsSubTimer (snd r) = hlsSubTimer w
      \/ fst r = Stop (Returns (Some (wBuffer p), None))
         /\ hlsSubTimer (snd r) = <[wStrmID p := clock w]> (hlsSubTimer w)).
Proof.
  unfold pollOnce. m_unfold.
  destruct (LatestPlaylist_ok _ _ _); simpl; eauto 6.
Qed.

Lemma checkWait_spec (p : Waiting) w : snd (checkWait p w) = w.
Proof.
  unfold checkWait. m_unfold. destruct (_ >? _); reflexivity.
Qed.

Lemma awaited_true (sys : System St) (sid : string) :
  awaited sys sid = true
  <-> exists p, wStrmID p = sid
                /\ (p ∈ polling sys \/ exists t, (p, t) ∈ sleeping sys).
Proof.
  unfold awaited. rewrite existsb_exists. split.
  - intros (p & Hin & Hp). apply bool_decide_eq_true in Hp.
    exists p. split; [exact Hp |].
    apply in_app_iff in Hin as [Hin | Hin].
    + left. apply list_elem_of_In. exact Hin.
    + right. apply in_map_iff in Hin as ([p' t] & Hfst & Hin).
      simpl in Hfst. subst p'. exists t. apply list_elem_of_In. exact Hin.
  - intros (p & Hp & Hin). exists p.
    split; [| apply bool_decide_eq_true; exact Hp].
    apply in_app_iff. destruct Hin as [Hin | [t Hin]].
    + left. apply list_elem_of_In. exact Hin.
    + right. apply in_map_iff. exists (p, t).
      split; [reflexivity | apply list_elem_of_In; exact Hin].
Qed.

(** The requests in their loops after an event are those before it and
    perhaps one that came. *)
Lemma awaited_after (sys sys' : System St) (q : option Waiting) (sid : string) :
  (forall p, p ∈ polling sys' \/ (exists t, (p, t) ∈ sleeping sys') ->
             q = Some p \/ p ∈ polling sys \/ exists t, (p, t) ∈ sleeping sys) ->
  awaited sys' sid = true ->
  awaited sys sid = true \/ exists p, q = Some p /\ wStrmID p = sid.
Proof.
  intros Hsub Haw. apply awaited_true in Haw as (p & Hp & Hin).
  destruct (Hsub p Hin) as [Hq | Hold].
  - right. eauto.
  - left. apply awaited_true. eauto.
Qed.

Lemma settled_after (sys sys' : System St) :
  settled sys ->
  (forall sid, hls_active (streamer (world sys)) sid ->
               hls_active (streamer (world sys')) sid) ->
  (forall sid, has_entry (world sys') sid ->
               has_entry (world sys) sid \/ awaited sys sid = true
               \/ hls_active (streamer (world sys')) sid) ->
  (forall sid, awaited sys' sid = true ->
               awaited sys sid = true \/ hls_active (streamer (world sys')) sid) ->
  settled sys'.
Proof.
  intros Hset Hact Hent Haw sid [H | H].
  - destruct (Hent sid H) as [H1 | [H1 | H1]]; [apply Hact, Hset | apply Hact, Hset |];
      auto.
  - destruct (Haw sid H) as [H1 | H1]; [apply Hact, Hset |]; auto.
Qed.

(** One event that does not disturb keeps the system settled. *)
Lemma settled_event (limit : Z) (e : Event) (sys sys' : System St) :
  settled sys ->
  undisturbed limit e sys = true ->
  apply_event limit e sys = Some sys' ->
  settled sys'.
Proof.
  intros Hset Hund Hev.
  assert (Hold : forall sys1 : System St,
            (forall q, q ∈ polling sys1 \/ (exists t, (q, t) ∈ sleeping sys1) ->
               q ∈ polling sys \/ exists t, (q, t) ∈ sleeping sys) ->
            forall sid, awaited sys1 sid = true ->
              awaited sys sid = true \/ hls_active (streamer (world sys1)) sid).
  { intros sys1 Hsub sid Haw. left.
    apply (awaited_after sys sys1 None) in Haw as [Haw | (p' & Hx & _)];
      [exact Haw | discriminate |].
    intros q Hq. right. apply Hsub. exact Hq. }
  assert (Hsame : forall sys1 : System St,
            polling sys1 = polling sys -> sleeping sys1 = sleeping sys ->
            forall sid, awaited sys1 sid = true ->
              awaited sys sid = true \/ hls_active (streamer (world sys1)) sid).
  { intros sys1 Hp Hs. apply Hold. rewrite Hp, Hs. auto. }
  assert (Hkept : forall sys1 : System St,
            hlsSubTimer (world sys1) = hlsSubTimer (world sys) ->
            forall sid, has_entry (world sys1) sid ->
              has_entry (world sys) sid \/ awaited sys sid = true
              \/ hls_active (streamer (world sys1)) sid).
  { intros sys1 Ht sid Hsid. left. unfold has_entry in *. rewrite <- Ht. exact Hsid. }
  destruct e as [d | reqPath | i | i | order | | a b];
    simpl in Hev, Hund; [| | | | | | discriminate].
  - (* time passes *)
    destruct (0 <=? d); [| discriminate]. injection Hev as <-.
    apply (settled_after sys);
      [exact Hset | auto | apply Hkept; reflexivity | apply Hsame; reflexivity].
  - (* a request arrives *)
    destruct (enterLoop_spec reqPath (world sys)) as (Ht & _ & Hact & Hin & _).
    cbv zeta in *.
    destruct (enterLoop reqPath (world sys)) as [[p | o] w'] eqn:Hent;
      injection Hev as <-; simpl in *.
    + destruct (Hin p eq_refl) as [Hp Hpact].
      apply (settled_after sys);
        [exact Hset | exact Hact | apply Hkept; exact Ht |].
      intros sid Haw.
      apply (awaited_after sys _ (Some p)) in Haw as [Haw | (p' & [= <-] & Hsid)].
      * left. exact Haw.
      * right. rewrite <- Hsid, Hp. exact Hpact.
      * simpl. intros p' [Hp' | Hp']; [| auto].
        apply elem_of_app in Hp' as [Hp' | Hp']; [auto |].
        apply list_elem_of_singleton in Hp'. left. congruence.
    + apply (settled_after sys);
        [exact Hset | exact Hact | apply Hkept; exact Ht | apply Hsame; reflexivity].
  - (* a request polls *)
    destruct (polling sys !! i) as [p|] eqn:Hi; [| discriminate].
    assert (Hp : awaited sys (wStrmID p) = true).
    { apply awaited_true. exists p. split; [reflexivity |]. left.
      eapply list_elem_of_lookup_2. exact Hi. }
    destruct (pollOnce_spec p (world sys)) as (Hs & _ & Hres). cbv zeta in *.
    destruct (pollOnce p (world sys)) as [[u | o] w'] eqn:Hpoll;
      injection Hev as <-; simpl in *.
    + destruct Hres as [[_ Ht] | [Hx _]]; [| discriminate].
      apply (settled_after sys);
        [exact Hset | simpl; rewrite Hs; auto | apply Hkept; exact Ht |].
      apply Hold. simpl. intros q [Hq | [t Hq]].
      * left. eapply list_elem_of_delete_inv. exact Hq.
      * apply elem_of_app in Hq as [Hq | Hq]; [right; eauto |].
        apply list_elem_of_singleton in Hq. injection Hq as -> _.
        left. eapply list_elem_of_lookup_2. exact Hi.
    + destruct Hres as [[[u Hx] _] | [_ Ht]]; [discriminate |].
      apply (settled_after sys); [exact Hset | simpl; rewrite Hs; auto | |].
      * simpl. intros sid [t Hsid]. rewrite Ht in Hsid.
        destruct (decide (sid = wStrmID p)) as [-> | Hne]; [auto |].
        rewrite lookup_insert_ne in Hsid by congruence. left. exists t. exact Hsid.
      * apply Hold. simpl. intros q [Hq | Hq]; [| auto].
        left. eapply list_elem_of_delete_inv. exact Hq.
  - (* a sleep is over *)
    destruct (sleeping sys !! i) as [[p t]|] eqn:Hi; [| discriminate].
    destruct (t <=? clock (world sys)); [| discriminate].
    pose proof (checkWait_spec p (world sys)) as Hw.
    destruct (checkWait p (world sys)) as [[u | o] w'] eqn:Hchk;
      injection Hev as <-; simpl in *; subst w'.
    + apply (settled_after sys);
        [exact Hset | auto | apply Hkept; reflexivity |].
      apply Hold. simpl. intros q [Hq | [t' Hq]].
      * apply elem_of_app in Hq as [Hq | Hq]; [auto |].
        apply list_elem_of_singleton in Hq. subst q.
        right. exists t. eapply list_elem_of_lookup_2. exact Hi.
      * right. exists t'. eapply list_elem_of_delete_inv. exact Hq.
    + apply (settled_after sys);
        [exact Hset | auto | apply Hkept; reflexivity |].
      apply Hold. simpl. intros q [Hq | [t' Hq]]; [auto |].
      right. exists t'. eapply list_elem_of_delete_inv. exact Hq.
  - (* the worker's loop begins *)
    destruct (sweeping sys); [discriminate |].
    destruct (workerWake sys <=? clock (world sys)); [| discriminate].
    injection Hev as <-.
    apply (settled_after sys);
      [exact Hset | auto | apply Hkept; reflexivity | apply Hsame; reflexivity].
  - (* the worker's loop body, or its end *)
    destruct (sweeping sys) as [[| sid rest] |]; [| | discriminate];
      injection Hev as <-.
    + apply (settled_after sys);
        [exact Hset | auto | apply Hkept; reflexivity | apply Hsame; reflexivity].
    + unfold visit_entry, stale in *.
      destruct (hlsSubTimer (world sys) !! sid) as [t|] eqn:Hsid;
        [| apply (settled_after sys);
           [exact Hset | auto | apply Hkept; reflexivity | apply Hsame; reflexivity]].
      m_unfold. simpl.
      destruct (clock (world sys) - t >? limit);
        [| apply (settled_after sys);
           [exact Hset | auto | apply Hkept; reflexivity | apply Hsame; reflexivity]].
      simpl in Hund. apply negb_true_iff in Hund.
      intros sid' Hsid'. unfold hls_active, has_entry in *. simpl in *.
      destruct (decide (sid' = sid)) as [-> | Hne].
      * destruct Hsid' as [[t' Hx] | Hx].
        -- rewrite lookup_delete_eq in Hx. discriminate.
        -- change (awaited sys sid = true) in Hx. congruence.
      * rewrite unsubscribe_hls_other by congruence.
        apply Hset. destruct Hsid' as [[t' Hx] | Hx]; [left | right; exact Hx].
        rewrite lookup_delete_ne in Hx by congruence. exists t'. exact Hx.
Qed.

Lemma settled_run (limit : Z) (es : list Event) : forall sys sys' : System St,
  settled sys ->
  undisturbed_run limit es sys = true ->
  run_events limit es sys = Some sys' ->
  settled sys'.
Proof.
  induction es as [| e es IH]; intros sys sys' Hset Hund Hrun; simpl in *.
  - injection Hrun as <-. exact Hset.
  - apply andb_prop in Hund as [He Hrest].
    destruct (apply_event limit e sys) as [sys1|] eqn:Hev; [| discriminate].
    apply (IH sys1); [| assumption ..].
    eapply settled_event; eassumption.
Qed.


(** *** Publishing *)

Lemma mint_or_given (q : string) {R A} (k : string -> M St R A) w :
  bind (if bool_decide (q = "") then mintStreamID else ret q) k w
  = k (if bool_decide (q = "")
       then MakeStreamID SelfAddress (hex (random_hash (nrand w))) else q)
      (if bool_decide (q = "") then next_random w else w).
Proof. destruct (bool_decide (q = "")); reflexivity. Qed.

(** The packaged half of a publish request: one [AddNewNetworkStream] for
    the packaged id when this node owns it, none otherwise; and when the
    half returns two streams, the raw one is the one it was given and the
    packaged one is what the streamer returned for that id. *)
Lemma publishPackaged_spec (url : URL) (rs : option Stream) w :
  let p := packagedStreamID url (nrand w) in
  let r := publishPackaged url rs w in
  (exists l, calls (snd r) = calls w ++ l
             /\ List.filter is_AddNewNetworkStream l
                = (if bool_decide (fst (SplitComponents p) = SelfAddress)
                   then [AddNewNetworkStreamC p HLS] else []))
  /\ streamer (snd r)
     = (if bool_decide (fst (SplitComponents p) = SelfAddress)
        then fst (AddNewNetworkStream (streamer w) p HLS) else streamer w)
  /\ (forall x, fst r <> Stop (Returns x))
  /\ forall r' h',
       fst r = Next (Some r', Some h', None) ->
       rs = Some r'
       /\ fst (SplitComponents p) = SelfAddress
       /\ snd (AddNewNetworkStream (streamer w) p HLS) = (Some h', None).
Proof.
  intros p r. subst r. unfold publishPackaged.
  rewrite mint_or_given. fold (packagedStreamID url (nrand w)). fold p.
  set (w0 := if bool_decide (Query_Get (RawQuery url) "hlsStrmID" = "")
             then next_random w else w).
  assert (Hs : streamer w0 = streamer w) by (subst w0; destruct (bool_decide _); reflexivity).
  assert (Hc : calls w0 = calls w) by (subst w0; destruct (bool_decide _); reflexivity).
  clearbody w0.
  destruct (decide (fst (SplitComponents p) = SelfAddress)) as [Hown | Hown].
  - rewrite (bool_decide_true _ Hown).
    rewrite (bool_decide_false (fst (SplitComponents p) <> SelfAddress))
      by (intros Hx; apply Hx; exact Hown).
    m_unfold. rewrite Hs.
    destruct (AddNewNetworkStream (streamer w) p HLS) as [s2 [hs [e|]]]; simpl.
    + split; [exists [AddNewNetworkStreamC p HLS]; rewrite Hc; auto |].
      repeat split; eauto; intros; discriminate.
    + destruct rs as [rs|]; simpl.
      * destruct hs as [hs|]; simpl.
        -- split; [exists [AddNewNetworkStreamC p HLS;
                           LogBroadcastC (GetStreamID rs);
                           LogBroadcastC (GetStreamID hs)];
                   rewrite <- !app_assoc, Hc; auto |].
           repeat split; eauto; congruence.
        -- split; [exists [AddNewNetworkStreamC p HLS]; rewrite Hc; auto |].
           repeat split; eauto; intros; discriminate.
      * split; [exists [AddNewNetworkStreamC p HLS]; rewrite Hc; auto |].
        repeat split; eauto; intros; discriminate.
  - rewrite (bool_decide_false _ Hown).
    rewrite (bool_decide_true (fst (SplitComponents p) <> SelfAddress)) by exact Hown.
    m_unfold. simpl.
    split; [exists []; rewrite app_nil_r; auto |].
    repeat split; eauto; intros; discriminate.
Qed.

(** A publish request whose path gives a raw id that this node owns. *)
Lemma getStream_owned (url : URL) w :
  let a := parseStreamID (Path url) in
  let add := AddNewNetworkStream (streamer w) a RTMP in
  let w1 := logc (GetNetworkStreamC a) w in
  let w2 := with_streamer (fst add) (logc (AddNewNetworkStreamC a RTMP) w1) in
  a <> "" ->
  fst (SplitComponents a) = SelfAddress ->
  getStream url w
  = match GetNetworkStream (streamer w) a with
    | Some s => publishPackaged url (Some s) w1
    | None =>
        match snd (snd add) with
        | Some _ => (Stop (Returns (None, None, Some ErrStreamPublish)), w2)
        | None => publishPackaged url (fst (snd add)) w2
        end
    end.
Proof.
  intros a add w1 w2 Hne Hown. subst add w1 w2. unfold getStream. fold a.
  rewrite (bool_decide_false _ Hne).
  unfold bind at 1, ret at 1.
  rewrite (bool_decide_false (fst (SplitComponents a) <> SelfAddress))
    by (intros Hx; apply Hx; exact Hown).
  unfold bind at 1, streamer_GetNetworkStream at 1.
  destruct (GetNetworkStream (streamer w) a) as [s|]; [reflexivity |].
  unfold bind at 1. unfold bind at 1, streamer_AddNewNetworkStream at 1. simpl.
  destruct (AddNewNetworkStream (streamer w) a RTMP) as [s1 [rs [e|]]]; reflexivity.
Qed.

Lemma run_returns {R} (m : M St R R) w (x : R) :
  fst (run m w) = Returns x ->
  fst (m w) = Next x \/ fst (m w) = Stop (Returns x).
Proof.
  unfold run. destruct (m w) as [[a|o] w']; simpl; intros H; [left | right]; congruence.
Qed.

Lemma getStream_raw_found (url : URL) w (r : Stream) :
  let a := parseStreamID (Path url) in
  let p := packagedStreamID url (nrand w) in
  let w' := snd (run (getStream url) w) in
  a <> "" ->
  fst (SplitComponents a) = SelfAddress ->
  GetNetworkStream (streamer w) a = Some r ->
  List.filter is_AddNewNetworkStream (new_calls w w')
  = (if bool_decide (fst (SplitComponents p) = SelfAddress)
     then [AddNewNetworkStreamC p HLS] else [])
  /\ forall r2 h2,
       fst (run (getStream url) w) = Returns (Some r2, Some h2, None) ->
       r2 = r /\ GetStreamID h2 = p /\ Format h2 = HLS.
Proof.
  intros a p w' Hne Hown Hget. subst w'. rewrite run_snd.
  pose proof (getStream_owned url w Hne Hown) as Heq. cbv zeta in Heq.
  fold a in Heq. rewrite Hget in Heq.
  set (w1 := logc (GetNetworkStreamC a) w) in *.
  destruct (publishPackaged_spec url (Some r) w1) as ((l & Hl & Hfl) & _ & Hstop & Hok).
  change (packagedStreamID url (nrand w1)) with p in *.
  cbv zeta in *. split.
  - rewrite Heq.
    rewrite (new_calls_app w _ ([GetNetworkStreamC a] ++ l))
      by (rewrite Hl; subst w1; simpl; rewrite <- app_assoc; reflexivity).
    rewrite List.filter_app. simpl. exact Hfl.
  - intros r2 h2 Hret. apply run_returns in Hret. rewrite Heq in Hret.
    destruct Hret as [Hret | Hret]; [| exfalso; eapply Hstop; exact Hret].
    destruct (Hok _ _ Hret) as (Hrs & Hp & Hadd).
    destruct (AddNewNetworkStream (streamer w1) p HLS) as [s2 res] eqn:Hadd'.
    simpl in Hadd. subst res.
    destruct (add_stream_found _ _ _ _ _ Hadd') as (_ & Hid & Hfmt).
    split; [congruence | auto].
Qed.

Lemma getStream_success (url : URL) w (r h : Stream) :
  let a := parseStreamID (Path url) in
  let p := packagedStreamID url (nrand w) in
  let w' := snd (run (getStream url) w) in
  a <> "" ->
  fst (SplitComponents a) = SelfAddress ->
  fst (run (getStream url) w) = Returns (Some r, Some h, None) ->
  is_Some (GetNetworkStream (streamer w') a)
  /\ GetStreamID h = p /\ Format h = HLS
  /\ List.filter is_AddNewNetworkStream (new_calls w w')
     = match GetNetworkStream (streamer w) a with
       | Some _ => []
       | None => [AddNewNetworkStreamC a RTMP]
       end ++ [AddNewNetworkStreamC p HLS].
Proof.
  intros a p w' Hne Hown Hret. subst w'. rewrite run_snd.
  apply run_returns in Hret.
  pose proof (getStream_owned url w Hne Hown) as Heq. cbv zeta in Heq.
  fold a in Heq. rewrite Heq in *. clear Heq.
  set (w1 := logc (GetNetworkStreamC a) w) in *.
  destruct (GetNetworkStream (streamer w) a) as [r0|] eqn:Hget.
  - destruct (publishPackaged_spec url (Some r0) w1)
      as ((l & Hl & Hfl) & Hs & Hstop & Hok).
    change (packagedStreamID url (nrand w1)) with p in *. cbv zeta in *.
    destruct Hret as [Hret | Hret]; [| exfalso; eapply Hstop; exact Hret].
    destruct (Hok _ _ Hret) as (Hrs & Hp & Hadd).
    rewrite (bool_decide_true _ Hp) in *.
    destruct (AddNewNetworkStream (streamer w1) p HLS) as [s2 res] eqn:Hadd'.
    simpl in Hadd. subst res.
    destruct (add_stream_found _ _ _ _ _ Hadd') as (_ & Hid & Hfmt).
    split; [| split; [| split]]; auto.
    + rewrite Hs. pose proof (add_stream_keeps (streamer w1) p HLS a) as Hk.
      rewrite Hadd' in Hk. apply Hk. subst w1. simpl. rewrite Hget. eauto.
    + rewrite (new_calls_app w _ ([GetNetworkStreamC a] ++ l))
        by (rewrite Hl; subst w1; simpl; rewrite <- app_assoc; reflexivity).
      rewrite List.filter_app. simpl. exact Hfl.
  - destruct (AddNewNetworkStream (streamer w) a RTMP) as [s1 [rs [e|]]] eqn:Hraw;
      simpl in Hret; [destruct Hret; discriminate |].
    simpl.
    set (w2 := with_streamer s1 (logc (AddNewNetworkStreamC a RTMP) w1)) in *.
    destruct (publishPackaged_spec url rs w2)
      as ((l & Hl & Hfl) & Hs & Hstop & Hok).
    change (packagedStreamID url (nrand w2)) with p in *. cbv zeta in *.
    destruct Hret as [Hret | Hret]; [| exfalso; eapply Hstop; exact Hret].
    destruct (Hok _ _ Hret) as (Hrs & Hp & Hadd). subst rs.
    rewrite (bool_decide_true _ Hp) in *.
    destruct (add_stream_found _ _ _ _ _ Hraw) as (Hfound & _).
    destruct (AddNewNetworkStream (streamer w2) p HLS) as [s2 res] eqn:Hadd'.
    simpl in Hadd. subst res.
    destruct (add_stream_found _ _ _ _ _ Hadd') as (_ & Hid & Hfmt).
    split; [| split; [| split]]; auto.
    + rewrite Hs. pose proof (add_stream_keeps (streamer w2) p HLS a) as Hk.
      rewrite Hadd' in Hk. apply Hk. subst w2. simpl. rewrite Hfound. eauto.
    + rewrite (new_calls_app w _ ([GetNetworkStreamC a; AddNewNetworkStreamC a RTMP] ++ l))
        by (rewrite Hl; subst w2 w1; simpl; rewrite <- !app_assoc; reflexivity).
      rewrite List.filter_app. simpl. rewrite Hfl. reflexivity.
Qed.

Context {Table : StreamerTable NodeID St}.

(** The raw address after a publish request that returned its streams:
    it holds the raw stream of the request, or the packaged one when the
    request asked for the raw address as its packaged address too. A raw
    stream that the request added carries the raw address and RTMP. *)
Lemma getStream_leaves_raw (url : URL) w (r h : Stream) :
  let a := parseStreamID (Path url) in
  let p := packagedStreamID url (nrand w) in
  let w' := snd (run (getStream url) w) in
  a <> "" ->
  fst (SplitComponents a) = SelfAddress ->
  fst (run (getStream url) w) = Returns (Some r, Some h, None) ->
  GetNetworkStream (streamer w') a = Some (if bool_decide (p = a) then h else r)
  /\ (GetNetworkStream (streamer w) a = None -> GetStreamID r = a /\ Format r = RTMP).
Proof.
  intros a p w' Hne Hown Hret. subst w'. rewrite run_snd.
  apply run_returns in Hret.
  pose proof (getStream_owned url w Hne Hown) as Heq. cbv zeta in Heq.
  fold a in Heq. rewrite Heq in *. clear Heq.
  set (w1 := logc (GetNetworkStreamC a) w) in *.
  assert (Hafter : forall w2 rs,
            nrand w2 = nrand w ->
            GetNetworkStream (streamer w2) a = Some r ->
            fst (publishPackaged url rs w2) = Next (Some r, Some h, None)
            \/ fst (publishPackaged url rs w2) = Stop (Returns (Some r, Some h, None)) ->
            GetNetworkStream (streamer (snd (publishPackaged url rs w2))) a
            = Some (if bool_decide (p = a) then h else r)).
  { intros w2 rs Hn Hfound Hres.
    destruct (publishPackaged_spec url rs w2) as (_ & Hs & Hstop & Hok).
    cbv zeta in *. rewrite Hn in *. fold p in Hs, Hok.
    destruct Hres as [Hres | Hres]; [| exfalso; eapply Hstop; exact Hres].
    destruct (Hok _ _ Hres) as (_ & Hp & Hadd).
    rewrite (bool_decide_true _ Hp) in Hs. rewrite Hs.
    destruct (AddNewNetworkStream (streamer w2) p HLS) as [s2 res] eqn:Hadd'.
    simpl in Hadd. subst res. simpl.
    destruct (decide (p = a)) as [Hpa | Hpa].
    - rewrite (bool_decide_true _ Hpa).
      destruct (add_stream_found _ _ _ _ _ Hadd') as (Hf & _). congruence.
    - rewrite (bool_decide_false _ Hpa).
      pose proof (add_stream_other (streamer w2) p HLS a) as Hk.
      rewrite Hadd' in Hk. simpl in Hk. rewrite Hk by congruence. exact Hfound. }
  destruct (GetNetworkStream (streamer w) a) as [r0|] eqn:Hget.
  - assert (Hr : r0 = r).
    { destruct (publishPackaged_spec url (Some r0) w1) as (_ & _ & Hstop & Hok).
      cbv zeta in *.
      destruct Hret as [Hret | Hret]; [| exfalso; eapply Hstop; exact Hret].
      destruct (Hok _ _ Hret) as (Hrs & _). congruence. }
    subst r0. split; [| discriminate].
    apply Hafter; [reflexivity | exact Hget | exact Hret].
  - destruct (AddNewNetworkStream (streamer w) a RTMP) as [s1 [rs [e|]]] eqn:Hraw;
      simpl in Hret; [destruct Hret; discriminate |].
    simpl.
    set (w2 := with_streamer s1 (logc (AddNewNetworkStreamC a RTMP) w1)) in *.
    assert (Hrs : rs = Some r).
    { destruct (publishPackaged_spec url rs w2) as (_ & _ & Hstop & Hok).
      cbv zeta in *.
      destruct Hret as [Hret | Hret]; [| exfalso; eapply Hstop; exact Hret].
      destruct (Hok _ _ Hret) as (Hrs & _). exact Hrs. }
    subst rs.
    destruct (add_stream_found _ _ _ _ _ Hraw) as (Hfound & Hid & Hfmt).
    split; [| auto].
    apply Hafter; [reflexivity | exact Hfound | exact Hret].
Qed.

(** A publish request whose raw stage is settled, by a stream found or by
    one added, and whose packaged address is another node's: it returns
    [ErrStreamPublish], adds no packaged stream and leaves the raw stream
    where it is. *)
Lemma getStream_refused_packaged (url : URL) w (r0 : Stream) :
  let a := parseStreamID (Path url) in
  let p := packagedStreamID url (nrand w) in
  let w' := snd (run (getStream url) w) in
  a <> "" ->
  fst (SplitComponents a) = SelfAddress ->
  fst (SplitComponents p) <> SelfAddress ->
  GetNetworkStream (streamer w) a = Some r0
  \/ GetNetworkStream (streamer w) a = None
     /\ snd (AddNewNetworkStream (streamer w) a RTMP) = (Some r0, None) ->
  fst (run (getStream url) w) = Returns (None, None, Some ErrStreamPublish)
  /\ GetNetworkStream (streamer w') a = Some r0
  /\ List.filter is_AddNewNetworkStream (new_calls w w')
     = match GetNetworkStream (streamer w) a with
       | Some _ => []
       | None => [AddNewNetworkStreamC a RTMP]
       end.
Proof.
  intros a p w' Hne Hown Hforeign Hraw. subst w'. unfold run.
  pose proof (getStream_owned url w Hne Hown) as Heq. cbv zeta in Heq.
  fold a in Heq. rewrite Heq. clear Heq.
  assert (Hpack : forall w2 rs,
            nrand w2 = nrand w ->
            publishPackaged url rs w2 = (Next (None, None, Some ErrStreamPublish), 
                                         if bool_decide (Query_Get (RawQuery url) "hlsStrmID" = "")
                                         then next_random w2 else w2)).
  { intros w2 rs Hn. unfold publishPackaged. rewrite mint_or_given.
    rewrite Hn. fold (packagedStreamID url (nrand w)). fold p.
    rewrite (bool_decide_true _ Hforeign). reflexivity. }
  assert (Hsame : forall w2 : World St,
            streamer (if bool_decide (Query_Get (RawQuery url) "hlsStrmID" = "")
                      then next_random w2 else w2) = streamer w2
            /\ calls (if bool_decide (Query_Get (RawQuery url) "hlsStrmID" = "")
                      then next_random w2 else w2) = calls w2).
  { intros w2. destruct (bool_decide _); split; reflexivity. }
  destruct Hraw as [Hget | [Hget Hadd]]; rewrite Hget.
  - rewrite Hpack by reflexivity. cbn [fst snd].
    destruct (Hsame (logc (GetNetworkStreamC a) w)) as [Hs Hc].
    split; [reflexivity |]. split; [rewrite Hs; exact Hget |].
    rewrite (new_calls_app w _ [GetNetworkStreamC a]) by (rewrite Hc; reflexivity).
    reflexivity.
  - destruct (AddNewNetworkStream (streamer w) a RTMP) as [s1 res] eqn:Hadd'.
    simpl in Hadd. subst res. simpl.
    rewrite Hpack by reflexivity. cbn [fst snd].
    destruct (Hsame (with_streamer s1
                       (logc (AddNewNetworkStreamC a RTMP)
                             (logc (GetNetworkStreamC a) w)))) as [Hs Hc].
    destruct (add_stream_found _ _ _ _ _ Hadd') as (Hfound & _).
    split; [reflexivity |]. split; [rewrite Hs; exact Hfound |].
    rewrite (new_calls_app w _ [GetNetworkStreamC a; AddNewNetworkStreamC a RTMP])
      by (rewrite Hc; simpl; rewrite <- app_assoc; reflexivity).
    reflexivity.
Qed.

(** C7, as the code has it: two publish requests whose paths give the same
    raw id, owned by this node. Whatever stream the raw address holds
    after the first request, the second finds it, returns it as its raw
    stream and adds no raw stream; it adds a packaged stream, by one
    [AddNewNetworkStream(id, HLS)], when the packaged id it asks for is
    owned by this node and not otherwise. When the first request returns
    its streams, the raw address holds its raw stream afterwards, unless
    the request asked for the raw address as packaged address too: then it
    holds the packaged stream; the packaged streams of the two requests
    carry the two packaged ids and so differ when those ids do. When the
    first request is refused for a packaged id of another node, it adds no
    packaged stream, and the raw stream it found or added stays. *)
Theorem getStream_twice (url1 url2 : URL) w0 :
  let a := parseStreamID (Path url1) in
  let w1 := snd (run (getStream url1) w0) in
  let w2 := snd (run (getStream url2) w1) in
  let p1 := packagedStreamID url1 (nrand w0) in
  let p2 := packagedStreamID url2 (nrand w1) in
  let raw_added :=
    match GetNetworkStream (streamer w0) a with
    | Some _ => []
    | None => [AddNewNetworkStreamC a RTMP]
    end in
  parseStreamID (Path url2) = a ->
  a <> "" ->
  fst (SplitComponents a) = SelfAddress ->
  (forall r : Stream,
     GetNetworkStream (streamer w1) a = Some r ->
     List.filter is_AddNewNetworkStream (new_calls w1 w2)
     = (if bool_decide (fst (SplitComponents p2) = SelfAddress)
        then [AddNewNetworkStreamC p2 HLS] else [])
     /\ forall r2 h2 : Stream,
          fst (run (getStream url2) w1) = Returns (Some r2, Some h2, None) ->
          r2 = r /\ GetStreamID h2 = p2 /\ Format h2 = HLS)
  /\ (forall r1 h1 : Stream,
        fst (run (getStream url1) w0) = Returns (Some r1, Some h1, None) ->
        GetNetworkStream (streamer w1) a
        = Some (if bool_decide (p1 = a) then h1 else r1)
        /\ (GetNetworkStream (streamer w0) a = None ->
            GetStreamID r1 = a /\ Format r1 = RTMP)
        /\ GetStreamID h1 = p1 /\ Format h1 = HLS
        /\ List.filter is_AddNewNetworkStream (new_calls w0 w1)
           = raw_added ++ [AddNewNetworkStreamC p1 HLS]
        /\ forall r2 h2 : Stream,
             fst (run (getStream url2) w1) = Returns (Some r2, Some h2, None) ->
             r2 = (if bool_decide (p1 = a) then h1 else r1)
             /\ (p1 <> p2 -> h1 <> h2))
  /\ (fst (SplitComponents p1) <> SelfAddress ->
      forall r0 : Stream,
        GetNetworkStream (streamer w0) a = Some r0
        \/ GetNetworkStream (streamer w0) a = None
           /\ snd (AddNewNetworkStream (streamer w0) a RTMP) = (Some r0, None) ->
        fst (run (getStream url1) w0) = Returns (None, None, Some ErrStreamPublish)
        /\ GetNetworkStream (streamer w1) a = Some r0
        /\ List.filter is_AddNewNetworkStream (new_calls w0 w1) = raw_added).
Proof.
  intros a w1 w2 p1 p2 raw_added Hsame Hne Hown.
  assert (Hne2 : parseStreamID (Path url2) <> "") by congruence.
  assert (Hown2 : fst (SplitComponents (parseStreamID (Path url2))) = SelfAddress)
    by congruence.
  assert (Hsecond : forall r : Stream,
            GetNetworkStream (streamer w1) a = Some r ->
            List.filter is_AddNewNetworkStream (new_calls w1 w2)
            = (if bool_decide (fst (SplitComponents p2) = SelfAddress)
               then [AddNewNetworkStreamC p2 HLS] else [])
            /\ forall r2 h2 : Stream,
                 fst (run (getStream url2) w1) = Returns (Some r2, Some h2, None) ->
                 r2 = r /\ GetStreamID h2 = p2 /\ Format h2 = HLS).
  { intros r Hr. rewrite <- Hsame in Hr.
    exact (getStream_raw_found url2 w1 r Hne2 Hown2 Hr). }
  split; [exact Hsecond |]. split.
  - intros r1 h1 Hret.
    destruct (getStream_leaves_raw url1 w0 r1 h1 Hne Hown Hret) as (Hraw & Hadded).
    destruct (getStream_success url1 w0 r1 h1 Hne Hown Hret)
      as (_ & Hid1 & Hfmt1 & Hcalls1).
    fold a w1 p1 in Hraw, Hadded, Hid1, Hcalls1.
    split; [exact Hraw |]. split; [exact Hadded |].
    split; [exact Hid1 |]. split; [exact Hfmt1 |]. split; [exact Hcalls1 |].
    intros r2 h2 Hret2.
    destruct (Hsecond _ Hraw) as (_ & Hok2).
    destruct (Hok2 r2 h2 Hret2) as (Hr2 & Hid2 & _).
    split; [exact Hr2 |]. intros Hp Hh. apply Hp. congruence.
  - intros Hforeign r0 Hraw.
    exact (getStream_refused_packaged url1 w0 r0 Hne Hown Hforeign Hraw).
Qed.

End Handlers.

(** ** The modelled collaborators *)

Section Model.

Import SpecModel.

Lemma registry_laws (self : string) : @StreamerLaws string Registry (registry self).
Proof.
  split; simpl.
  - intros s strmID subID b s' H.
    destruct (hlsSubscribers s !! (strmID, subID)) eqn:E.
    + injection H as <-. rewrite E. discriminate.
    + injection H as <-. simpl. rewrite lookup_insert_eq. discriminate.
  - intros s strmID subID b strmID' subID' H.
    destruct (hlsSubscribers s !! (strmID, subID)) eqn:E; simpl; [exact H |].
    destruct (decide ((strmID, subID) = (strmID', subID'))) as [<- | Hne].
    + rewrite lookup_insert_eq. discriminate.
    + rewrite lookup_insert_ne by exact Hne. exact H.
  - intros s strmID subID strmID' subID' Hne.
    apply lookup_delete_ne. congruence.
  - intros s id f s' strm [= <- <-]. simpl.
    rewrite lookup_insert_eq. auto.
  - intros s id f id' H.
    destruct (decide (id = id')) as [<- | Hne].
    + rewrite lookup_insert_eq. eauto.
    + rewrite lookup_insert_ne by exact Hne. exact H.
Qed.

Lemma registry_table (self : string) : @StreamerTable string Registry (registry self).
Proof.
  split; simpl. intros s id f id' Hne.
  apply lookup_insert_ne. congruence.
Qed.

Lemma split_at_Make sep owner local :
  occurs sep owner = false ->
  split_at sep (Make sep owner local) = Some (owner, local).
Proof.
  unfold Make. induction owner as [|c owner IH]; simpl; intros H.
  - rewrite Ascii.eqb_refl. reflexivity.
  - apply orb_false_elim in H as [Hc Ho].
    rewrite Hc, (IH Ho). reflexivity.
Qed.

(** C8, as the code has it: for an address made of a non-empty owner that
    does not hold the separator and a non-empty local id, alphanumeric as
    a whole, parsing the request path [/stream/<address>] and splitting
    the result gives back the owner and the local id. *)
Theorem address_roundtrip_through_path (sep : ascii) (owner local : string) :
  owner <> "" ->
  local <> "" ->
  occurs sep owner = false ->
  all_alnum (StreamID_String (Make sep owner local)) = true ->
  Split sep (parseStreamID ("/stream/" ++ StreamID_String (Make sep owner local))%string)
  = (owner, local).
Proof.
  intros _ _ Hsep Halnum. unfold StreamID_String in *.
  rewrite parseStreamID_stream_path by exact Halnum.
  unfold Split. rewrite split_at_Make by exact Hsep. reflexivity.
Qed.

End Model.

(** ** The handlers on the node of the examples *)

Section Examples.

Import SpecModel.

#[local] Existing Instance codec_x.
#[local] Existing Instance node.

Local Abbreviation w0 := (world0 emptyRegistry).
(** The playlist never comes and sleeps are exact; or they overrun by a
    millisecond, or by a second; or the playlist is there after three
    seconds. *)
Local Abbreviation never := (env None 0 None).
Local Abbreviation never_1ms := (env None 1000000 None).
Local Abbreviation never_1s := (env None 1000000000 None).
Local Abbreviation ready_3s := (env (Some 3000000000) 0 None).
Local Abbreviation buf := (NewHLSBuffer HLSBufferWindow HLSBufferCap).

(** C1 fails as stated: the request path [/stream/abc] has a non-empty
    address without separator. No stream is known and the owner component,
    empty, is not this node; yet the handler stops at the validation,
    forwards nothing and fails. *)
Lemma short_address_is_not_forwarded :
  parseStreamID "/stream/abc" <> ""
  /\ GetNetworkStream (streamer w0) (parseStreamID "/stream/abc") = None
  /\ SelfAddress <> fst (SplitComponents (parseStreamID "/stream/abc"))
  /\ run (HandleHLSPlay (Env := never) "/stream/abc") w0
     = (Returns (None, Some (errors_New "Stream Not Found")), w0)
  /\ List.filter is_ForwarderStream
       (new_calls w0 (snd (run (HandleHLSPlay (Env := never) "/stream/abc") w0)))
     = [].
Proof.
  split; [vm_compute; discriminate |].
  split; [vm_compute; reflexivity |].
  split; [vm_compute; discriminate |].
  split; vm_compute; reflexivity.
Qed.

Lemma HandleHLSPlay_absent_stream_witness :
  (parseStreamID "/stream/otherxab" <> ""
   /\ snd (SplitComponents (parseStreamID "/stream/otherxab")) <> ""
   /\ GetNetworkStream (streamer w0) (parseStreamID "/stream/otherxab") = None)
  /\ run (HandleHLSPlay (Env := never) "/stream/otherxab") w0
     = run (subscribeAndPoll (Env := never) "otherxab")
           (logc (ForwarderStreamC "otherxab" HLS)
                 (logc (GetNetworkStreamC "otherxab") w0))
  /\ List.filter is_ForwarderStream
       (new_calls w0 (snd (run (HandleHLSPlay (Env := never) "/stream/otherxab") w0)))
     = [ForwarderStreamC "otherxab" HLS].
Proof.
  split.
  - repeat split; vm_compute; congruence.
  - apply (HandleHLSPlay_absent_stream (Env := never) "/stream/otherxab" w0);
      vm_compute; congruence.
Defined.

(** The worker on a map with an entry of age 25s and one of age 10s. *)
Local Abbreviation w_two :=
  (mkWorld emptyRegistry (<["a" := 0]> (<["b" := 15000000000]> ∅))
           25000000000 0 []).

Lemma sweep_evicts_stale_entries_witness :
  hlsSubTimer (snd (run (sweep HLSUnsubscribeWaitLimit ["a"; "b"]) w_two))
    !! "a" = None
  /\ List.filter (evicts "a")
       (new_calls w_two
          (snd (run (sweep HLSUnsubscribeWaitLimit ["a"; "b"]) w_two)))
     = [UnsubscribeToHLSStreamC "a" "local"; ForwarderStopStreamC "a" HLS].
Proof.
  apply (sweep_evicts_stale_entries ["a"; "b"] w_two) with (t := 0).
  - vm_compute. reflexivity.
  - reflexivity.
  - vm_compute. reflexivity.
Defined.


(** A request served after two failed polls, then a sweep of the worker
    that finds the entry fresh. *)
Local Abbreviation served_then_swept :=
  [Enter "/stream/otherxab"; Poll 0; Tick 2000000000; Wake 0; Poll 0;
   Tick 2000000000; Wake 0; Poll 0; Tick 1000000000;
   SweepStart ["otherxab"]; SweepNext; SweepNext].


(** Without the first condition of C3 an entry can lose its subscription.
    A request is served at once and leaves an entry of time 0. A second
    request for the same address comes at 19.5s, finds the buffer and
    waits, the playlist being gone for a while. At 25s the worker finds
    the entry older than 20s, unsubscribes the buffer and deletes the
    entry. At 25.5s the second request polls with success, writes the
    entry and returns the buffer: the entry is there, the subscription is
    not, and no request is left in its loop. *)
Local Abbreviation gap := (env_gap 1000000000 25000000000).
Local Abbreviation swept_while_waiting :=
  [Enter "/stream/otherxab"; Poll 0; Tick 19500000000;
   Enter "/stream/otherxab"; Poll 0; Tick 2000000000; Wake 0; Poll 0;
   Tick 2000000000; Wake 0; Poll 0; Tick 1500000000;
   SweepStart ["otherxab"]; SweepNext; SweepNext;
   Tick 500000000; Wake 0; Poll 0].

Example sweep_during_wait_strands_entry :
  match run_events (Env := gap) HLSUnsubscribeWaitLimit swept_while_waiting
                   (boot w0) with
  | Some sys' =>
      hlsSubTimer (world sys') !! "otherxab" = Some 25500000000
      /\ GetHLSMuxer (streamer (world sys')) "otherxab" "local" = None
      /\ polling sys' = [] /\ sleeping sys' = []
      /\ List.filter (evicts "otherxab") (calls (world sys'))
         = [UnsubscribeToHLSStreamC "otherxab" "local";
            ForwarderStopStreamC "otherxab" HLS]
  | None => False
  end
  /\ undisturbed_run (Env := gap) HLSUnsubscribeWaitLimit swept_while_waiting
                     (boot w0) = false.
Proof.
  split; vm_compute; [repeat split |]; reflexivity.
Qed.

(** C4 fails as stated: with sleeps of exactly two seconds the wait is
    ten seconds, not more, after the fifth poll, and the handler polls a
    sixth time and returns after twelve seconds; with sleeps that overrun
    by a second it returns after the fourth poll. *)
Lemma polls_are_not_always_five :
  run (HandleHLSPlay (Env := never) "/stream/otherxab") w0
  = (Returns (None, Some ErrNotFound),
     mkWorld (mkRegistry ∅ {[ ("otherxab", "local") := buf ]} ∅) ∅ 12000000000 0
       ([GetNetworkStreamC "otherxab"; ForwarderStreamC "otherxab" HLS;
         GetHLSMuxerC "otherxab" "local";
         SubscribeToHLSStreamC "otherxab" "local" buf]
        ++ repeat (LatestPlaylistC "otherxab" buf) 6))
  /\ run (HandleHLSPlay (Env := never_1s) "/stream/otherxab") w0
     = (Returns (None, Some ErrNotFound),
        mkWorld (mkRegistry ∅ {[ ("otherxab", "local") := buf ]} ∅) ∅ 12000000000 0
          ([GetNetworkStreamC "otherxab"; ForwarderStreamC "otherxab" HLS;
            GetHLSMuxerC "otherxab" "local";
            SubscribeToHLSStreamC "otherxab" "local" buf]
           ++ repeat (LatestPlaylistC "otherxab" buf) 4)).
Proof.
  split; vm_compute; reflexivity.
Qed.

(** With sleeps that overrun by a millisecond there are five polls. *)
Example five_polls_with_small_overrun :
  run (HandleHLSPlay (Env := never_1ms) "/stream/otherxab") w0
  = (Returns (None, Some ErrNotFound),
     mkWorld (mkRegistry ∅ {[ ("otherxab", "local") := buf ]} ∅) ∅ 10005000000 0
       ([GetNetworkStreamC "otherxab"; ForwarderStreamC "otherxab" HLS;
         GetHLSMuxerC "otherxab" "local";
         SubscribeToHLSStreamC "otherxab" "local" buf]
        ++ repeat (LatestPlaylistC "otherxab" buf) 5)).
Proof. vm_compute. reflexivity. Qed.

(** One failed poll, then the playlist: the time of the second poll goes
    into the activity map and the buffer is returned. *)
Example ready_after_one_failed_poll :
  run (HandleHLSPlay (Env := ready_3s) "/stream/otherxab") w0
  = (Returns (Some buf, None),
     mkWorld (mkRegistry ∅ {[ ("otherxab", "local") := buf ]} ∅)
       {[ "otherxab" := 4000000000 ]} 4000000000 0
       ([GetNetworkStreamC "otherxab"; ForwarderStreamC "otherxab" HLS;
         GetHLSMuxerC "otherxab" "local";
         SubscribeToHLSStreamC "otherxab" "local" buf]
        ++ repeat (LatestPlaylistC "otherxab" buf) 3)).
Proof. vm_compute. reflexivity. Qed.

(** C5 fails as stated: the address [xcd] has an empty owner component
    and the local id [cd]. The handler does not fail: it looks the stream
    up, forwards, subscribes a buffer and returns it. *)
Lemma empty_owner_is_served :
  SplitComponents (parseStreamID "/stream/xcd") = ("", "cd")
  /\ run (HandleHLSPlay (Env := ready_3s) "/stream/xcd") w0
     = (Returns (Some buf, None),
        mkWorld (mkRegistry ∅ {[ ("xcd", "local") := buf ]} ∅)
          {[ "xcd" := 4000000000 ]} 4000000000 0
          ([GetNetworkStreamC "xcd"; ForwarderStreamC "xcd" HLS;
            GetHLSMuxerC "xcd" "local";
            SubscribeToHLSStreamC "xcd" "local" buf]
           ++ repeat (LatestPlaylistC "xcd" buf) 3)).
Proof.
  split; vm_compute; reflexivity.
Qed.

Lemma HandleHLSPlay_invalid_address_witness :
  snd (SplitComponents (parseStreamID "/stream/abc")) = ""
  /\ run (HandleHLSPlay (Env := ready_3s) "/stream/abc") w0
     = (Returns (None, Some (errors_New "Stream Not Found")), w0).
Proof.
  split.
  - reflexivity.
  - apply (HandleHLSPlay_invalid_address (Env := ready_3s) "/stream/abc" w0).
    right. reflexivity.
Defined.

Lemma getStream_foreign_raw_address_witness :
  run (getStream (Env := never) (mkURL "/stream/otherxab" [])) w0
  = (Returns (None, None, Some ErrStreamPublish), w0).
Proof.
  apply (getStream_foreign_raw_address (Env := never) (mkURL "/stream/otherxab" []) w0).
  - vm_compute. discriminate.
  - vm_compute. discriminate.
Defined.

(** C7 fails as stated: two publish requests for the raw id [nodexab],
    owned by this node, that ask for the packaged id [otherxcd] of another
    node. The first adds the raw stream, the second finds it; both return
    [ErrStreamPublish] and neither adds a packaged stream. *)
Local Abbreviation url_foreign :=
  (mkURL "/stream/nodexab" [("hlsStrmID", "otherxcd")]).

Lemma no_packaged_stream_for_foreign_id :
  fst (SplitComponents (parseStreamID (Path url_foreign))) = SelfAddress
  /\ run (getStream (Env := never) url_foreign) w0
     = (Returns (None, None, Some ErrStreamPublish),
        mkWorld (mkRegistry {[ "nodexab" := mkStream "nodexab" RTMP ]} ∅ ∅) ∅ 0 0
          [GetNetworkStreamC "nodexab"; AddNewNetworkStreamC "nodexab" RTMP])
  /\ run (getStream (Env := never) url_foreign)
         (snd (run (getStream (Env := never) url_foreign) w0))
     = (Returns (None, None, Some ErrStreamPublish),
        mkWorld (mkRegistry {[ "nodexab" := mkStream "nodexab" RTMP ]} ∅ ∅) ∅ 0 0
          [GetNetworkStreamC "nodexab"; AddNewNetworkStreamC "nodexab" RTMP;
           GetNetworkStreamC "nodexab"]).
Proof.
  split; [reflexivity |]. split; vm_compute; reflexivity.
Qed.

Local Abbreviation url_plain := (mkURL "/stream/nodexab" []).
Local Abbreviation w_published :=
  (snd (run (getStream (Env := never) url_plain) w0)).

Lemma getStream_twice_witness :
  fst (run (getStream (Env := never) url_plain) w0)
  = Returns (Some (mkStream "nodexab" RTMP), Some (mkStream "nodex01" HLS), None)
  /\ GetNetworkStream (streamer w_published) "nodexab"
     = Some (mkStream "nodexab" RTMP)
  /\ List.filter is_AddNewNetworkStream (new_calls w0 w_published)
     = [AddNewNetworkStreamC "nodexab" RTMP; AddNewNetworkStreamC "nodex01" HLS]
  /\ List.filter is_AddNewNetworkStream
       (new_calls w_published
          (snd (run (getStream (Env := never) url_plain) w_published)))
     = [AddNewNetworkStreamC "nodex02" HLS]
  /\ forall r2 h2 : Stream,
       fst (run (getStream (Env := never) url_plain) w_published)
       = Returns (Some r2, Some h2, None) ->
       r2 = mkStream "nodexab" RTMP /\ GetStreamID h2 = "nodex02" /\ Format h2 = HLS
       /\ mkStream "nodex01" HLS <> h2.
Proof.
  pose proof (getStream_twice (Env := never) (Laws := registry_laws "node")
                (Table := registry_table "node") url_plain url_plain w0) as H.
  cbv zeta in H.
  destruct H as (Hsecond & Hfirst & _);
    [reflexivity | vm_compute; discriminate | reflexivity |].
  assert (Hret : fst (run (getStream (Env := never) url_plain) w0)
                 = Returns (Some (mkStream "nodexab" RTMP),
                            Some (mkStream "nodex01" HLS), None))
    by (vm_compute; reflexivity).
  destruct (Hfirst _ _ Hret) as (Hraw & _ & _ & _ & Hcalls & Hboth).
  destruct (Hsecond (mkStream "nodexab" RTMP) Hraw) as (Hcalls2 & Hok2).
  split; [exact Hret |]. split; [exact Hraw |]. split; [exact Hcalls |].
  split; [exact Hcalls2 |].
  intros r2 h2 Hret2.
  destruct (Hok2 r2 h2 Hret2) as (Hr2 & Hid & Hfmt).
  destruct (Hboth r2 h2 Hret2) as (_ & Hdiff).
  split; [exact Hr2 |]. split; [exact Hid |]. split; [exact Hfmt |].
  apply Hdiff. vm_compute. discriminate.
Defined.

(** Nor does the raw address always hold a raw stream after a request: a
    request that asks for its raw address as packaged address has the
    packaged stream registered there, and the next request returns that
    stream, of format HLS, as its raw stream. *)
Local Abbreviation url_same :=
  (mkURL "/stream/nodexab" [("hlsStrmID", "nodexab")]).

Example raw_address_taken_by_packaged_stream :
  fst (run (getStream (Env := never) url_same) w0)
  = Returns (Some (mkStream "nodexab" RTMP), Some (mkStream "nodexab" HLS), None)
  /\ GetNetworkStream
       (streamer (snd (run (getStream (Env := never) url_same) w0))) "nodexab"
     = Some (mkStream "nodexab" HLS)
  /\ fst (run (getStream (Env := never) url_same)
              (snd (run (getStream (Env := never) url_same) w0)))
     = Returns (Some (mkStream "nodexab" HLS), Some (mkStream "nodexab" HLS), None).
Proof.
  repeat split; vm_compute; reflexivity.
Qed.

(** Without the second condition of C3 an entry can lose its subscription
    as well: a viewer is served the packaged stream [nodex01] of a session
    published on this node; the session ends and [finishStream]
    unsubscribes every subscriber of the stream. The entry stays. *)
Local Abbreviation ready_now := (env (Some 0) 0 None).

Example finishStream_strands_entry :
  match run_events (Env := ready_now) HLSUnsubscribeWaitLimit
                   [Enter "/stream/nodex01"; Poll 0; Finish "nodexab" "nodex01"]
                   (boot w_published) with
  | Some sys' =>
      hlsSubTimer (world sys') !! "nodex01" = Some 0
      /\ GetHLSMuxer (streamer (world sys')) "nodex01" "local" = None
  | None => False
  end.
Proof.
  vm_compute. split; reflexivity.
Qed.

(** C8 fails as stated: the string form of an address is not a request
    path; the parser finds no [/stream/] in it and yields the empty
    address, which splits into two empty components. *)
Lemma bare_address_does_not_parse :
  parseStreamID (StreamID_String (Make "x" "ab" "cd")) = ""
  /\ Split "x" (parseStreamID (StreamID_String (Make "x" "ab" "cd"))) <> ("ab", "cd").
Proof.
  split; [reflexivity | vm_compute; discriminate].
Qed.

Lemma address_roundtrip_through_path_witness :
  Split "x" (parseStreamID ("/stream/" ++ StreamID_String (Make "x" "ab" "cd"))%string)
  = ("ab", "cd").
Proof.
  apply (address_roundtrip_through_path "x" "ab" "cd").
  - discriminate.
  - discriminate.
  - reflexivity.
  - reflexivity.
Defined.

Local Abbreviation copy_fails := (env None 0 (Some (Some (ErrCollaborator 1)))).

Lemma HandleRTMPPlay_teardown_witness :
  fst (run (HandleRTMPPlay (Env := copy_fails) "/stream/nodexab" 7%nat) w0)
  = Returns (Some (ErrCollaborator 1))
  /\ calls (snd (run (HandleRTMPPlay (Env := copy_fails) "/stream/nodexab" 7%nat) w0))
     = [LogConsumeC "nodexab"; GetNetworkStreamC "nodexab";
        ForwarderStreamC "nodexab" RTMP;
        SubscribeToRTMPStreamC "nodexab" (Hash_Str (random_hash (Environment := copy_fails) 0)) NewQueue;
        CopyFileC 7%nat "nodexab" (Hash_Str (random_hash (Environment := copy_fails) 0));
        UnsubscribeToRTMPStreamC "nodexab" (Hash_Str (random_hash (Environment := copy_fails) 0));
        ForwarderStopStreamC "nodexab" RTMP].
Proof.
  pose proof (HandleRTMPPlay_teardown (Env := copy_fails) "/stream/nodexab" 7%nat w0
                (Some (ErrCollaborator 1))) as H.
  cbv zeta in H. destruct H as (Hr & Hc & _).
  - vm_compute. discriminate.
  - reflexivity.
  - reflexivity.
  - split; [exact Hr | exact Hc].
Defined.

End Examples.

(** * Further properties *)

(** ** More on the parser *)

Section ParserMore.

Lemma all_alnum_span s : all_alnum (span_alnum s) = true.
Proof.
  induction s as [|c s IH]; simpl; [reflexivity |].
  destruct (is_alnum c) eqn:Hc; simpl; [rewrite Hc, IH |]; reflexivity.
Qed.

Lemma FindString_shape s :
  FindString s = "" \/ exists rest, FindString s = ("/stream/" ++ span_alnum rest)%string.
Proof.
  induction s as [|c s IH].
  - left. reflexivity.
  - unfold FindString; fold FindString.
    destruct (strip_prefix "/stream/" (String c s)) as [rest|].
    + right. exists rest. reflexivity.
    + exact IH.
Qed.

(** The id that [parseStreamID] returns holds letters and digits only,
    whatever the request path is. *)
Theorem parseStreamID_alnum (reqPath : string) :
  all_alnum (parseStreamID reqPath) = true.
Proof.
  unfold parseStreamID.
  destruct (FindString_shape reqPath) as [-> | [rest ->]]; [reflexivity |].
  rewrite bool_decide_true by discriminate.
  change ("/stream/" ++ span_alnum rest)%string
    with (String "/" ("stream/" ++ span_alnum rest)).
  rewrite (Replace_hit _ _ _ _ _ (span_alnum rest)) by reflexivity.
  rewrite Replace_alnum by apply all_alnum_span.
  apply all_alnum_span.
Qed.

Lemma span_alnum_app id rest :
  all_alnum id = true -> ends_id rest = true ->
  span_alnum (id ++ rest) = id.
Proof.
  intros Hid Hrest. induction id as [|c id IH]; simpl in *.
  - destruct rest as [|c rest]; simpl in *; [reflexivity |].
    destruct (is_alnum c); [discriminate | reflexivity].
  - apply andb_prop in Hid as [Hc Hid]. rewrite Hc, IH by assumption.
    reflexivity.
Qed.

(** A path that starts with [/stream/], goes on with an alphanumeric id
    and then ends or continues with another kind of character (as in
    [/stream/<id>.m3u8]) parses to that id. *)
Theorem parseStreamID_prefix_path (id rest : string) :
  all_alnum id = true ->
  ends_id rest = true ->
  parseStreamID ("/stream/" ++ id ++ rest)%string = id.
Proof.
  intros Hid Hrest. unfold parseStreamID.
  change (FindString ("/stream/" ++ id ++ rest))
    with ("/stream/" ++ span_alnum (id ++ rest))%string.
  rewrite span_alnum_app by assumption.
  rewrite bool_decide_true by discriminate.
  change ("/stream/" ++ id)%string with (String "/" ("stream/" ++ id)).
  rewrite (Replace_hit _ _ _ _ _ id) by reflexivity.
  apply Replace_alnum; assumption.
Qed.

(** A path in which [/stream/] does not occur has no stream id. *)
Theorem parseStreamID_no_stream_segment (reqPath : string) :
  (forall pre t : string,
     reqPath = (pre ++ t)%string -> strip_prefix "/stream/" t = None) ->
  parseStreamID reqPath = "".
Proof.
  intros H. unfold parseStreamID.
  assert (Hf : FindString reqPath = "").
  { induction reqPath as [|c s IH]; [reflexivity |].
    unfold FindString; fold FindString.
    rewrite (H "" (String c s)) by reflexivity.
    apply IH. intros pre t ->. apply (H (String c pre) t). reflexivity. }
  rewrite Hf. reflexivity.
Qed.

End ParserMore.

(** ** More on the handlers, over any streamer *)

Section HandlersMore.

Context {NodeID St : Type}.
Context `{Codec : !StreamIDCodec NodeID, Strm : !Streamer NodeID St, Env : !Environment}.

Implicit Types w : World St.

(** *** HLS playback *)

(** How the readiness loop ends, with the times: a buffer comes back
    within the wait, the activity entry holding the time of return; or the
    wait is over and the map is as before. *)
Lemma pollPlaylist_result strmID b w :
  let r := pollPlaylist strmID b (clock w) w in
  streamer (snd r) = streamer w
  /\ ((fst r = Next (Some b, None)
       /\ hlsSubTimer (snd r) = <[strmID := clock (snd r)]> (hlsSubTimer w)
       /\ clock w <= clock (snd r) <= clock w + HLSWaitTime)
      \/ (fst r = Next (None, Some ErrNotFound)
          /\ hlsSubTimer (snd r) = hlsSubTimer w
          /\ clock w + HLSWaitTime < clock (snd r))).
Proof.
  intros r.
  destruct (pollPlaylist_turns strmID b (clock w) 6 w) as (n & _ & Hturns & Hres);
    [unfold HLSWaitTime, Second; lia .. |].
  cbv zeta in Hres.
  destruct (failed_polls_frame strmID b n w) as (_ & Ht & Hs & Hk).
  destruct (failed_polls_frame strmID b (S n) w) as (_ & Ht' & Hs' & _).
  destruct (LatestPlaylist_ok strmID b (clock (failed_polls strmID b n w))).
  - subst r. rewrite Hres. cbn [fst snd]. simpl. rewrite Ht, Hs.
    split; [reflexivity |]. left. split; [reflexivity |]. split; [reflexivity |].
    split; [unfold Second in Hk; lia |].
    destruct n as [|n]; [simpl; unfold HLSWaitTime, Second; lia |].
    destruct (Hturns n) as [_ Hn]; [lia |]. lia.
  - destruct Hres as [Hout Hres]. subst r. rewrite Hres. cbn [fst snd].
    split; [exact Hs' |]. right. split; [reflexivity |]. split; [exact Ht' | lia].
Qed.

(** How lines 92-121 end. *)
Lemma subscribeAndPoll_result strmID w :
  let r := subscribeAndPoll strmID w in
  let buf := NewHLSBuffer HLSBufferWindow HLSBufferCap in
  let sub := SubscribeToHLSStream (streamer w) strmID "local" buf in
  (exists b,
      fst r = Next (Some b, None)
      /\ hlsSubTimer (snd r) = <[strmID := clock (snd r)]> (hlsSubTimer w)
      /\ clock w <= clock (snd r) <= clock w + HLSWaitTime
      /\ match GetHLSMuxer (streamer w) strmID "local" with
         | Some b' => b = b'
         | None => b = buf /\ snd sub = None
         end)
  \/ (fst r = Next (None, Some ErrNotFound)
      /\ hlsSubTimer (snd r) = hlsSubTimer w
      /\ clock w + HLSWaitTime < clock (snd r)
      /\ (GetHLSMuxer (streamer w) strmID "local" = None -> snd sub = None))
  \/ (exists e,
        fst r = Stop (Returns (None, Some e))
        /\ GetHLSMuxer (streamer w) strmID "local" = None
        /\ snd sub = Some e
        /\ snd r = with_streamer (fst sub)
                     (logc (SubscribeToHLSStreamC strmID "local" buf)
                           (logc (GetHLSMuxerC strmID "local") w))).
Proof.
  intros r buf sub. subst r sub. unfold subscribeAndPoll. m_unfold. simpl.
  destruct (GetHLSMuxer (streamer w) strmID "local") as [b|] eqn:Hmux.
  - set (w1 := logc (GetHLSMuxerC strmID "local") w).
    change (clock w) with (clock w1).
    destruct (pollPlaylist_result strmID b w1) as (_ & [(Hf & Ht & Hc) | (Hf & Ht & Hc)]);
      cbv zeta in *.
    + left. exists b. repeat split; first [exact Hf | exact Ht | apply Hc].
    + right. left. repeat split; first [exact Hf | exact Ht | exact Hc | discriminate].
  - simpl. fold buf.
    destruct (SubscribeToHLSStream (streamer w) strmID "local" buf) as [s' [e|]] eqn:Hsub;
      simpl.
    + right. right. exists e. auto.
    + set (w1 := with_streamer s' (logc (SubscribeToHLSStreamC strmID "local" buf)
                                        (logc (GetHLSMuxerC strmID "local") w))).
      change (clock w) with (clock w1).
      destruct (pollPlaylist_result strmID buf w1)
        as (_ & [(Hf & Ht & Hc) | (Hf & Ht & Hc)]); cbv zeta in *.
      * left. exists buf. repeat split; first [exact Hf | exact Ht | apply Hc].
      * right. left. repeat split; first [exact Hf | exact Ht | exact Hc].
Qed.

(** What the handler does before lines 92-121, for an address that passes
    the validation: it returns [ErrNotFound] for an unknown stream that
    this node owns and goes on in every other case. *)
Lemma HandleHLSPlay_valid (reqPath : string) w :
  let strmID := parseStreamID reqPath in
  let w1 := logc (GetNetworkStreamC strmID) w in
  strmID <> "" ->
  snd (SplitComponents strmID) <> "" ->
  HandleHLSPlay reqPath w
  = match GetNetworkStream (streamer w) strmID with
    | Some _ => subscribeAndPoll strmID w1
    | None =>
        if bool_decide (SelfAddress <> fst (SplitComponents strmID))
        then subscribeAndPoll strmID (logc (ForwarderStreamC strmID HLS) w1)
        else (Stop (Returns (None, Some ErrNotFound)), w1)
    end.
Proof.
  intros strmID w1 Hne Hloc. subst w1. unfold HandleHLSPlay. fold strmID.
  destruct (SplitComponents strmID) as [nodeID streamID]. simpl in *.
  rewrite (bool_decide_false _ Hne), (bool_decide_false _ Hloc). simpl.
  unfold bind at 1, streamer_GetNetworkStream at 1.
  destruct (GetNetworkStream (streamer w) strmID); [reflexivity |].
  unfold bind at 1. destruct (bool_decide (SelfAddress <> nodeID)); reflexivity.
Qed.

Lemma HandleHLSPlay_invalid (reqPath : string) w :
  bool_decide (parseStreamID reqPath = "")
  || bool_decide (snd (SplitComponents (parseStreamID reqPath)) = "") = true ->
  HandleHLSPlay reqPath w = (Next (None, Some (errors_New "Stream Not Found")), w).
Proof.
  intros H. unfold HandleHLSPlay.
  destruct (SplitComponents (parseStreamID reqPath)) as [nodeID streamID].
  simpl in H. rewrite H. reflexivity.
Qed.

Lemma HandleHLSPlay_cases (reqPath : string) w :
  let strmID := parseStreamID reqPath in
  HandleHLSPlay reqPath w = (Next (None, Some (errors_New "Stream Not Found")), w)
  \/ HandleHLSPlay reqPath w
     = (Stop (Returns (None, Some ErrNotFound)), logc (GetNetworkStreamC strmID) w)
  \/ exists w1,
       HandleHLSPlay reqPath w = subscribeAndPoll strmID w1
       /\ streamer w1 = streamer w /\ hlsSubTimer w1 = hlsSubTimer w
       /\ clock w1 = clock w.
Proof.
  intros strmID.
  destruct (bool_decide (strmID = "")
            || bool_decide (snd (SplitComponents strmID) = "")) eqn:Hv.
  - left. apply HandleHLSPlay_invalid. exact Hv.
  - apply orb_false_elim in Hv as [Hne Hloc].
    apply bool_decide_eq_false in Hne, Hloc.
    right. rewrite (HandleHLSPlay_valid reqPath w Hne Hloc). fold strmID.
    destruct (GetNetworkStream (streamer w) strmID).
    + right. eexists. split; [reflexivity | auto].
    + destruct (bool_decide _).
      * right. eexists. split; [reflexivity | auto].
      * left. reflexivity.
Qed.

(** Whenever a playback request returns, it returns a buffer and no
    error, or an error and no buffer. (The type assertion of lines 110 and
    113 panics on a muxer that is no HLS buffer; the streamer here hands
    out HLS buffers only, so this says nothing of a request that ends
    so.) *)
Theorem HandleHLSPlay_returns_buffer_or_error (reqPath : string) w
    (res : HLSPlayResult) :
  fst (run (HandleHLSPlay reqPath) w) = Returns res ->
  (exists b : HLSBuffer, res = (Some b, None))
  \/ (exists e : error, res = (None, Some e)).
Proof.
  unfold run.
  destruct (HandleHLSPlay_cases reqPath w) as [-> | [-> | (w1 & -> & _)]];
    [intros [= <-]; right; eexists; reflexivity .. |].
  destruct (subscribeAndPoll_result (parseStreamID reqPath) w1)
    as [(b & Hf & _) | [(Hf & _) | (e & Hf & _)]]; cbv zeta in *;
    destruct (subscribeAndPoll _ w1) as [f w']; simpl in *; subst f;
    intros [= <-]; [left | right | right]; eexists; reflexivity.
Qed.

(** The activity map after a playback request: when a buffer is returned,
    the map as it was with the time of return stored under the parsed
    address; in every other case, the map as it was. *)
Theorem HandleHLSPlay_activity_map (reqPath : string) w :
  let w' := snd (run (HandleHLSPlay reqPath) w) in
  hlsSubTimer w'
  = match fst (run (HandleHLSPlay reqPath) w) with
    | Returns (Some _, _) => <[parseStreamID reqPath := clock w']> (hlsSubTimer w)
    | _ => hlsSubTimer w
    end.
Proof.
  unfold run.
  destruct (HandleHLSPlay_cases reqPath w) as [-> | [-> | (w1 & -> & _ & Ht & _)]];
    [reflexivity .. |].
  destruct (subscribeAndPoll_result (parseStreamID reqPath) w1)
    as [(b & Hf & Hm & _) | [(Hf & Hm & _) | (e & Hf & _ & _ & Hw)]];
    cbv zeta in *;
    destruct (subscribeAndPoll _ w1) as [f w']; simpl in *; subst f; simpl.
  - rewrite Hm, Ht. reflexivity.
  - congruence.
  - subst w'. simpl. exact Ht.
Qed.

(** A stream the streamer knows is never forwarded, whoever owns it: the
    handler goes straight to the buffer. *)
Theorem HandleHLSPlay_known_stream (reqPath : string) w (s : Stream) :
  let strmID := parseStreamID reqPath in
  strmID <> "" ->
  snd (SplitComponents strmID) <> "" ->
  GetNetworkStream (streamer w) strmID = Some s ->
  run (HandleHLSPlay reqPath) w
  = run (subscribeAndPoll strmID) (logc (GetNetworkStreamC strmID) w)
  /\ List.filter is_ForwarderStream
       (new_calls w (snd (run (HandleHLSPlay reqPath) w))) = [].
Proof.
  intros strmID Hne Hloc Hget.
  assert (Heq : HandleHLSPlay reqPath w
                = subscribeAndPoll strmID (logc (GetNetworkStreamC strmID) w)).
  { rewrite (HandleHLSPlay_valid reqPath w Hne Hloc). fold strmID.
    rewrite Hget. reflexivity. }
  split; [unfold run; rewrite Heq; reflexivity |].
  rewrite run_snd, Heq.
  destruct (subscribeAndPoll_spec strmID (logc (GetNetworkStreamC strmID) w))
    as ((l & Hl & Hfl) & _).
  rewrite (new_calls_app w _ ([GetNetworkStreamC strmID] ++ l))
    by (rewrite Hl; simpl; rewrite <- app_assoc; reflexivity).
  rewrite List.filter_app, Hfl. reflexivity.
Qed.



End HandlersMore.

(** ** More on the unsubscribe worker *)

Section WorkerMore.

Context {NodeID St : Type}.
Context `{Codec : !StreamIDCodec NodeID, Strm : !Streamer NodeID St, Env : !Environment}.

Implicit Types w : World St.

Lemma visit_entry_fresh limit sid w :
  stale limit w sid = false -> visit_entry limit sid w = (Next tt, w).
Proof.
  unfold stale, visit_entry. destruct (hlsSubTimer w !! sid) as [t|]; [| reflexivity].
  intros H. m_unfold. rewrite H. reflexivity.
Qed.

Lemma sweep_fresh limit order w :
  (forall sid, sid ∈ order -> stale limit w sid = false) ->
  sweep limit order w = (Next tt, w).
Proof.
  intros H. induction order as [|sid order IH]; [reflexivity |].
  rewrite sweep_cons, visit_entry_fresh by (apply H, elem_of_cons; auto).
  apply IH. intros x Hx. apply H, elem_of_cons. auto.
Qed.

(** A sweep over keys none of which is stale changes nothing and calls
    nobody; so does a sweep of the empty map. *)
Theorem sweep_nothing_stale (limit : Z) (order : list string) w :
  (forall sid, sid ∈ order -> stale limit w sid = false) ->
  run (sweep limit order) w = (Returns tt, w).
Proof.
  intros H. unfold run. rewrite (sweep_fresh limit order w H). reflexivity.
Qed.

(** What a sweep does to one key, in whatever order and however often the
    key is met. *)
Lemma sweep_lookup limit order : forall w,
  let w' := snd (sweep limit order w) in
  clock w' = clock w
  /\ forall sid,
       hlsSubTimer w' !! sid
       = (if bool_decide (sid ∈ order) && stale limit w sid
          then None else hlsSubTimer w !! sid).
Proof.
  induction order as [|x order IH]; intros w.
  - split; [reflexivity | intros sid; reflexivity].
  - rewrite sweep_cons.
    destruct (visit_entry_spec limit x w) as (_ & _ & Hclock & Htimer).
    pose proof (fun y => stale_after_visit limit x y w) as Hst.
    set (w1 := snd (visit_entry limit x w)) in *.
    destruct (IH w1) as (Hclock' & Htimer'). cbv zeta in *.
    split; [congruence |].
    intros sid. rewrite Htimer'.
    destruct (decide (sid = x)) as [-> | Hne].
    + rewrite (bool_decide_true (x ∈ x :: order)) by (apply elem_of_cons; auto).
      simpl. unfold stale at 1. rewrite Hclock, Htimer.
      destruct (stale limit w x) eqn:Es.
      * rewrite lookup_delete_eq. rewrite andb_false_r. reflexivity.
      * fold (stale limit w x). rewrite Es, andb_false_r. reflexivity.
    + rewrite Hst by congruence.
      assert (Hmem : bool_decide (sid ∈ x :: order) = bool_decide (sid ∈ order)).
      { apply bool_decide_ext. rewrite elem_of_cons. tauto. }
      rewrite Hmem, Htimer.
      destruct (bool_decide (sid ∈ order) && stale limit w sid); [reflexivity |].
      destruct (stale limit w x); [apply lookup_delete_ne; congruence | reflexivity].
Qed.

(** After a sweep that meets every key of the map, no entry older than the
    limit is left, and a second sweep at the same time, in any order,
    changes nothing. *)
Theorem sweep_leaves_no_stale_entry (limit : Z) (order order' : list string) w :
  (forall sid, is_Some (hlsSubTimer w !! sid) -> sid ∈ order) ->
  let w' := snd (run (sweep limit order) w) in
  (forall sid, stale limit w' sid = false)
  /\ run (sweep limit order') w' = (Returns tt, w').
Proof.
  intros Hall w'.
  assert (Hfresh : forall sid, stale limit w' sid = false).
  { intros sid. subst w'. rewrite run_snd.
    destruct (sweep_lookup limit order w) as (Hclock & Htimer). cbv zeta in *.
    unfold stale at 1. rewrite Hclock, Htimer.
    destruct (bool_decide (sid ∈ order)) eqn:Hin; simpl.
    - destruct (stale limit w sid) eqn:Es; [reflexivity | exact Es].
    - apply bool_decide_eq_false in Hin.
      destruct (hlsSubTimer w !! sid) as [t|] eqn:Hl; [| reflexivity].
      exfalso. apply Hin, Hall. eauto. }
  split; [exact Hfresh |].
  unfold run. rewrite sweep_fresh by (intros sid _; apply Hfresh). reflexivity.
Qed.

Lemma worker_round_snd limit order w :
  snd (worker_round limit order w) = snd (sweep limit order (sleep (Second * 5) w)).
Proof. reflexivity. Qed.

Lemma sweep_fst limit order w : fst (sweep limit order w) = Next tt.
Proof.
  induction order as [|x order IH] in w |- *; [reflexivity |].
  rewrite sweep_cons. apply IH.
Qed.

Lemma worker_round_fst limit order w :
  fst (worker_round limit order w) = Next tt.
Proof. unfold worker_round, bind, time_Sleep. apply sweep_fst. Qed.

Lemma worker_cons limit order rest w :
  startHlsUnsubscribeWorker limit (order :: rest) w
  = startHlsUnsubscribeWorker limit rest (snd (worker_round limit order w)).
Proof.
  simpl. unfold bind at 1. pose proof (worker_round_fst limit order w) as Hf.
  destruct (worker_round limit order w) as [f w1]. simpl in *. subst f.
  reflexivity.
Qed.

Lemma worker_round_lookup limit order w :
  let w' := snd (worker_round limit order w) in
  clock w + Second * 5 <= clock w'
  /\ forall sid,
       hlsSubTimer w' !! sid
       = (if bool_decide (sid ∈ order) && stale limit (sleep (Second * 5) w) sid
          then None else hlsSubTimer w !! sid).
Proof.
  intros w'. subst w'. rewrite worker_round_snd.
  destruct (sweep_lookup limit order (sleep (Second * 5) w)) as (Hclock & Htimer).
  cbv zeta in *. split; [rewrite Hclock; simpl; lia | exact Htimer].
Qed.

Lemma worker_frame limit (orders : list (list string)) w :
  let w' := snd (startHlsUnsubscribeWorker limit orders w) in
  hlsSubTimer w' ⊆ hlsSubTimer w
  /\ clock w + Second * 5 * Z.of_nat (length orders) <= clock w'.
Proof.
  induction orders as [|order rest IH] in w |- *.
  - simpl. split; [reflexivity | lia].
  - rewrite worker_cons.
    destruct (worker_round_lookup limit order w) as (Hclock & Htimer).
    cbv zeta in *.
    destruct (IH (snd (worker_round limit order w))) as (Hsub & Hk).
    split.
    + etransitivity; [exact Hsub |].
      apply map_subseteq_spec. intros sid t. rewrite Htimer.
      destruct (_ && _); [discriminate | auto].
    + simpl length. unfold Second in *. lia.
Qed.

(** The worker only removes: whatever the orders, the map after any number
    of turns is part of the map before, no entry added and none changed;
    and the clock has moved on by five seconds or more for each turn. *)
Theorem worker_only_removes (limit : Z) (orders : list (list string)) w :
  let w' := snd (run (startHlsUnsubscribeWorker limit orders) w) in
  hlsSubTimer w' ⊆ hlsSubTimer w
  /\ clock w + Second * 5 * Z.of_nat (length orders) <= clock w'.
Proof.
  intros w'. subst w'. rewrite run_snd. apply worker_frame.
Qed.

Lemma orders_fit_app limit (o1 o2 : list (list string)) w :
  orders_fit limit (o1 ++ o2) w ->
  orders_fit limit o2 (snd (startHlsUnsubscribeWorker limit o1 w)).
Proof.
  induction o1 as [|order rest IH] in w |- *; simpl app; intros H; [exact H |].
  rewrite worker_cons. apply IH. destruct H as [_ H]. exact H.
Qed.

Lemma worker_app limit (o1 o2 : list (list string)) w :
  startHlsUnsubscribeWorker limit (o1 ++ o2) w
  = startHlsUnsubscribeWorker limit o2 (snd (startHlsUnsubscribeWorker limit o1 w)).
Proof.
  induction o1 as [|order rest IH] in w |- *; [reflexivity |].
  simpl app. rewrite !worker_cons. apply IH.
Qed.

(** An entry that nobody refreshes is gone after five turns of the worker:
    by then twenty-five seconds have passed, more than the limit of twenty. *)
Theorem worker_evicts_unrefreshed_entry (orders : list (list string)) w
    (sid : string) (t : Z) :
  orders_fit HLSUnsubscribeWaitLimit orders w ->
  (5 <= length orders)%nat ->
  hlsSubTimer w !! sid = Some t ->
  t <= clock w ->
  hlsSubTimer (snd (run (startHlsUnsubscribeWorker HLSUnsubscribeWaitLimit orders) w))
    !! sid = None.
Proof.
  intros Hfit Hlen Hsid Ht. rewrite run_snd.
  destruct (exists_last (l := orders)) as (init & last & ->);
    [intros ->; simpl in Hlen; lia |].
  rewrite worker_app. apply orders_fit_app in Hfit.
  rewrite length_app in Hlen. simpl in Hlen.
  pose proof (worker_frame HLSUnsubscribeWaitLimit init w) as (Hsub & Hk).
  cbv zeta in *.
  set (w1 := snd (startHlsUnsubscribeWorker HLSUnsubscribeWaitLimit init w)) in *.
  rewrite worker_cons. simpl.
  destruct (worker_round_lookup HLSUnsubscribeWaitLimit last w1) as (_ & Htimer).
  cbv zeta in *. rewrite Htimer.
  destruct (hlsSubTimer w1 !! sid) as [t'|] eqn:Hl1.
  - assert (t' = t).
    { pose proof (lookup_weaken _ _ _ _ Hl1 Hsub) as Hw. congruence. }
    subst t'.
    assert (Hin : sid ∈ last).
    { destruct Hfit as [Hperm _]. rewrite Hperm.
      apply elem_of_elements, elem_of_dom. eauto. }
    rewrite (bool_decide_true _ Hin). simpl.
    assert (Hst : stale HLSUnsubscribeWaitLimit (sleep (Second * 5) w1) sid = true).
    { unfold stale. simpl. rewrite Hl1. apply Z.gtb_lt.
      pose proof (N2Z.is_nonneg (oversleep (clock w1))) as Ho.
      assert (Hn : 4 <= Z.of_nat (length init)) by lia.
      clearbody w1. unfold HLSUnsubscribeWaitLimit, Second in *. lia. }
    rewrite Hst. reflexivity.
  - destruct (_ && _); reflexivity.
Qed.

End WorkerMore.

(** ** More on RTMP playback *)

Section PlayMore.

Context {NodeID St : Type}.
Context `{Codec : !StreamIDCodec NodeID, Strm : !Streamer NodeID St, Env : !Environment}.

Implicit Types w : World St.

(** A path without stream id is refused before anything is done: no
    consumption is logged and no call is made. *)
Theorem HandleRTMPPlay_no_stream_id (reqPath : string) (dst : MuxCloser) w :
  parseStreamID reqPath = "" ->
  run (HandleRTMPPlay reqPath dst) w
  = (Returns (Some (errors_New "Stream Not Found")), w).
Proof.
  intros H. unfold HandleRTMPPlay. fold (parseStreamID reqPath).
  rewrite H. reflexivity.
Qed.

(** The world when the handler subscribes its queue. *)
Lemma HandleRTMPPlay_steps (reqPath : string) (dst : MuxCloser) w :
  let strmID := parseStreamID reqPath in
  let subID := Hash_Str (random_hash (nrand w)) in
  let sub := SubscribeToRTMPStream (streamer w) strmID subID NewQueue in
  let w1 := logc (GetNetworkStreamC strmID) (logc (LogConsumeC strmID) w) in
  let w2 := match GetNetworkStream (streamer w) strmID with
            | Some _ => w1
            | None => logc (ForwarderStreamC strmID RTMP) w1
            end in
  let w3 := with_streamer (fst sub)
              (logc (SubscribeToRTMPStreamC strmID subID NewQueue) (next_random w2)) in
  let w4 := logc (CopyFileC dst strmID subID) w3 in
  strmID <> "" ->
  run (HandleRTMPPlay reqPath dst) w
  = match snd sub with
    | Some e => (Returns (Some e), w3)
    | None =>
        match CopyFile_result dst strmID subID with
        | None => (Blocks, w4)
        | Some e =>
            (Returns e,
             logc (ForwarderStopStreamC strmID RTMP)
               (with_streamer (UnsubscribeToRTMPStream (fst sub) strmID subID)
                  (logc (UnsubscribeToRTMPStreamC strmID subID) w4)))
        end
    end.
Proof.
  intros strmID subID sub w1 w2 w3 w4 Hne. subst w4 w3 w2 w1 sub subID.
  unfold HandleRTMPPlay. fold (parseStreamID reqPath). fold strmID.
  rewrite (bool_decide_false _ Hne). m_unfold. simpl.
  destruct (GetNetworkStream (streamer w) strmID) as [strm|]; simpl;
    unfold Hash_Str;
    destruct (SubscribeToRTMPStream _ _ _ _) as [s' [e|]]; simpl;
    try reflexivity;
    destruct (CopyFile_result _ _ _) as [e|]; reflexivity.
Qed.

(** What an RTMP playback request returns: the error of the subscription
    when it fails; else the error the copy ends with, [nil] included; and
    nothing at all as long as the copy goes on, cancelled context or not. *)
Theorem HandleRTMPPlay_result (reqPath : string) (dst : MuxCloser) w :
  let strmID := parseStreamID reqPath in
  let subID := Hash_Str (random_hash (nrand w)) in
  strmID <> "" ->
  fst (run (HandleRTMPPlay reqPath dst) w)
  = match snd (SubscribeToRTMPStream (streamer w) strmID subID NewQueue) with
    | Some e => Returns (Some e)
    | None =>
        match CopyFile_result dst strmID subID with
        | None => Blocks
        | Some e => Returns e
        end
    end.
Proof.
  intros strmID subID Hne.
  rewrite (HandleRTMPPlay_steps reqPath dst w Hne). cbv zeta. fold strmID subID.
  destruct (snd _); [reflexivity |]. destruct (CopyFile_result _ _ _); reflexivity.
Qed.

(** When the subscription fails the handler stops there: no copy, no
    unsubscribe, and no [StopStream] either, though the forwarder may have
    been asked for the stream just before. *)
Theorem HandleRTMPPlay_subscription_error (reqPath : string) (dst : MuxCloser) w
    (e : error) :
  let strmID := parseStreamID reqPath in
  let subID := Hash_Str (random_hash (nrand w)) in
  strmID <> "" ->
  snd (SubscribeToRTMPStream (streamer w) strmID subID NewQueue) = Some e ->
  fst (run (HandleRTMPPlay reqPath dst) w) = Returns (Some e)
  /\ new_calls w (snd (run (HandleRTMPPlay reqPath dst) w))
     = [LogConsumeC strmID; GetNetworkStreamC strmID]
       ++ match GetNetworkStream (streamer w) strmID with
          | Some _ => []
          | None => [ForwarderStreamC strmID RTMP]
          end
       ++ [SubscribeToRTMPStreamC strmID subID NewQueue].
Proof.
  intros strmID subID Hne Hsub.
  rewrite (HandleRTMPPlay_steps reqPath dst w Hne). cbv zeta. fold strmID subID.
  rewrite Hsub. split; [reflexivity |]. cbn [snd].
  apply new_calls_app.
  destruct (GetNetworkStream (streamer w) strmID); simpl;
    rewrite <- ?app_assoc; reflexivity.
Qed.

(** The forwarder is asked for the stream exactly when the streamer does
    not know it, however the request ends and whoever owns the stream: the
    RTMP handler, unlike the HLS one, does not look at the owner. *)
Theorem HandleRTMPPlay_forwards_unknown_stream (reqPath : string) (dst : MuxCloser) w :
  let strmID := parseStreamID reqPath in
  strmID <> "" ->
  List.filter is_ForwarderStream
    (new_calls w (snd (run (HandleRTMPPlay reqPath dst) w)))
  = match GetNetworkStream (streamer w) strmID with
    | Some _ => []
    | None => [ForwarderStreamC strmID RTMP]
    end.
Proof.
  intros strmID Hne.
  rewrite (HandleRTMPPlay_steps reqPath dst w Hne). cbv zeta. fold strmID.
  set (subID := Hash_Str (random_hash (nrand w))).
  set (pre := [LogConsumeC strmID; GetNetworkStreamC strmID]
              ++ match GetNetworkStream (streamer w) strmID with
                 | Some _ => []
                 | None => [ForwarderStreamC strmID RTMP]
                 end).
  assert (Hpre : List.filter is_ForwarderStream pre
                 = match GetNetworkStream (streamer w) strmID with
                   | Some _ => []
                   | None => [ForwarderStreamC strmID RTMP]
                   end).
  { subst pre. destruct (GetNetworkStream (streamer w) strmID); reflexivity. }
  destruct (snd (SubscribeToRTMPStream (streamer w) strmID subID NewQueue)) as [e|];
    [| destruct (CopyFile_result dst strmID subID) as [e|]]; cbn [snd].
  - rewrite (new_calls_app w _ (pre ++ [SubscribeToRTMPStreamC strmID subID NewQueue])).
    + rewrite List.filter_app, Hpre. simpl. apply app_nil_r.
    + subst pre. destruct (GetNetworkStream (streamer w) strmID); simpl;
        rewrite <- ?app_assoc; reflexivity.
  - rewrite (new_calls_app w _
               (pre ++ [SubscribeToRTMPStreamC strmID subID NewQueue;
                        CopyFileC dst strmID subID;
                        UnsubscribeToRTMPStreamC strmID subID;
                        ForwarderStopStreamC strmID RTMP])).
    + rewrite List.filter_app, Hpre. simpl. apply app_nil_r.
    + subst pre. destruct (GetNetworkStream (streamer w) strmID); simpl;
        rewrite <- ?app_assoc; reflexivity.
  - rewrite (new_calls_app w _
               (pre ++ [SubscribeToRTMPStreamC strmID subID NewQueue;
                        CopyFileC dst strmID subID])).
    + rewrite List.filter_app, Hpre. simpl. apply app_nil_r.
    + subst pre. destruct (GetNetworkStream (streamer w) strmID); simpl;
        rewrite <- ?app_assoc; reflexivity.
Qed.

End PlayMore.

(** ** More on publishing *)

Section PublishMore.

Context {NodeID St : Type}.
Context `{Codec : !StreamIDCodec NodeID, Strm : !Streamer NodeID St, Env : !Environment}.

Implicit Types w : World St.

Lemma publishPackaged_footprint (url : URL) (rs : option Stream) w :
  let r := publishPackaged url rs w in
  (fst r = Next (None, None, Some ErrStreamPublish)
   \/ fst r = Stop Panics
   \/ exists r' h', rs = Some r' /\ fst r = Next (Some r', Some h', None))
  /\ hlsSubTimer (snd r) = hlsSubTimer w
  /\ clock (snd r) = clock w
  /\ exists l,
       calls (snd r) = calls w ++ l
       /\ forallb is_publish_call l = true
       /\ List.filter is_LogBroadcast l
          = match fst r with
            | Next (Some r', Some h', None) =>
                [LogBroadcastC (GetStreamID r'); LogBroadcastC (GetStreamID h')]
            | _ => []
            end.
Proof.
  intros r. subst r. unfold publishPackaged. rewrite mint_or_given.
  set (p := if bool_decide (Query_Get (RawQuery url) "hlsStrmID" = "")
            then MakeStreamID SelfAddress (hex (random_hash (nrand w)))
            else Query_Get (RawQuery url) "hlsStrmID").
  set (w0 := if bool_decide (Query_Get (RawQuery url) "hlsStrmID" = "")
             then next_random w else w).
  assert (Hc : calls w0 = calls w) by (subst w0; destruct (bool_decide _); reflexivity).
  assert (Ht : hlsSubTimer w0 = hlsSubTimer w)
    by (subst w0; destruct (bool_decide _); reflexivity).
  assert (Hk : clock w0 = clock w) by (subst w0; destruct (bool_decide _); reflexivity).
  clearbody w0 p.
  destruct (bool_decide (fst (SplitComponents p) <> SelfAddress)).
  - m_unfold. simpl. repeat split; auto. exists []. rewrite app_nil_r. auto.
  - m_unfold.
    destruct (AddNewNetworkStream (streamer w0) p HLS) as [s2 [hs [e|]]]; simpl.
    + repeat split; auto. exists [AddNewNetworkStreamC p HLS]. rewrite Hc. auto.
    + destruct rs as [rs|]; simpl.
      * destruct hs as [hs|]; simpl.
        -- split; [right; right; eauto |]. repeat split; auto.
           exists [AddNewNetworkStreamC p HLS; LogBroadcastC (GetStreamID rs);
                   LogBroadcastC (GetStreamID hs)].
           rewrite <- !app_assoc, Hc. auto.
        -- repeat split; auto. exists [AddNewNetworkStreamC p HLS]. rewrite Hc. auto.
      * repeat split; auto. exists [AddNewNetworkStreamC p HLS]. rewrite Hc. auto.
Qed.

(** The raw half of a publish request, for any path. *)
Lemma getStream_steps (url : URL) w :
  let minted := bool_decide (parseStreamID (Path url) = "") in
  let a := if minted then MakeStreamID SelfAddress (hex (random_hash (nrand w)))
           else parseStreamID (Path url) in
  let w0 := if minted then next_random w else w in
  let add := AddNewNetworkStream (streamer w) a RTMP in
  let w1 := logc (GetNetworkStreamC a) w0 in
  let w2 := with_streamer (fst add) (logc (AddNewNetworkStreamC a RTMP) w1) in
  getStream url w
  = if bool_decide (fst (SplitComponents a) <> SelfAddress)
    then (Next (None, None, Some ErrStreamPublish), w0)
    else match GetNetworkStream (streamer w) a with
         | Some s => publishPackaged url (Some s) w1
         | None =>
             match snd (snd add) with
             | Some _ => (Stop (Returns (None, None, Some ErrStreamPublish)), w2)
             | None => publishPackaged url (fst (snd add)) w2
             end
         end.
Proof.
  intros minted a w0 add w1 w2. subst w2 w1 add.
  unfold getStream. rewrite mint_or_given. fold minted. fold a. fold w0.
  assert (Hs : streamer w0 = streamer w) by (subst w0; destruct minted; reflexivity).
  clearbody w0 a.
  destruct (bool_decide (fst (SplitComponents a) <> SelfAddress)); [reflexivity |].
  unfold bind at 1, streamer_GetNetworkStream at 1. rewrite Hs.
  destruct (GetNetworkStream (streamer w) a) as [s|]; [reflexivity |].
  unfold bind at 1. unfold bind at 1, streamer_AddNewNetworkStream at 1.
  cbn [streamer logc]. rewrite Hs.
  destruct (AddNewNetworkStream (streamer w) a RTMP) as [s1 [rs [e|]]]; reflexivity.
Qed.

(** A publish request returns two streams and no error, or no stream and
    [ErrStreamPublish]: never one stream alone, and never the error the
    streamer gave. (It panics when the streamer gives neither stream nor
    error.) *)
Theorem getStream_returns_both_or_error (url : URL) w (res : PublishResult) :
  fst (run (getStream url) w) = Returns res ->
  (exists r h, res = (Some r, Some h, None))
  \/ res = (None, None, Some ErrStreamPublish).
Proof.
  unfold run. rewrite getStream_steps. cbv zeta.
  set (a := if bool_decide (parseStreamID (Path url) = "") then _ else _).
  set (w0 := if bool_decide (parseStreamID (Path url) = "") then _ else _).
  clearbody a w0.
  assert (Hpk : forall rs w',
             fst (let (f, w'') := publishPackaged url rs w' in
                  match f with Next r => (Returns r, w'') | Stop o => (o, w'') end)
             = Returns res ->
             (exists r h, res = (Some r, Some h, None))
             \/ res = (None, None, Some ErrStreamPublish)).
  { intros rs w' H.
    destruct (publishPackaged_footprint url rs w') as ([Hf | [Hf | (r & h & _ & Hf)]] & _);
      cbv zeta in *;
      destruct (publishPackaged url rs w') as [f w'']; simpl in *; subst f;
      simpl in H; [injection H as <-; auto | discriminate | injection H as <-; eauto]. }
  destruct (bool_decide (fst (SplitComponents a) <> SelfAddress)).
  - simpl. intros [= <-]. auto.
  - destruct (GetNetworkStream (streamer w) a); [apply Hpk |].
    destruct (snd (snd (AddNewNetworkStream (streamer w) a RTMP))); [| apply Hpk].
    simpl. intros [= <-]. auto.
Qed.

(** A publish request only looks streams up, adds streams and logs
    broadcasts: it deletes nothing, so a raw stream added before a failure
    of the packaged half stays. It logs the two broadcasts when it returns
    the two streams, and none otherwise. The activity map and the clock are
    as before. *)
Theorem getStream_footprint (url : URL) w :
  let o := fst (run (getStream url) w) in
  let w' := snd (run (getStream url) w) in
  hlsSubTimer w' = hlsSubTimer w
  /\ clock w' = clock w
  /\ forallb is_publish_call (new_calls w w') = true
  /\ List.filter is_LogBroadcast (new_calls w w')
     = match o with
       | Returns (Some r, Some h, None) =>
           [LogBroadcastC (GetStreamID r); LogBroadcastC (GetStreamID h)]
       | _ => []
       end.
Proof.
  intros o w'. subst o w'. rewrite run_snd. unfold run.
  rewrite getStream_steps. cbv zeta.
  set (a := if bool_decide (parseStreamID (Path url) = "") then _ else _).
  set (w0 := if bool_decide (parseStreamID (Path url) = "") then _ else _).
  assert (Hc : calls w0 = calls w) by (subst w0; destruct (bool_decide _); reflexivity).
  assert (Ht : hlsSubTimer w0 = hlsSubTimer w)
    by (subst w0; destruct (bool_decide _); reflexivity).
  assert (Hk : clock w0 = clock w) by (subst w0; destruct (bool_decide _); reflexivity).
  clearbody a w0.
  assert (Hpk : forall rs w1 pre,
             calls w1 = calls w ++ pre -> forallb is_publish_call pre = true ->
             List.filter is_LogBroadcast pre = [] ->
             hlsSubTimer w1 = hlsSubTimer w -> clock w1 = clock w ->
             let r := publishPackaged url rs w1 in
             hlsSubTimer (snd r) = hlsSubTimer w
             /\ clock (snd r) = clock w
             /\ forallb is_publish_call (new_calls w (snd r)) = true
             /\ List.filter is_LogBroadcast (new_calls w (snd r))
                = match fst (let (f, w'') := r in
                             match f with
                             | Next x => (Returns x, w'')
                             | Stop o => (o, w'')
                             end) with
                  | Returns (Some r', Some h', None) =>
                      [LogBroadcastC (GetStreamID r'); LogBroadcastC (GetStreamID h')]
                  | _ => []
                  end).
  { intros rs w1 pre Hpre Hall Hlog Ht1 Hk1 r. subst r.
    destruct (publishPackaged_footprint url rs w1)
      as (Hshape & Ht2 & Hk2 & l & Hl & Hpub & Hlb). cbv zeta in *.
    rewrite (new_calls_app w _ (pre ++ l)) by (rewrite Hl, Hpre, app_assoc; reflexivity).
    rewrite forallb_app, Hall, Hpub, List.filter_app, Hlog, Hlb.
    split; [congruence |]. split; [congruence |]. split; [reflexivity |].
    destruct (publishPackaged url rs w1) as [[x|o] w'']; simpl in *.
    - reflexivity.
    - destruct Hshape as [Hs | [Hs | (? & ? & _ & Hs)]]; try discriminate.
      injection Hs as ->. reflexivity. }
  destruct (bool_decide (fst (SplitComponents a) <> SelfAddress)).
  - simpl. rewrite (new_calls_app w _ []) by (rewrite app_nil_r; exact Hc). auto.
  - destruct (GetNetworkStream (streamer w) a).
    + apply (Hpk _ _ [GetNetworkStreamC a]); simpl; auto. rewrite Hc. reflexivity.
    + destruct (snd (snd (AddNewNetworkStream (streamer w) a RTMP))).
      * simpl.
        rewrite (new_calls_app w _ [GetNetworkStreamC a; AddNewNetworkStreamC a RTMP])
          by (simpl; rewrite Hc, <- app_assoc; reflexivity).
        auto.
      * apply (Hpk _ _ [GetNetworkStreamC a; AddNewNetworkStreamC a RTMP]); simpl; auto.
        rewrite Hc, <- app_assoc. reflexivity.
Qed.

(** When the raw stream is unknown and the streamer fails to add it, the
    request returns [ErrStreamPublish] in place of the streamer's error and
    does not go on to the packaged stream. *)
Theorem getStream_raw_stream_error (url : URL) w (e : error) :
  let a := parseStreamID (Path url) in
  let add := AddNewNetworkStream (streamer w) a RTMP in
  a <> "" ->
  fst (SplitComponents a) = SelfAddress ->
  GetNetworkStream (streamer w) a = None ->
  snd (snd add) = Some e ->
  run (getStream url) w
  = (Returns (None, None, Some ErrStreamPublish),
     with_streamer (fst add)
       (logc (AddNewNetworkStreamC a RTMP) (logc (GetNetworkStreamC a) w))).
Proof.
  intros a add Hne Hown Hget Herr. unfold run.
  rewrite (getStream_owned url w Hne Hown). fold a. rewrite Hget.
  fold add. rewrite Herr. reflexivity.
Qed.

End PublishMore.

(** ** Requests in sequence, over a streamer that keeps its registry *)

Section Sequences.

Context {NodeID St : Type}.
Context `{Codec : !StreamIDCodec NodeID, Strm : !Streamer NodeID St, Env : !Environment}.
Context {Laws : StreamerLaws NodeID St}.

Implicit Types w : World St.

(** In an execution in which the worker evicts no address while a
    request waits for it and no publish session ends, a playback request
    for an address that has an entry in the activity map subscribes
    nothing: it leaves the streamer as it is and, when it enters its
    readiness loop, polls the buffer that the streamer has. *)
Theorem HandleHLSPlay_again (limit : Z) (es : list Event) (sys sys' : System St)
    (reqPath : string) :
  let strmID := parseStreamID reqPath in
  let r := enterLoop reqPath (world sys') in
  settled sys ->
  undisturbed_run limit es sys = true ->
  run_events limit es sys = Some sys' ->
  has_entry (world sys') strmID ->
  streamer (snd r) = streamer (world sys')
  /\ List.filter is_SubscribeToHLSStream (new_calls (world sys') (snd r)) = []
  /\ forall p : Waiting,
       fst r = Next p ->
       wStrmID p = strmID
       /\ GetHLSMuxer (streamer (world sys')) strmID "local" = Some (wBuffer p).
Proof.
  intros strmID r Hset Hund Hrun Hent. subst r.
  assert (Hact : hls_active (streamer (world sys')) strmID).
  { apply (settled_run limit es sys sys' Hset Hund Hrun). left. exact Hent. }
  destruct (enterLoop_spec reqPath (world sys')) as (_ & _ & _ & Hin & Hre).
  cbv zeta in *. fold strmID in Hin, Hre.
  destruct (Hre Hact) as (Hs & Hc & Hb).
  split; [exact Hs |]. split; [exact Hc |].
  intros p Hp. split; [apply (Hin p Hp) | apply (Hb p Hp)].
Qed.

(** A stream made by [/createStream] is the raw stream of a later publish
    request to its path: the request finds it, adds no raw stream and
    returns it as the raw stream. *)
Theorem createStream_then_publish (query : list (string * string)) w (s : Stream) :
  let id := MakeStreamID SelfAddress (hex (random_hash (nrand w))) in
  let url := mkURL ("/stream/" ++ id) query in
  let w1 := snd (run createStream w) in
  let p := packagedStreamID url (nrand w1) in
  snd (AddNewNetworkStream (streamer w) id RTMP) = (Some s, None) ->
  id <> "" ->
  all_alnum id = true ->
  fst (SplitComponents id) = SelfAddress ->
  GetNetworkStream (streamer w1) id = Some s
  /\ List.filter is_AddNewNetworkStream (new_calls w1 (snd (run (getStream url) w1)))
     = (if bool_decide (fst (SplitComponents p) = SelfAddress)
        then [AddNewNetworkStreamC p HLS] else [])
  /\ forall r h : Stream,
       fst (run (getStream url) w1) = Returns (Some r, Some h, None) -> r = s.
Proof.
  intros id url w1 p Hadd Hid Halnum Hown.
  assert (Hparse : parseStreamID (Path url) = id).
  { subst url. simpl. apply parseStreamID_stream_path. exact Halnum. }
  assert (Hget : GetNetworkStream (streamer w1) id = Some s).
  { subst w1. rewrite run_snd. unfold createStream. m_unfold. simpl. fold id.
    destruct (AddNewNetworkStream (streamer w) id RTMP) as [s1 res] eqn:E.
    simpl in Hadd. subst res. simpl.
    destruct (add_stream_found _ _ _ _ _ E) as (Hf & _). exact Hf. }
  split; [exact Hget |].
  assert (Hne : parseStreamID (Path url) <> "") by congruence.
  assert (Hown' : fst (SplitComponents (parseStreamID (Path url))) = SelfAddress)
    by congruence.
  assert (Hget' : GetNetworkStream (streamer w1) (parseStreamID (Path url)) = Some s)
    by congruence.
  destruct (getStream_raw_found url w1 s Hne Hown' Hget') as (Hcalls & Hret).
  split; [exact Hcalls |].
  intros r h Hr. destruct (Hret r h Hr) as (-> & _). reflexivity.
Qed.

End Sequences.

(** ** The ports of the media server *)

Section Ports.

Import GoStrconv.

Lemma string_of_uint_digit (d : Decimal.uint) :
  d <> Decimal.Nil ->
  exists c s, NilEmpty.string_of_uint d = String c s
              /\ Ascii.eqb c "-" = false /\ Ascii.eqb c "+" = false.
Proof.
  destruct d; [congruence | ..]; intros _; simpl; eauto.
Qed.

Lemma Atoi_Itoa (n : Z) : 0 <= n <= MaxInt -> Atoi (Itoa n) = (n, None).
Proof.
  intros Hn. unfold Itoa.
  assert (Hd : exists d, Z.to_int n = Decimal.Pos d /\ d <> Decimal.Nil).
  { destruct n as [|p|p]; simpl; [eexists; split; [reflexivity | discriminate] | | lia].
    eexists. split; [reflexivity | apply DecimalPos.Unsigned.to_uint_nonnil]. }
  destruct Hd as (d & Hd & Hnil).
  pose proof (DecimalZ.of_to n) as Hof. rewrite Hd in *. simpl in Hof.
  simpl NilZero.string_of_int.
  assert (Hs : NilZero.string_of_uint d = NilEmpty.string_of_uint d)
    by (destruct d; [congruence | reflexivity ..]).
  pose proof (NilZero.usu d Hnil) as Husu. rewrite Hs in *.
  destruct (string_of_uint_digit d Hnil) as (c & s & Heq & Hm & Hp).
  rewrite Heq in *. unfold Atoi, unsigned_part, negative.
  rewrite Hm, Hp. simpl orb. cbv iota.
  rewrite Husu, Hof.
  unfold MaxInt, MinInt in *.
  destruct (Z.ltb_spec n (- 2 ^ 63)); [lia |].
  destruct (Z.ltb_spec (2 ^ 63 - 1) n); [lia | reflexivity].
Qed.

(** For an RTMP port written in decimal, the HTTP port is that number
    plus 7000, written in decimal. *)
Theorem httpPort_of_number (n : Z) :
  0 <= n ->
  n + 7000 <= MaxInt ->
  httpPort (Itoa n) = Itoa (n + 7000).
Proof.
  intros Hn Hmax. unfold httpPort.
  rewrite Atoi_Itoa by (unfold MaxInt in *; lia).
  unfold int_add, MinInt, MaxInt in *. f_equal.
  rewrite Z.mod_small; lia.
Qed.




End Ports.

(** ** Examples of the further properties *)

Section MoreExamples.

Import SpecModel.

#[local] Existing Instance codec_x.
#[local] Existing Instance node.

Local Abbreviation w0 := (world0 emptyRegistry).
Local Abbreviation never := (env None 0 None).
Local Abbreviation ready_3s := (env (Some 3000000000) 0 None).
Local Abbreviation copy_fails := (env None 0 (Some (Some (ErrCollaborator 1)))).
Local Abbreviation buf := (NewHLSBuffer HLSBufferWindow HLSBufferCap).

Lemma parseStreamID_prefix_path_witness :
  parseStreamID "/stream/abc/seg.ts" = "abc".
Proof.
  apply (parseStreamID_prefix_path "abc" "/seg.ts"); reflexivity.
Defined.

Lemma parseStreamID_no_stream_segment_witness :
  parseStreamID "/a" = "".
Proof.
  apply (parseStreamID_no_stream_segment "/a").
  intros pre t H.
  destruct pre as [|c1 pre]; [change ("/a" = t) in H; subst t; reflexivity |].
  destruct pre as [|c2 pre];
    [change ("/a" = String c1 t) in H; injection H as _ <-; reflexivity |].
  destruct pre as [|c3 pre];
    [change ("/a" = String c1 (String c2 t)) in H; injection H as _ _ <-; reflexivity |].
  discriminate H.
Defined.

Lemma HandleHLSPlay_returns_buffer_or_error_witness :
  (exists b : HLSBuffer, (Some buf, @None error) = (Some b, None))
  \/ (exists e : error, (Some buf, @None error) = (None, Some e)).
Proof.
  apply (HandleHLSPlay_returns_buffer_or_error (Env := ready_3s)
           "/stream/otherxab" w0).
  vm_compute. reflexivity.
Defined.

(** A node that knows the stream [otherxab]. *)
Local Abbreviation w_known :=
  (world0 (mkRegistry {[ "otherxab" := mkStream "otherxab" HLS ]} ∅ ∅)).

Lemma HandleHLSPlay_known_stream_witness :
  run (HandleHLSPlay (Env := never) "/stream/otherxab") w_known
  = run (subscribeAndPoll (Env := never) "otherxab")
        (logc (GetNetworkStreamC "otherxab") w_known)
  /\ List.filter is_ForwarderStream
       (new_calls w_known
          (snd (run (HandleHLSPlay (Env := never) "/stream/otherxab") w_known)))
     = [].
Proof.
  apply (HandleHLSPlay_known_stream (Env := never) "/stream/otherxab" w_known
           (mkStream "otherxab" HLS)).
  - vm_compute. discriminate.
  - vm_compute. discriminate.
  - vm_compute. reflexivity.
Defined.

(** A node that has a buffer for the stream [otherxab]. *)
Local Abbreviation w_subscribed :=
  (world0 (mkRegistry ∅ {[ ("otherxab", "local") := buf ]} ∅)).


(** A request served after two failed polls; a second request for the
    address then finds the buffer. *)
Local Abbreviation served :=
  [Enter "/stream/otherxab"; Poll 0; Tick 2000000000; Wake 0; Poll 0;
   Tick 2000000000; Wake 0; Poll 0].

Lemma HandleHLSPlay_again_witness :
  match run_events (Env := ready_3s) HLSUnsubscribeWaitLimit served (boot w0) with
  | Some sys' =>
      streamer (snd (enterLoop "/stream/otherxab" (world sys')))
      = streamer (world sys')
      /\ List.filter is_SubscribeToHLSStream
           (new_calls (world sys')
              (snd (enterLoop "/stream/otherxab" (world sys')))) = []
      /\ forall p : Waiting,
           fst (enterLoop "/stream/otherxab" (world sys')) = Next p ->
           wStrmID p = "otherxab"
           /\ GetHLSMuxer (streamer (world sys')) "otherxab" "local"
              = Some (wBuffer p)
  | None => False
  end.
Proof.
  destruct (run_events (Env := ready_3s) HLSUnsubscribeWaitLimit served (boot w0))
    as [sys'|] eqn:Hrun.
  - apply (HandleHLSPlay_again (Env := ready_3s) (Laws := registry_laws "node")
             HLSUnsubscribeWaitLimit served (boot w0) sys' "/stream/otherxab").
    + intros sid [[t Ht] | Ha]; [vm_compute in Ht | simpl in Ha]; discriminate.
    + vm_compute. reflexivity.
    + exact Hrun.
    + vm_compute in Hrun. injection Hrun as <-. eexists. vm_compute. reflexivity.
  - vm_compute in Hrun. discriminate.
Defined.

(** An entry of age 25s and one of age 10s. *)
Local Abbreviation w_two :=
  (mkWorld emptyRegistry (<["a" := 0]> (<["b" := 15000000000]> ∅))
           25000000000 0 []).

Lemma sweep_nothing_stale_witness :
  run (sweep HLSUnsubscribeWaitLimit ["b"]) w_two = (Returns tt, w_two).
Proof.
  apply (sweep_nothing_stale HLSUnsubscribeWaitLimit ["b"] w_two).
  intros sid H. apply list_elem_of_singleton in H. subst sid.
  vm_compute. reflexivity.
Defined.

Lemma sweep_leaves_no_stale_entry_witness :
  (forall sid,
     stale HLSUnsubscribeWaitLimit
       (snd (run (sweep HLSUnsubscribeWaitLimit ["a"; "b"]) w_two)) sid = false)
  /\ run (sweep HLSUnsubscribeWaitLimit ["b"; "a"])
         (snd (run (sweep HLSUnsubscribeWaitLimit ["a"; "b"]) w_two))
     = (Returns tt, snd (run (sweep HLSUnsubscribeWaitLimit ["a"; "b"]) w_two)).
Proof.
  apply (sweep_leaves_no_stale_entry HLSUnsubscribeWaitLimit ["a"; "b"] ["b"; "a"] w_two).
  intros sid [t Ht].
  destruct (decide (sid = "a")) as [-> | Ha]; [apply elem_of_cons; auto |].
  destruct (decide (sid = "b")) as [-> | Hb];
    [apply elem_of_cons; right; apply elem_of_cons; auto |].
  simpl in Ht.
  rewrite lookup_insert_ne in Ht by congruence.
  rewrite lookup_insert_ne in Ht by congruence.
  rewrite lookup_empty in Ht. discriminate Ht.
Defined.

(** One entry that no request refreshes, and five turns of the worker. *)
Local Abbreviation w_one :=
  (mkWorld emptyRegistry {[ "a" := 0 ]} 0 0 []).

Lemma worker_evicts_unrefreshed_entry_witness :
  hlsSubTimer
    (snd (run (startHlsUnsubscribeWorker (Env := never) HLSUnsubscribeWaitLimit
                 [["a"]; ["a"]; ["a"]; ["a"]; ["a"]]) w_one))
    !! "a" = None.
Proof.
  apply (worker_evicts_unrefreshed_entry (Env := never)
           [["a"]; ["a"]; ["a"]; ["a"]; ["a"]] w_one "a" 0).
  - simpl. repeat split; vm_compute; apply Permutation_refl.
  - simpl. lia.
  - vm_compute. reflexivity.
  - simpl. lia.
Defined.

Lemma HandleRTMPPlay_no_stream_id_witness :
  run (HandleRTMPPlay (Env := never) "/live" 7%nat) w0
  = (Returns (Some (errors_New "Stream Not Found")), w0).
Proof.
  apply (HandleRTMPPlay_no_stream_id (Env := never) "/live" 7%nat w0).
  reflexivity.
Defined.

Lemma HandleRTMPPlay_result_witness :
  fst (run (HandleRTMPPlay (Env := copy_fails) "/stream/nodexab" 7%nat) w0)
  = Returns (Some (ErrCollaborator 1)).
Proof.
  pose proof (HandleRTMPPlay_result (Env := copy_fails) "/stream/nodexab" 7%nat w0) as H.
  cbv zeta in H. rewrite H; [reflexivity | vm_compute; discriminate].
Defined.

Lemma HandleRTMPPlay_forwards_unknown_stream_witness :
  List.filter is_ForwarderStream
    (new_calls w0
       (snd (run (HandleRTMPPlay (Env := copy_fails) "/stream/nodexab" 7%nat) w0)))
  = [ForwarderStreamC "nodexab" RTMP].
Proof.
  pose proof (HandleRTMPPlay_forwards_unknown_stream (Env := copy_fails)
                "/stream/nodexab" 7%nat w0) as H.
  cbv zeta in H. rewrite H; [reflexivity | vm_compute; discriminate].
Defined.

Lemma getStream_returns_both_or_error_witness :
  (exists r h,
     (Some (mkStream "nodexab" RTMP), Some (mkStream "nodex01" HLS), None)
     = (Some r, Some h, @None error))
  \/ (Some (mkStream "nodexab" RTMP), Some (mkStream "nodex01" HLS), @None error)
     = (None, None, Some ErrStreamPublish).
Proof.
  apply (getStream_returns_both_or_error (Env := never) (mkURL "/stream/nodexab" []) w0).
  vm_compute. reflexivity.
Defined.

Lemma createStream_then_publish_witness :
  GetNetworkStream (streamer (snd (run (createStream (Env := never)) w0))) "nodex01"
  = Some (mkStream "nodex01" RTMP)
  /\ List.filter is_AddNewNetworkStream
       (new_calls (snd (run (createStream (Env := never)) w0))
          (snd (run (getStream (Env := never) (mkURL "/stream/nodex01" []))
                  (snd (run (createStream (Env := never)) w0)))))
     = [AddNewNetworkStreamC "nodex02" HLS]
  /\ forall r h : Stream,
       fst (run (getStream (Env := never) (mkURL "/stream/nodex01" []))
              (snd (run (createStream (Env := never)) w0)))
       = Returns (Some r, Some h, None) ->
       r = mkStream "nodex01" RTMP.
Proof.
  pose proof (createStream_then_publish (Env := never) (Laws := registry_laws "node")
                [] w0 (mkStream "nodex01" RTMP)) as H.
  cbv zeta in H.
  assert (H1 : snd (AddNewNetworkStream (streamer w0)
                      (MakeStreamID SelfAddress
                         (hex (random_hash (Environment := never) (nrand w0)))) RTMP)
               = (Some (mkStream "nodex01" RTMP), None))
    by (vm_compute; reflexivity).
  assert (H2 : MakeStreamID SelfAddress
                 (hex (random_hash (Environment := never) (nrand w0))) <> "")
    by (vm_compute; discriminate).
  assert (H3 : all_alnum (MakeStreamID SelfAddress
                            (hex (random_hash (Environment := never) (nrand w0))))
               = true)
    by (vm_compute; reflexivity).
  assert (H4 : fst (SplitComponents
                      (MakeStreamID SelfAddress
                         (hex (random_hash (Environment := never) (nrand w0)))))
               = SelfAddress)
    by (vm_compute; reflexivity).
  exact (H H1 H2 H3 H4).
Defined.

Lemma httpPort_of_number_witness :
  httpPort "1935" = "8935".
Proof.
  apply (httpPort_of_number 1935); vm_compute; discriminate.
Defined.


End MoreExamples.

Section RefusingExamples.

Import SpecModel TestDouble.

#[local] Existing Instance codec_x.
#[local] Existing Instance refusing.

Local Abbreviation never := (env None 0 None).
Local Abbreviation buf := (NewHLSBuffer HLSBufferWindow HLSBufferCap).
Local Abbreviation u0 := (mkWorld tt ∅ 0 0 []).


Lemma HandleRTMPPlay_subscription_error_witness :
  fst (run (HandleRTMPPlay (Env := never) "/stream/nodexab" 7%nat) u0)
  = Returns (Some (ErrCollaborator 3))
  /\ new_calls u0 (snd (run (HandleRTMPPlay (Env := never) "/stream/nodexab" 7%nat) u0))
     = [LogConsumeC "nodexab"; GetNetworkStreamC "nodexab"]
       ++ [ForwarderStreamC "nodexab" RTMP]
       ++ [SubscribeToRTMPStreamC "nodexab"
             (Hash_Str (random_hash (Environment := never) 0)) NewQueue].
Proof.
  pose proof (HandleRTMPPlay_subscription_error (Env := never) "/stream/nodexab"
                7%nat u0 (ErrCollaborator 3)) as H.
  cbv zeta in H. destruct H as [Hr Hc].
  - vm_compute. discriminate.
  - reflexivity.
  - split; [exact Hr | exact Hc].
Defined.

Lemma getStream_raw_stream_error_witness :
  run (getStream (Env := never) (mkURL "/stream/nodexab" [])) u0
  = (Returns (None, None, Some ErrStreamPublish),
     mkWorld tt ∅ 0 0
       [GetNetworkStreamC "nodexab"; AddNewNetworkStreamC "nodexab" RTMP]).
Proof.
  pose proof (getStream_raw_stream_error (Env := never)
                (mkURL "/stream/nodexab" []) u0 (ErrCollaborator 1)) as H.
  cbv zeta in H. rewrite H; [reflexivity | vm_compute; discriminate | reflexivity ..].
Defined.

End RefusingExamples.
